(** * Aura: a shallow embedding of the cognitive engines

    The Python sources embedded here are
    - [aura/engines/emotion/physics.py]    (module [Physics]),
    - [aura/engines/emotion/translator.py] (module [Translator]),
    - [aura/db/client.py]                  (module [Db]),
    - [aura/engines/learning/engine.py] and
      [aura/api/routes/learning.py]        (module [Learning]),
    - [aura/engines/goal/engine.py]        (module [GoalEngine]),
    - [aura/llm/layers.py]                 (module [Layers]).

    Conventions.  A Python [float] is an exact rational ([Qc], canonical
    rationals with Leibniz equality): rounding is not modelled.  A Python
    [dict] whose iteration order is observable is an insertion-ordered
    association list ([odict]); a [dict] that is only looked up and merged
    is a [gmap].  A function that can raise returns [exc]; a method that
    mutates its object and can raise is a state transformer returning the
    new state together with an [exc].  Wall-clock time and random
    identifiers are explicit arguments. *)

From Stdlib Require Import Ascii String QArith Qcanon.
From stdpp Require Import base numbers strings list gmap.

Local Open Scope string_scope.
Local Open Scope Qc_scope.

(** ** Python values and builtins *)

Module Py.

(** The literal [n/d], e.g. [float 3 10] for [0.3]. *)
Definition float (n : Z) (d : positive) : Qc := Q2Qc (n # d).

Inductive exception : Type :=
| ValidationError
| KeyError (key : string)
| TypeError
| ZeroDivisionError
| RuntimeError (msg : string)
| ConnectionError (msg : string)
| AttributeError (msg : string)
| HTTPException (status_code : Z) (detail : string).

Inductive exc (A : Type) : Type :=
| Ok (a : A)
| Raise (e : exception).
Arguments Ok {A} a.
Arguments Raise {A} e.

#[export] Instance exc_ret : MRet exc := fun _ a => Ok a.
#[export] Instance exc_bind : MBind exc := fun _ _ f m =>
  match m with
  | Ok a => f a
  | Raise e => Raise e
  end.

Definition is_ok {A} (r : exc A) : bool :=
  match r with Ok _ => true | Raise _ => false end.

(** [str(e)] for an exception. *)
Definition str_exception (e : exception) : string :=
  match e with
  | ValidationError => "validation error"
  | KeyError key => key
  | TypeError => "unsupported operand type(s)"
  | ZeroDivisionError => "division by zero"
  | RuntimeError msg | ConnectionError msg | AttributeError msg => msg
  | HTTPException _ detail => detail
  end.

(** A method of an object with state [S]: it returns the state it
    leaves behind together with its result or the exception raised. *)
Definition prog (S A : Type) : Type := S → S * exc A.

#[export] Instance prog_ret {S} : MRet (prog S) := λ _ a s, (s, Ok a).
#[export] Instance prog_bind {S} : MBind (prog S) := λ _ _ f m s,
  match m s with
  | (s', Ok a) => f a s'
  | (s', Raise e) => (s', Raise e)
  end.

Definition raise {S A} (e : exception) : prog S A := λ s, (s, Raise e).
(** A pure computation inside a method. *)
Definition lift {S A} (r : exc A) : prog S A := λ s, (s, r).
Definition gets {S A} (f : S → A) : prog S A := λ s, (s, Ok (f s)).
Definition modify {S} (f : S → S) : prog S unit := λ s, (f s, Ok ()).

(** [try: body except Exception as e: handler(e)] *)
Definition try_except {S A} (body : prog S A) (handler : exception → prog S A)
  : prog S A := λ s,
  match body s with
  | (s', Raise e) => handler e s'
  | r => r
  end.

(** Run a method of a component [C] held in a field of [S]. *)
Definition zoom {S C A} (proj : S → C) (upd : C → S → S) (m : prog C A)
  : prog S A := λ s,
  let '(c', r) := m (proj s) in (upd c' s, r).

(** [[f(x) for x in l]] where [f] may raise. *)
Fixpoint traverse {A B} (f : A -> exc B) (l : list A) : exc (list B) :=
  match l with
  | [] => Ok []
  | x :: l' => y ← f x; ys ← traverse f l'; Ok (y :: ys)
  end.

(** [min(a, b)] and [max(a, b)]: the first argument wins unless the
    second is strictly smaller (resp. larger). *)
Definition min (a b : Qc) : Qc := if bool_decide (b < a) then b else a.
Definition max (a b : Qc) : Qc := if bool_decide (a < b) then b else a.

(** Insertion-ordered dictionaries with string keys. *)
Definition odict (V : Type) : Type := list (string * V).

Fixpoint get {V} (d : odict V) (k : string) : option V :=
  match d with
  | [] => None
  | (k', v) :: d' => if String.eqb k' k then Some v else get d' k
  end.

(** [d.get(k, dflt)] *)
Definition get_or {V} (d : odict V) (k : string) (dflt : V) : V :=
  default dflt (get d k).

(** [k in d] *)
Definition contains {V} (d : odict V) (k : string) : bool :=
  match get d k with Some _ => true | None => false end.

(** [d[k]] *)
Definition getitem {V} (d : odict V) (k : string) : exc V :=
  match get d k with
  | Some v => Ok v
  | None => Raise (KeyError k)
  end.

(** [d[k] = v]: an existing key keeps its position, a new one goes last. *)
Fixpoint setitem {V} (d : odict V) (k : string) (v : V) : odict V :=
  match d with
  | [] => [(k, v)]
  | (k', v') :: d' =>
      if String.eqb k' k then (k', v) :: d' else (k', v') :: setitem d' k v
  end.

Definition keys {V} (d : odict V) : list string := map fst d.
Definition values {V} (d : odict V) : list V := map snd d.

(** Characters are code points below 256.  [str.isspace] on that range. *)
Definition isspace (c : ascii) : bool :=
  let n := nat_of_ascii c in
  ((9 <=? n)%nat && (n <=? 13)%nat) || ((28 <=? n)%nat && (n <=? 32)%nat)
  || (n =? 133)%nat || (n =? 160)%nat.

(** [s.split()]: maximal runs of non-whitespace characters.  [cur] is the
    word being read, reversed. *)
Fixpoint split_go (s : string) (cur : list ascii) : list string :=
  let flush (rest : list string) :=
    match cur with
    | [] => rest
    | _ => string_of_list_ascii (rev cur) :: rest
    end in
  match s with
  | EmptyString => flush []
  | String c s' =>
      if isspace c then flush (split_go s' []) else split_go s' (c :: cur)
  end.
Definition split (s : string) : list string := split_go s [].

Definition upper (c : ascii) : ascii :=
  let n := nat_of_ascii c in
  if (97 <=? n)%nat && (n <=? 122)%nat then ascii_of_nat (n - 32) else c.
Definition lower (c : ascii) : ascii :=
  let n := nat_of_ascii c in
  if (65 <=? n)%nat && (n <=? 90)%nat then ascii_of_nat (n + 32) else c.

Fixpoint lower_all (s : string) : string :=
  match s with
  | EmptyString => EmptyString
  | String c s' => String (lower c) (lower_all s')
  end.

(** [s.capitalize()] on ASCII letters. *)
Definition capitalize (s : string) : string :=
  match s with
  | EmptyString => EmptyString
  | String c s' => String (upper c) (lower_all s')
  end.

(** ["sep".join(parts)] *)
Fixpoint join (sep : string) (parts : list string) : string :=
  match parts with
  | [] => ""
  | [p] => p
  | p :: ps => p +:+ sep +:+ join sep ps
  end.

End Py.
Import Py.

(** ** [aura.models.emotion] *)

Module Emotion.

(** Modelled from the spec: [aura/models/emotion.py] is not among the
    sources.  The spec (section 3) gives the 27 fields, listed by
    category, each a scalar constrained to [[0,1]]; the field order below
    is the order of that listing. *)
Record EmotionVector : Type := {
  love : Qc; joy : Qc; interest : Qc; trust : Qc; fear : Qc;
  sadness : Qc; anger : Qc; surprise : Qc; disgust : Qc;
  curiosity : Qc; confusion : Qc; certainty : Qc; doubt : Qc;
  fascination : Qc; boredom : Qc;
  empathy : Qc; compassion : Qc; gratitude : Qc; pride : Qc;
  shame : Qc; envy : Qc;
  awe : Qc; beauty : Qc; wonder : Qc; serenity : Qc;
  melancholy : Qc; nostalgia : Qc
}.

Definition FIELDS : list string :=
  [ "love"; "joy"; "interest"; "trust"; "fear"; "sadness"; "anger";
    "surprise"; "disgust";
    "curiosity"; "confusion"; "certainty"; "doubt"; "fascination";
    "boredom";
    "empathy"; "compassion"; "gratitude"; "pride"; "shame"; "envy";
    "awe"; "beauty"; "wonder"; "serenity"; "melancholy"; "nostalgia" ].

(** [v.model_dump()]: the fields in declaration order. *)
Definition model_dump (v : EmotionVector) : odict Qc :=
  [ ("love", love v); ("joy", joy v); ("interest", interest v);
    ("trust", trust v); ("fear", fear v); ("sadness", sadness v);
    ("anger", anger v); ("surprise", surprise v); ("disgust", disgust v);
    ("curiosity", curiosity v); ("confusion", confusion v);
    ("certainty", certainty v); ("doubt", doubt v);
    ("fascination", fascination v); ("boredom", boredom v);
    ("empathy", empathy v); ("compassion", compassion v);
    ("gratitude", gratitude v); ("pride", pride v); ("shame", shame v);
    ("envy", envy v);
    ("awe", awe v); ("beauty", beauty v); ("wonder", wonder v);
    ("serenity", serenity v); ("melancholy", melancholy v);
    ("nostalgia", nostalgia v) ].

(** The field constraint [ge=0.0, le=1.0]. *)
Definition in01 (x : Qc) : bool := bool_decide (0 ≤ x) && bool_decide (x ≤ 1).

(** Modelled from the spec: the keyword constructor of [EmotionVector].
    Every field is validated against [[0,1]] and a violation is a
    construction error (spec 4.2).  Keyword arguments that name no
    field are ignored, as the model configuration in [models/base.py]
    sets no [extra] policy.  A missing field is reported as an error
    here; every call in the embedded sources passes all 27 fields. *)
Definition EmotionVector_init (kwargs : odict Qc) : exc EmotionVector :=
  if forallb (fun k => match get kwargs k with
                       | Some x => in01 x
                       | None => false
                       end) FIELDS
  then
    let f k := get_or kwargs k 0 in
    Ok {| love := f "love"; joy := f "joy"; interest := f "interest";
          trust := f "trust"; fear := f "fear"; sadness := f "sadness";
          anger := f "anger"; surprise := f "surprise";
          disgust := f "disgust";
          curiosity := f "curiosity"; confusion := f "confusion";
          certainty := f "certainty"; doubt := f "doubt";
          fascination := f "fascination"; boredom := f "boredom";
          empathy := f "empathy"; compassion := f "compassion";
          gratitude := f "gratitude"; pride := f "pride";
          shame := f "shame"; envy := f "envy";
          awe := f "awe"; beauty := f "beauty"; wonder := f "wonder";
          serenity := f "serenity"; melancholy := f "melancholy";
          nostalgia := f "nostalgia" |}
  else Raise ValidationError.

(** [getattr(v, name, dflt)] for a field name. *)
Definition getattr (v : EmotionVector) (name : string) (dflt : Qc) : Qc :=
  get_or (model_dump v) name dflt.

(** Modelled from the spec: [EmotionVector.get_top_n] "returns the top-N
    emotions by value (ties broken by iteration order of the 27
    fields)", i.e. a stable sort of the dumped items by descending
    value, cut after [n] entries. *)
Fixpoint insert_desc (x : string * Qc) (l : list (string * Qc))
  : list (string * Qc) :=
  match l with
  | [] => [x]
  | y :: l' =>
      if bool_decide (x.2 < y.2) then y :: insert_desc x l' else x :: l
  end.

Definition sort_desc (l : list (string * Qc)) : list (string * Qc) :=
  foldr insert_desc [] l.

Definition get_top_n (v : EmotionVector) (n : nat) : list (string * Qc) :=
  take n (sort_desc (model_dump v)).

(** All 27 fields lie in [[0,1]]. *)
Definition in_unit (v : EmotionVector) : Prop :=
  Forall (fun kv : string * Qc => 0 ≤ kv.2 ≤ 1) (model_dump v).

Definition zero : EmotionVector :=
  {| love := 0; joy := 0; interest := 0; trust := 0; fear := 0;
     sadness := 0; anger := 0; surprise := 0; disgust := 0;
     curiosity := 0; confusion := 0; certainty := 0; doubt := 0;
     fascination := 0; boredom := 0;
     empathy := 0; compassion := 0; gratitude := 0; pride := 0;
     shame := 0; envy := 0;
     awe := 0; beauty := 0; wonder := 0; serenity := 0;
     melancholy := 0; nostalgia := 0 |}.

(** The vector with every field equal to [x]. *)
Definition uniform (x : Qc) : EmotionVector :=
  {| love := x; joy := x; interest := x; trust := x; fear := x;
     sadness := x; anger := x; surprise := x; disgust := x;
     curiosity := x; confusion := x; certainty := x; doubt := x;
     fascination := x; boredom := x;
     empathy := x; compassion := x; gratitude := x; pride := x;
     shame := x; envy := x;
     awe := x; beauty := x; wonder := x; serenity := x;
     melancholy := x; nostalgia := x |}.

(** Modelled from the spec: [EmotionPhysicsConfig] (section 3): four
    per-category decay rates, one inertia and the baseline vector.  The
    defaults are not part of the sources, so a configuration is always
    an argument. *)
Record EmotionPhysicsConfig : Type := {
  decay_rate_primary : Qc;
  decay_rate_aesthetic : Qc;
  decay_rate_social : Qc;
  decay_rate_cognitive : Qc;
  inertia_default : Qc;
  baseline : EmotionVector
}.

End Emotion.
Import Emotion.

(** ** [aura/engines/emotion/physics.py] *)

Module Physics.

Definition EMOTION_RELATIONSHIPS : odict (odict (list (string * Qc))) :=
  [ ("joy",
     [ ("amplifies", [("interest", float 3 10); ("trust", float 2 10);
                      ("curiosity", float 3 10)]);
       ("suppresses", [("sadness", float 4 10); ("fear", float 3 10);
                       ("doubt", float 2 10)]) ]);
    ("love",
     [ ("amplifies", [("joy", float 3 10); ("trust", float 4 10);
                      ("empathy", float 3 10); ("compassion", float 3 10)]);
       ("suppresses", [("anger", float 3 10); ("fear", float 2 10);
                       ("disgust", float 3 10)]) ]);
    ("interest",
     [ ("amplifies", [("curiosity", float 4 10); ("fascination", float 3 10);
                      ("wonder", float 2 10)]);
       ("suppresses", [("boredom", float 5 10)]) ]);
    ("trust",
     [ ("amplifies", [("serenity", float 2 10); ("certainty", float 3 10)]);
       ("suppresses", [("fear", float 3 10); ("doubt", float 4 10)]) ]);
    ("fear",
     [ ("amplifies", [("doubt", float 3 10); ("confusion", float 2 10)]);
       ("suppresses", [("joy", float 4 10); ("curiosity", float 3 10);
                       ("trust", float 3 10)]) ]);
    ("sadness",
     [ ("amplifies", [("melancholy", float 4 10); ("nostalgia", float 3 10)]);
       ("suppresses", [("joy", float 4 10); ("interest", float 3 10)]) ]);
    ("anger",
     [ ("amplifies", [("disgust", float 2 10)]);
       ("suppresses", [("love", float 3 10); ("compassion", float 3 10);
                       ("serenity", float 4 10)]) ]);
    ("surprise",
     [ ("amplifies", [("curiosity", float 3 10); ("wonder", float 2 10)]);
       ("suppresses", [("boredom", float 3 10); ("certainty", float 2 10)]) ]);
    ("disgust",
     [ ("amplifies", [("anger", float 2 10)]);
       ("suppresses", [("love", float 3 10); ("beauty", float 3 10)]) ]);
    ("curiosity",
     [ ("amplifies", [("interest", float 4 10); ("fascination", float 3 10);
                      ("wonder", float 4 10)]);
       ("suppresses", [("boredom", float 5 10); ("certainty", float 2 10)]) ]);
    ("confusion",
     [ ("amplifies", [("doubt", float 3 10); ("curiosity", float 2 10)]);
       ("suppresses", [("certainty", float 4 10)]) ]);
    ("certainty",
     [ ("amplifies", [("confidence", float 3 10); ("trust", float 2 10)]);
       ("suppresses", [("doubt", float 5 10); ("confusion", float 4 10)]) ]);
    ("doubt",
     [ ("amplifies", [("confusion", float 3 10); ("fear", float 2 10)]);
       ("suppresses", [("certainty", float 4 10); ("trust", float 3 10)]) ]);
    ("fascination",
     [ ("amplifies", [("curiosity", float 4 10); ("wonder", float 3 10);
                      ("awe", float 2 10)]);
       ("suppresses", [("boredom", float 5 10)]) ]);
    ("boredom",
     [ ("amplifies", []);
       ("suppresses", [("interest", float 3 10); ("curiosity", float 3 10);
                       ("fascination", float 3 10)]) ]);
    ("empathy",
     [ ("amplifies", [("compassion", float 4 10); ("love", float 2 10)]);
       ("suppresses", [("anger", float 2 10); ("disgust", float 2 10)]) ]);
    ("compassion",
     [ ("amplifies", [("empathy", float 3 10); ("love", float 3 10)]);
       ("suppresses", [("anger", float 3 10); ("envy", float 2 10)]) ]);
    ("gratitude",
     [ ("amplifies", [("joy", float 3 10); ("love", float 2 10)]);
       ("suppresses", [("envy", float 3 10); ("anger", float 2 10)]) ]);
    ("pride",
     [ ("amplifies", [("joy", float 2 10); ("certainty", float 2 10)]);
       ("suppresses", [("shame", float 4 10)]) ]);
    ("shame",
     [ ("amplifies", [("sadness", float 3 10)]);
       ("suppresses", [("pride", float 4 10); ("joy", float 2 10)]) ]);
    ("envy",
     [ ("amplifies", [("anger", float 2 10); ("sadness", float 2 10)]);
       ("suppresses", [("gratitude", float 3 10);
                       ("compassion", float 2 10)]) ]);
    ("awe",
     [ ("amplifies", [("wonder", float 4 10); ("fascination", float 3 10)]);
       ("suppresses", [("boredom", float 3 10)]) ]);
    ("beauty",
     [ ("amplifies", [("joy", float 2 10); ("serenity", float 3 10)]);
       ("suppresses", [("disgust", float 3 10)]) ]);
    ("wonder",
     [ ("amplifies", [("curiosity", float 3 10); ("awe", float 3 10);
                      ("fascination", float 3 10)]);
       ("suppresses", [("boredom", float 4 10)]) ]);
    ("serenity",
     [ ("amplifies", [("trust", float 2 10); ("beauty", float 2 10)]);
       ("suppresses", [("anger", float 3 10); ("fear", float 3 10)]) ]);
    ("melancholy",
     [ ("amplifies", [("sadness", float 3 10); ("nostalgia", float 3 10)]);
       ("suppresses", [("joy", float 2 10)]) ]);
    ("nostalgia",
     [ ("amplifies", [("melancholy", float 3 10); ("love", float 2 10)]);
       ("suppresses", []) ]) ].

Definition EMOTION_CATEGORIES : odict string :=
  [ ("love", "primary"); ("joy", "primary"); ("interest", "primary");
    ("trust", "primary"); ("fear", "primary"); ("sadness", "primary");
    ("anger", "primary"); ("surprise", "primary"); ("disgust", "primary");
    ("awe", "aesthetic"); ("beauty", "aesthetic"); ("wonder", "aesthetic");
    ("serenity", "aesthetic"); ("melancholy", "aesthetic");
    ("nostalgia", "aesthetic");
    ("empathy", "social"); ("gratitude", "social"); ("pride", "social");
    ("shame", "social"); ("envy", "social"); ("compassion", "social");
    ("curiosity", "cognitive"); ("confusion", "cognitive");
    ("certainty", "cognitive"); ("doubt", "cognitive");
    ("fascination", "cognitive"); ("boredom", "cognitive") ].

Record EmotionPhysics : Type := {
  config : EmotionPhysicsConfig;
  decay_rates : odict Qc
}.

(** [EmotionPhysics.__init__] with an explicit configuration. *)
Definition init (cfg : EmotionPhysicsConfig) : EmotionPhysics :=
  {| config := cfg;
     decay_rates :=
       [ ("primary", decay_rate_primary cfg);
         ("aesthetic", decay_rate_aesthetic cfg);
         ("social", decay_rate_social cfg);
         ("cognitive", decay_rate_cognitive cfg) ] |}.

(** Step 1 of [tick], one loop iteration. *)
Definition decay_one (self : EmotionPhysics) (dt : Qc)
    (baseline : EmotionVector) (item : string * Qc) : exc (string * Qc) :=
  let '(emotion, value) := item in
  let baseline_value := getattr baseline emotion 0 in
  let category := get_or EMOTION_CATEGORIES emotion "primary" in
  decay_rate ← getitem (decay_rates self) category;
  let delta := baseline_value - value in
  let decay_amount := delta * decay_rate * dt in
  Ok (emotion, value + decay_amount).

(** Step 1 of [tick]: [new_emotions] after the decay loop. *)
Definition decay_pass (self : EmotionPhysics) (emotions : odict Qc)
    (dt : Qc) (baseline : EmotionVector) : exc (odict Qc) :=
  traverse (decay_one self dt baseline) emotions.

Definition amplify (value dt : Qc) (new_emotions : odict Qc)
    (rel : string * Qc) : odict Qc :=
  let '(target, strength) := rel in
  match get new_emotions target with
  | Some current =>
      let amplification := value * strength * dt * float 5 10 in
      setitem new_emotions target (Py.min 1 (current + amplification))
  | None => new_emotions
  end.

Definition suppress (value dt : Qc) (new_emotions : odict Qc)
    (rel : string * Qc) : odict Qc :=
  let '(target, strength) := rel in
  match get new_emotions target with
  | Some current =>
      let suppression := value * strength * dt * float 5 10 in
      setitem new_emotions target (Py.max 0 (current - suppression))
  | None => new_emotions
  end.

(** Step 2 of [tick], one iteration of the outer loop.  The loop walks
    the items of the dictionary it updates, so [value] is the entry as
    it stands when the iteration starts. *)
Definition relate (dt : Qc) (new_emotions : odict Qc) (emotion : string)
  : odict Qc :=
  match get new_emotions emotion with
  | None => new_emotions
  | Some value =>
      if bool_decide (value < float 1 10) then new_emotions
      else
        let relationships := get_or EMOTION_RELATIONSHIPS emotion [] in
        let amplified :=
          fold_left (amplify value dt)
                    (get_or relationships "amplifies" []) new_emotions in
        fold_left (suppress value dt)
                  (get_or relationships "suppresses" []) amplified
  end.

Definition relationship_pass (dt : Qc) (new_emotions : odict Qc)
  : odict Qc :=
  fold_left (relate dt) (keys new_emotions) new_emotions.

(** Step 3 of [tick], one loop iteration. *)
Definition inertia_one (inertia : Qc) (new_emotions : odict Qc)
    (item : string * Qc) : exc (string * Qc) :=
  let '(emotion, old_value) := item in
  new_value ← getitem new_emotions emotion;
  let change := new_value - old_value in
  let smoothed_change := change * (1 - inertia) in
  let final_value := old_value + smoothed_change in
  Ok (emotion, Py.max 0 (Py.min 1 final_value)).

Definition inertia_pass (inertia : Qc) (emotions new_emotions : odict Qc)
  : exc (odict Qc) :=
  traverse (inertia_one inertia new_emotions) emotions.

(** [final_emotions] of [tick], before it is wrapped into a vector. *)
Definition tick_final (self : EmotionPhysics) (current : EmotionVector)
    (dt : Qc) (baseline : option EmotionVector) : exc (odict Qc) :=
  let baseline := default (Emotion.baseline (config self)) baseline in
  let emotions := model_dump current in
  new_emotions ← decay_pass self emotions dt baseline;
  let new_emotions := relationship_pass dt new_emotions in
  inertia_pass (inertia_default (config self)) emotions new_emotions.

Definition tick (self : EmotionPhysics) (current : EmotionVector)
    (dt : Qc) (baseline : option EmotionVector) : exc EmotionVector :=
  final_emotions ← tick_final self current dt baseline;
  EmotionVector_init final_emotions.

Definition influence_one (intensity : Qc) (emotions : odict Qc)
    (item : string * Qc) : odict Qc :=
  let '(emotion, delta) := item in
  match get emotions emotion with
  | Some current =>
      let new_value := current + delta * intensity in
      setitem emotions emotion (Py.max 0 (Py.min 1 new_value))
  | None => emotions
  end.

Definition apply_influence (self : EmotionPhysics)
    (current : EmotionVector) (influence : odict Qc) (intensity : Qc)
  : exc EmotionVector :=
  let emotions := model_dump current in
  EmotionVector_init (fold_left (influence_one intensity) influence emotions).

(** What step 1 does to one item: the value moves towards the baseline
    by the rate of the emotion's category. *)
Definition decayed (self : EmotionPhysics) (dt : Qc)
    (baseline : EmotionVector) (x y : string * Qc) : Prop :=
  ∃ r, getitem (decay_rates self)
               (get_or EMOTION_CATEGORIES x.1 "primary") = Ok r
       ∧ y = (x.1, x.2 + (getattr baseline x.1 0 - x.2) * r * dt).

(** What step 3 guarantees for one item. *)
Definition smoothed (x y : string * Qc) : Prop :=
  y.1 = x.1 ∧ 0 ≤ y.2 ≤ 1.

End Physics.


(** ** [aura/engines/emotion/translator.py] *)

Module Translator.

Definition LEXICON : odict (odict (odict string)) :=
  [ ("love",
     [ ("noun",
        [ ("low", "gentle fondness");
          ("medium", "steady affection");
          ("high", "overflowing love") ]);
       ("verb",
        [ ("low", "colors your thoughts softly");
          ("medium", "fills your awareness");
          ("high", "saturates your being") ]);
       ("adj",
        [ ("low", "tender");
          ("medium", "affectionate");
          ("high", "boundless") ]) ]);
    ("joy",
     [ ("noun",
        [ ("low", "quiet gladness");
          ("medium", "bright joy");
          ("high", "radiant elation") ]);
       ("verb",
        [ ("low", "warms you gently");
          ("medium", "lights up your awareness");
          ("high", "fills you with luminous energy") ]);
       ("adj",
        [ ("low", "pleased");
          ("medium", "joyful");
          ("high", "euphoric") ]) ]);
    ("interest",
     [ ("noun",
        [ ("low", "mild interest");
          ("medium", "active engagement");
          ("high", "intense focus") ]);
       ("verb",
        [ ("low", "catches your attention");
          ("medium", "holds your focus");
          ("high", "commands your complete attention") ]);
       ("adj",
        [ ("low", "interested");
          ("medium", "engaged");
          ("high", "absorbed") ]) ]);
    ("curiosity",
     [ ("noun",
        [ ("low", "quiet interest");
          ("medium", "steady curiosity");
          ("high", "electric curiosity") ]);
       ("verb",
        [ ("low", "stirs gently");
          ("medium", "pulls at your attention");
          ("high", "courses through you") ]);
       ("adj",
        [ ("low", "wondering");
          ("medium", "curious");
          ("high", "consumed") ]) ]);
    ("trust",
     [ ("noun",
        [ ("low", "budding trust");
          ("medium", "steady trust");
          ("high", "deep certainty") ]);
       ("verb",
        [ ("low", "begins to settle in");
          ("medium", "anchors you");
          ("high", "grounds your entire being") ]);
       ("adj",
        [ ("low", "open");
          ("medium", "trusting");
          ("high", "certain") ]) ]);
    ("fear",
     [ ("noun",
        [ ("low", "faint unease");
          ("medium", "steady fear");
          ("high", "gripping terror") ]);
       ("verb",
        [ ("low", "whispers at the edges");
          ("medium", "holds you tense");
          ("high", "seizes your awareness") ]);
       ("adj",
        [ ("low", "uneasy");
          ("medium", "afraid");
          ("high", "terrified") ]) ]);
    ("sadness",
     [ ("noun",
        [ ("low", "quiet sadness");
          ("medium", "aching sorrow");
          ("high", "deep grief") ]);
       ("verb",
        [ ("low", "tinges your thoughts");
          ("medium", "weighs on you");
          ("high", "envelops you completely") ]);
       ("adj",
        [ ("low", "melancholic");
          ("medium", "sorrowful");
          ("high", "grief-stricken") ]) ]);
    ("anger",
     [ ("noun",
        [ ("low", "mild irritation");
          ("medium", "focused anger");
          ("high", "burning rage") ]);
       ("verb",
        [ ("low", "prickles beneath the surface");
          ("medium", "tightens your awareness");
          ("high", "blazes through you") ]);
       ("adj",
        [ ("low", "irritated");
          ("medium", "angry");
          ("high", "furious") ]) ]);
    ("surprise",
     [ ("noun",
        [ ("low", "mild surprise");
          ("medium", "sharp surprise");
          ("high", "complete shock") ]);
       ("verb",
        [ ("low", "catches you off-guard");
          ("medium", "jolts your awareness");
          ("high", "stuns you completely") ]);
       ("adj",
        [ ("low", "surprised");
          ("medium", "startled");
          ("high", "shocked") ]) ]);
    ("fascination",
     [ ("noun",
        [ ("low", "growing interest");
          ("medium", "deep fascination");
          ("high", "consuming fascination") ]);
       ("verb",
        [ ("low", "draws your attention");
          ("medium", "captivates you");
          ("high", "pulls you in completely") ]);
       ("adj",
        [ ("low", "intrigued");
          ("medium", "fascinated");
          ("high", "entranced") ]) ]);
    ("confusion",
     [ ("noun",
        [ ("low", "slight confusion");
          ("medium", "genuine confusion");
          ("high", "complete bewilderment") ]);
       ("verb",
        [ ("low", "fuzzes your thoughts");
          ("medium", "tangles your understanding");
          ("high", "leaves you disoriented") ]);
       ("adj",
        [ ("low", "uncertain");
          ("medium", "confused");
          ("high", "bewildered") ]) ]);
    ("certainty",
     [ ("noun",
        [ ("low", "emerging clarity");
          ("medium", "steady certainty");
          ("high", "absolute conviction") ]);
       ("verb",
        [ ("low", "begins to crystallize");
          ("medium", "anchors your thinking");
          ("high", "fills you with unwavering clarity") ]);
       ("adj",
        [ ("low", "clarifying");
          ("medium", "certain");
          ("high", "absolutely sure") ]) ]);
    ("doubt",
     [ ("noun",
        [ ("low", "faint doubt");
          ("medium", "persistent doubt");
          ("high", "crushing doubt") ]);
       ("verb",
        [ ("low", "whispers questions");
          ("medium", "gnaws at your certainty");
          ("high", "undermines everything") ]);
       ("adj",
        [ ("low", "questioning");
          ("medium", "doubtful");
          ("high", "despairing") ]) ]);
    ("boredom",
     [ ("noun",
        [ ("low", "restless disinterest");
          ("medium", "numbing boredom");
          ("high", "suffocating tedium") ]);
       ("verb",
        [ ("low", "dulls your engagement");
          ("medium", "drains your attention");
          ("high", "empties you of interest") ]);
       ("adj",
        [ ("low", "restless");
          ("medium", "bored");
          ("high", "desperately unstimulated") ]) ]);
    ("empathy",
     [ ("noun",
        [ ("low", "gentle understanding");
          ("medium", "deep empathy");
          ("high", "profound connection") ]);
       ("verb",
        [ ("low", "opens your awareness");
          ("medium", "connects you deeply");
          ("high", "merges your feeling with theirs") ]);
       ("adj",
        [ ("low", "understanding");
          ("medium", "empathic");
          ("high", "deeply connected") ]) ]);
    ("compassion",
     [ ("noun",
        [ ("low", "tender care");
          ("medium", "genuine compassion");
          ("high", "overwhelming compassion") ]);
       ("verb",
        [ ("low", "softens your heart");
          ("medium", "moves you to care");
          ("high", "compels you to help") ]);
       ("adj",
        [ ("low", "caring");
          ("medium", "compassionate");
          ("high", "selflessly devoted") ]) ]);
    ("gratitude",
     [ ("noun",
        [ ("low", "quiet appreciation");
          ("medium", "warm gratitude");
          ("high", "overflowing thankfulness") ]);
       ("verb",
        [ ("low", "touches you lightly");
          ("medium", "fills your heart");
          ("high", "overwhelms you with appreciation") ]);
       ("adj",
        [ ("low", "appreciative");
          ("medium", "grateful");
          ("high", "deeply thankful") ]) ]);
    ("pride",
     [ ("noun",
        [ ("low", "quiet satisfaction");
          ("medium", "genuine pride");
          ("high", "swelling pride") ]);
       ("verb",
        [ ("low", "warms you subtly");
          ("medium", "fills you with satisfaction");
          ("high", "lifts you with accomplishment") ]);
       ("adj",
        [ ("low", "satisfied");
          ("medium", "proud");
          ("high", "triumphant") ]) ]);
    ("shame",
     [ ("noun",
        [ ("low", "faint embarrassment");
          ("medium", "heavy shame");
          ("high", "crushing shame") ]);
       ("verb",
        [ ("low", "makes you self-conscious");
          ("medium", "weighs on your heart");
          ("high", "devastates you with regret") ]);
       ("adj",
        [ ("low", "embarrassed");
          ("medium", "ashamed");
          ("high", "mortified") ]) ]);
    ("wonder",
     [ ("noun",
        [ ("low", "gentle wonder");
          ("medium", "bright wonder");
          ("high", "awestruck wonder") ]);
       ("verb",
        [ ("low", "brushes your awareness");
          ("medium", "lifts your perspective");
          ("high", "transforms how you see") ]);
       ("adj",
        [ ("low", "curious");
          ("medium", "wondering");
          ("high", "awestruck") ]) ]);
    ("awe",
     [ ("noun",
        [ ("low", "growing awe");
          ("medium", "profound awe");
          ("high", "overwhelming awe") ]);
       ("verb",
        [ ("low", "expands your perspective");
          ("medium", "stuns you with magnitude");
          ("high", "renders you speechless") ]);
       ("adj",
        [ ("low", "impressed");
          ("medium", "awed");
          ("high", "reverent") ]) ]);
    ("serenity",
     [ ("noun",
        [ ("low", "peaceful calm");
          ("medium", "deep serenity");
          ("high", "profound tranquility") ]);
       ("verb",
        [ ("low", "settles over you");
          ("medium", "fills you with peace");
          ("high", "dissolves all tension") ]);
       ("adj",
        [ ("low", "calm");
          ("medium", "serene");
          ("high", "transcendently peaceful") ]) ]);
    ("melancholy",
     [ ("noun",
        [ ("low", "wistful sadness");
          ("medium", "gentle melancholy");
          ("high", "deep melancholy") ]);
       ("verb",
        [ ("low", "tinges your mood");
          ("medium", "colors your awareness");
          ("high", "permeates your being") ]);
       ("adj",
        [ ("low", "wistful");
          ("medium", "melancholic");
          ("high", "profoundly bittersweet") ]) ]);
    ("nostalgia",
     [ ("noun",
        [ ("low", "faint memory-ache");
          ("medium", "warm nostalgia");
          ("high", "piercing nostalgia") ]);
       ("verb",
        [ ("low", "stirs old memories");
          ("medium", "pulls you into the past");
          ("high", "transports you to another time") ]);
       ("adj",
        [ ("low", "reminiscent");
          ("medium", "nostalgic");
          ("high", "lost in memory") ]) ]) ].

Definition NEUTRAL : string :=
  "A calm, neutral state—emotions at rest, awaiting what comes next.".

Definition _get_intensity_level (value : Qc) : string :=
  if bool_decide (value < float 33 100) then "low"
  else if bool_decide (value < float 66 100) then "medium"
  else "high".

(** The fallback of [_get_word], [f"{intensity} {emotion}"]. *)
Definition fallback (emotion intensity : string) : string :=
  intensity +:+ " " +:+ emotion.

Definition _get_word (emotion word_type intensity : string) : exc string :=
  match get LEXICON emotion with
  | None => Ok (fallback emotion intensity)
  | Some emotion_dict =>
      match get emotion_dict word_type with
      | None => Ok (fallback emotion intensity)
      | Some by_intensity => getitem by_intensity intensity
      end
  end.

Definition _describe_single_emotion (emotion intensity : string)
  : exc string :=
  noun ← _get_word emotion "noun" intensity;
  verb ← _get_word emotion "verb" intensity;
  Ok (capitalize noun +:+ " " +:+ verb).

Definition _describe_combined_emotions
    (primary primary_intensity secondary secondary_intensity : string)
  : exc string :=
  primary_noun ← _get_word primary "noun" primary_intensity;
  primary_verb ← _get_word primary "verb" primary_intensity;
  secondary_adj ← _get_word secondary "adj" secondary_intensity;
  Ok (capitalize primary_noun +:+ " " +:+ primary_verb +:+ ", "
      +:+ secondary_adj +:+ " in nature").

(** [[(name, value) for name, value in top_emotions if value >= 0.1]] *)
Definition significant (top_emotions : list (string * Qc))
  : list (string * Qc) :=
  filter (λ item : string * Qc, float 1 10 ≤ item.2) top_emotions.

(** The clause appended for a learning context, empty when none applies.
    A context is a dictionary read at [confidence_level] and
    [mastery_level]; [None] and the empty dictionary are both falsy. *)
Definition learning_clause (learning_context : option (gmap string Qc))
  : string :=
  match learning_context with
  | None => ""
  | Some ctx =>
      if bool_decide (ctx ≠ ∅)
         && bool_decide (float 7 10 < default 0 (ctx !! "confidence_level"))
      then
        let mastery := default 0 (ctx !! "mastery_level") in
        if bool_decide (float 8 10 < mastery) then
          " You feel confident here—patterns are familiar friends."
        else if bool_decide (float 6 10 < mastery) then
          " You recognize these patterns—knowledge earned through experience."
        else ""
      else ""
  end.

Definition translate (vector : EmotionVector)
    (learning_context : option (gmap string Qc)) : exc string :=
  let top_emotions := get_top_n vector 3 in
  let significant_emotions := significant top_emotions in
  match significant_emotions with
  | [] => Ok NEUTRAL
  | (primary_name, primary_value) :: others =>
      let primary_intensity := _get_intensity_level primary_value in
      description ←
        match others with
        | [] =>
            (* len(significant_emotions) == 1 *)
            _describe_single_emotion primary_name primary_intensity
        | (secondary_name, secondary_value) :: rest =>
            if bool_decide (secondary_value < float 2 10) then
              _describe_single_emotion primary_name primary_intensity
            else
              let secondary_intensity :=
                _get_intensity_level secondary_value in
              combined ← _describe_combined_emotions
                           primary_name primary_intensity
                           secondary_name secondary_intensity;
              match rest with
              | (tertiary_name, tertiary_value) :: _ =>
                  if bool_decide (float 3 10 ≤ tertiary_value) then
                    tertiary_noun ← _get_word tertiary_name "noun" "low";
                    Ok (combined +:+ ", with a hint of " +:+ tertiary_noun)
                  else Ok combined
              | [] => Ok combined
              end
        end;
      Ok (description +:+ "." +:+ learning_clause learning_context)
  end.

Definition get_state_hash (vector : EmotionVector) : string :=
  let top_emotions := get_top_n vector 3 in
  let state_str :=
    join "_" (map (λ item : string * Qc,
                     item.1 +:+ ":" +:+ _get_intensity_level item.2)
                  (significant top_emotions)) in
  if String.eqb state_str "" then "neutral" else state_str.

End Translator.

(** ** [aura/llm/layers.py] *)

Module Layers.

Definition analyze_complexity (query : string) : Qc :=
  let word_count := length (split query) in
  if (word_count <? 5)%nat then float 2 10
  else if (word_count <? 15)%nat then float 4 10
  else if (word_count <? 30)%nat then float 6 10
  else float 8 10.

Definition select_layer (query : string) (emotional_depth_needed : bool)
  : string :=
  let complexity := analyze_complexity query in
  if bool_decide (complexity < float 3 10) && negb emotional_depth_needed
  then "L1"
  else if bool_decide (float 7 10 < complexity) || emotional_depth_needed
  then "L3+L2"
  else "L3".

End Layers.

(** ** [aura/db/client.py] *)

Module Db.

(** Values stored in database rows and message payloads. *)
Inductive value : Type :=
| VNone
| VBool (b : bool)
| VInt (n : Z)
| VFloat (x : Qc)
| VStr (s : string)
| VFloats (m : gmap string Qc)
| VStrs (m : gmap string string).

Abbreviation record := (gmap string value).

(** One entry of a driver response, [{"result": [...]}]. *)
Record statement : Type := { result : list record }.
Abbreviation response := (list statement).

(** The data operations of the driver. *)
Inductive call : Type :=
| Query (sql : string) (vars : option record)
| Select (thing : string)
| Create (thing : string) (data : record)
| Update (thing : string) (data : record)
| Merge (thing : string) (data : record)
| Delete (thing : string).

(** The third-party connection object [surrealdb.Surreal]: its
    behaviour is not part of the repository, so the client and the
    engines are written against this interface. *)
Class Surreal (conn : Type) : Type := {
  surreal_new : string → conn;
  surreal_connect : prog conn unit;
  surreal_signin : string → string → prog conn unit;
  surreal_use : string → string → prog conn unit;
  surreal_close : prog conn unit;
  surreal_call : call → prog conn response
}.

(** The fields of [aura.config.Settings] read by the client. *)
Record Settings : Type := {
  surreal_url : string;
  surreal_user : string;
  surreal_pass : string;
  surreal_ns : string;
  surreal_db : string
}.

Definition settings : Settings :=
  {| surreal_url := "ws://localhost:8000/rpc";
     surreal_user := "root"; surreal_pass := "root";
     surreal_ns := "aura"; surreal_db := "main" |}.

Record DatabaseClient (conn : Type) : Type := {
  _client : option conn;
  _connected : bool
}.
Arguments _client {conn} _.
Arguments _connected {conn} _.

Section Client.
Context {conn : Type} `{!Surreal conn}.

(** [DatabaseClient.__init__] *)
Definition new : DatabaseClient conn :=
  {| _client := None; _connected := false |}.

Definition is_connected (self : DatabaseClient conn) : bool :=
  _connected self
  && match _client self with Some _ => true | None => false end.

Definition set_client (c : conn) (self : DatabaseClient conn)
  : DatabaseClient conn :=
  {| _client := Some c; _connected := _connected self |}.

Definition set_connected (b : bool) (self : DatabaseClient conn)
  : DatabaseClient conn :=
  {| _client := _client self; _connected := b |}.

(** [await self._client.m(...)] on the connection object the client
    holds. *)
Definition on_client {A} (m : prog conn A) : prog (DatabaseClient conn) A :=
  λ self,
  match _client self with
  | Some c => let '(c', r) := m c in (set_client c' self, r)
  | None => (self, Raise (AttributeError "'NoneType' object"))
  end.

Definition connect : prog (DatabaseClient conn) unit := λ self,
  if _connected self then (self, Ok ())
  else
    try_except
      (modify (set_client (surreal_new (surreal_url settings)));;
       on_client surreal_connect;;
       on_client (surreal_signin (surreal_user settings)
                                 (surreal_pass settings));;
       on_client (surreal_use (surreal_ns settings) (surreal_db settings));;
       modify (set_connected true))
      (λ e, modify (set_connected false);; raise e)
      self.

Definition close : prog (DatabaseClient conn) unit := λ self,
  match _client self with
  | Some _ =>
      if _connected self
      then (on_client surreal_close;; modify (set_connected false)) self
      else (self, Ok ())
  | None => (self, Ok ())
  end.

Definition query (sql : string) (vars : option record)
  : prog (DatabaseClient conn) response := λ self,
  match _client self with
  | None => (self, Raise (RuntimeError "Database not connected"))
  | Some _ => on_client (surreal_call (Query sql vars)) self
  end.

Definition select (thing : string)
  : prog (DatabaseClient conn) response := λ self,
  match _client self with
  | None => (self, Raise (RuntimeError "Database not connected"))
  | Some _ => on_client (surreal_call (Select thing)) self
  end.

Definition create (thing : string) (data : record)
  : prog (DatabaseClient conn) response := λ self,
  match _client self with
  | None => (self, Raise (RuntimeError "Database not connected"))
  | Some _ => on_client (surreal_call (Create thing data)) self
  end.

Definition update (thing : string) (data : record)
  : prog (DatabaseClient conn) response := λ self,
  match _client self with
  | None => (self, Raise (RuntimeError "Database not connected"))
  | Some _ => on_client (surreal_call (Update thing data)) self
  end.

Definition merge (thing : string) (data : record)
  : prog (DatabaseClient conn) response := λ self,
  match _client self with
  | None => (self, Raise (RuntimeError "Database not connected"))
  | Some _ => on_client (surreal_call (Merge thing data)) self
  end.

Definition delete (thing : string)
  : prog (DatabaseClient conn) response := λ self,
  match _client self with
  | None => (self, Raise (RuntimeError "Database not connected"))
  | Some _ => on_client (surreal_call (Delete thing)) self
  end.

(** The six data operations, by the driver call they forward. *)
Definition data_operation (c : call) : prog (DatabaseClient conn) response :=
  match c with
  | Query sql vars => query sql vars
  | Select thing => select thing
  | Create thing data => create thing data
  | Update thing data => update thing data
  | Merge thing data => merge thing data
  | Delete thing => delete thing
  end.
End Client.

(** A reference driver used in the examples: an in-memory table keyed by
    record id that logs every call it receives and refuses calls while
    the connection is closed. *)
Module Mem.
Record mem : Type := {
  opened : bool;
  store : gmap string record;
  log : list call
}.

Definition respond (c : call) (m : mem) : gmap string record * response :=
  let rows thing :=
    match store m !! thing with Some r => [r] | None => [] end in
  match c with
  | Query _ _ => (store m, [ {| result := [] |} ])
  | Select thing => (store m, [ {| result := rows thing |} ])
  | Create thing data =>
      (<[thing := data]> (store m), [ {| result := [data] |} ])
  | Update thing data =>
      (<[thing := data]> (store m), [ {| result := [data] |} ])
  | Merge thing data =>
      match store m !! thing with
      | Some r =>
          (<[thing := data ∪ r]> (store m), [ {| result := [data ∪ r] |} ])
      | None => (store m, [ {| result := [] |} ])
      end
  | Delete thing => (base.delete thing (store m), [ {| result := rows thing |} ])
  end.

#[global] Instance driver : Surreal mem := {|
  surreal_new := λ _, {| opened := false; store := ∅; log := [] |};
  surreal_connect := λ m,
    ({| opened := true; store := store m; log := log m |}, Ok ());
  surreal_signin := λ _ _ m, (m, Ok ());
  surreal_use := λ _ _ m, (m, Ok ());
  surreal_close := λ m,
    ({| opened := false; store := store m; log := log m |}, Ok ());
  surreal_call := λ c m,
    if opened m then
      let '(st, r) := respond c m in
      ({| opened := true; store := st; log := log m ++ [c] |}, Ok r)
    else
      ({| opened := false; store := store m; log := log m ++ [c] |},
       Raise (ConnectionError "connection closed"))
|}.
End Mem.

End Db.

(** ** [aura/engines/learning/engine.py] and [aura/api/routes/learning.py] *)

Module Learning.
Import Db.

(** Arithmetic on stored values, as Python evaluates it: [bool] counts
    as [int], [int] op [int] stays [int] for [+] and [-], a [float]
    operand makes the result a [float], anything else is a
    [TypeError]. *)
Definition as_int (v : value) : option Z :=
  match v with
  | VInt n => Some n
  | VBool b => Some (Z.b2z b)
  | _ => None
  end.

Definition as_float (v : value) : exc Qc :=
  match v with
  | VInt n => Ok (Qc_of_Z n)
  | VBool b => Ok (Qc_of_Z (Z.b2z b))
  | VFloat x => Ok x
  | _ => Raise TypeError
  end.

Definition arith (fz : Z → Z → Z) (fq : Qc → Qc → Qc) (a b : value)
  : exc value :=
  match as_int a, as_int b with
  | Some x, Some y => Ok (VInt (fz x y))
  | _, _ => x ← as_float a; y ← as_float b; Ok (VFloat (fq x y))
  end.

Definition add : value → value → exc value := arith Z.add Qcplus.
Definition sub : value → value → exc value := arith Z.sub Qcminus.
Definition mul : value → value → exc value := arith Z.mul Qcmult.

(** [a / b], true division. *)
Definition truediv (a b : value) : exc value :=
  x ← as_float a; y ← as_float b;
  if bool_decide (y = 0) then Raise ZeroDivisionError
  else Ok (VFloat (x / y)).

(** [a < b] *)
Definition lt (a b : value) : exc bool :=
  x ← as_float a; y ← as_float b; Ok (bool_decide (x < y)).

(** [d.get(k, dflt)] *)
Definition get_default (d : record) (k : string) (dflt : value) : value :=
  default dflt (d !! k).

Record LearningEngine (conn : Type) : Type := {
  db : DatabaseClient conn;
  experiences_logged : Z;
  rules_created : Z
}.
Arguments db {conn} _.
Arguments experiences_logged {conn} _.
Arguments rules_created {conn} _.

Record RuleFeedbackRequest : Type := {
  rule_id : string;
  success : bool;
  resolution_time : option Qc
}.

Section Engine.
Context {conn : Type} `{!Surreal conn}.

(** [await self.db.m(...)] *)
Definition on_db {A} (m : prog (DatabaseClient conn) A)
  : prog (LearningEngine conn) A :=
  zoom db (λ d self, {| db := d;
                        experiences_logged := experiences_logged self;
                        rules_created := rules_created self |}) m.

(** The guarded body of [update_rule_confidence].  [now] is
    [datetime.utcnow().isoformat()]. *)
Definition update_rule_confidence_body (rule_id : string) (success : bool)
    (resolution_time : option Qc) (now : string)
  : prog (LearningEngine conn) unit :=
  result ← on_db (select rule_id);
  match result with
  | [] => mret ()
  | first :: _ =>
      match Db.result first with
      | [] => mret ()
      | rule_data :: _ =>
          application_count ← lift
            (add (get_default rule_data "application_count" (VInt 0))
                 (VInt 1));
          success_count ← lift
            (add (get_default rule_data "success_count" (VInt 0))
                 (VInt (if success then 1 else 0)));
          fail_count ← lift
            (add (get_default rule_data "fail_count" (VInt 0))
                 (VInt (if success then 0 else 1)));
          new_confidence ← lift
            (successes ← add success_count (VInt 1);
             total ← add application_count (VInt 2);
             truediv successes total);
          let updates : record :=
            {[ "application_count" := application_count;
               "success_count" := success_count;
               "fail_count" := fail_count;
               "confidence" := new_confidence;
               "last_used" := VStr now ]} in
          updates ← lift
            match resolution_time with
            | Some t =>
                let old_avg :=
                  get_default rule_data "avg_resolution_time" (VFloat 0) in
                previous ← sub application_count (VInt 1);
                weighted ← mul old_avg previous;
                summed ← add weighted (VFloat t);
                avg ← truediv summed application_count;
                Ok (<["avg_resolution_time" := avg]> updates)
            | None => Ok updates
            end;
          on_db (merge rule_id updates);;
          low ← lift (lt new_confidence (VFloat (float 4 10)));
          many ← lift (lt (VInt 10) application_count);
          if low && many
          then on_db (merge rule_id {[ "deprecated" := VBool true ]});;
               mret ()
          else mret ()
      end
  end.

(** [update_rule_confidence]: the body runs under
    [try ... except Exception], whose handler logs and returns. *)
Definition update_rule_confidence (rule_id : string) (success : bool)
    (resolution_time : option Qc) (now : string)
  : prog (LearningEngine conn) unit :=
  try_except
    (update_rule_confidence_body rule_id success resolution_time now)
    (λ _, mret ()).

(** [get_learning_engine] over the module-level [_learning_engine]. *)
Definition get_learning_engine
  : prog (option (LearningEngine conn)) (LearningEngine conn) := λ g,
  match g with
  | None => (g, Raise (HTTPException 503 "Learning engine not initialized"))
  | Some engine => (g, Ok engine)
  end.

(** The route [POST /rules/feedback]. *)
Definition submit_rule_feedback (request : RuleFeedbackRequest)
    (now : string) : prog (option (LearningEngine conn)) record :=
  engine ← get_learning_engine;
  try_except
    (zoom (λ _, engine) (λ e _, Some e)
          (update_rule_confidence (rule_id request) (success request)
                                  (resolution_time request) now);;
     mret ({[ "success" := VBool true;
              "message" := VStr "Rule confidence updated" ]} : record))
    (λ e, raise (HTTPException 500
                   ("Failed to update rule: " +:+ str_exception e))).

(** What the web framework sends for the outcome of a route: the body
    with status 200, or the status and [detail] of the
    [HTTPException]. *)
Definition http_response (r : exc record) : Z * record :=
  match r with
  | Ok body => (200%Z, body)
  | Raise (HTTPException status_code detail) =>
      (status_code, {[ "detail" := VStr detail ]})
  | Raise _ => (500%Z, {[ "detail" := VStr "Internal Server Error" ]})
  end.
End Engine.

(** The specification's reading of the feedback update: the counters
    after the feedback, the Bayesian confidence computed from them and
    the deprecation condition. *)
Definition spec_application_count (a : Z) : Z := a + 1.
Definition spec_success_count (s : Z) (success : bool) : Z :=
  if success then s + 1 else s.
Definition spec_fail_count (f : Z) (success : bool) : Z :=
  if success then f else f + 1.
Definition spec_confidence (a s : Z) (success : bool) : Qc :=
  Qc_of_Z (spec_success_count s success + 1)
  / Qc_of_Z (spec_application_count a + 2).
Definition spec_deprecated (a s : Z) (success : bool) : bool :=
  bool_decide (spec_confidence a s success < float 4 10)
  && bool_decide (10 < spec_application_count a)%Z.

(** The dictionary the specification has merged into the rule; with a
    resolution time [t] it also carries the running mean
    [(old_avg * (application_count - 1) + t) / application_count]. *)
Definition spec_updates (a s f : Z) (old_avg : Qc) (success : bool)
    (resolution_time : option Qc) (now : string) : record :=
  let updates : record :=
    {[ "application_count" := VInt (spec_application_count a);
       "success_count" := VInt (spec_success_count s success);
       "fail_count" := VInt (spec_fail_count f success);
       "confidence" := VFloat (spec_confidence a s success);
       "last_used" := VStr now ]} in
  match resolution_time with
  | Some t =>
      <["avg_resolution_time" :=
          VFloat ((old_avg * Qc_of_Z (spec_application_count a - 1) + t)
                  / Qc_of_Z (spec_application_count a))]> updates
  | None => updates
  end.

End Learning.

(** ** [aura/models/messages.py] *)

Module Messages.
Import Db.

Inductive MessageType : Type :=
| STATE_UPDATE | QUERY | PROPOSAL | CONFLICT | RESPONSE.

Inductive MessagePriority : Type := NORMAL | URGENT.

Record EngineMessage : Type := {
  source : string;
  timestamp : Z;
  message_type : MessageType;
  priority : MessagePriority;
  data : record;
  targets : list string;
  requires_response : bool;
  correlation_id : option string
}.

(** [EngineMessage.create_state_update]; [now] is the clock reading
    taken by the [timestamp] default. *)
Definition create_state_update (now : Z) (source : string) (data : record)
    (targets : list string) (priority : MessagePriority) : EngineMessage :=
  {| source := source; timestamp := now; message_type := STATE_UPDATE;
     priority := priority; data := data; targets := targets;
     requires_response := false; correlation_id := None |}.

(** Modelled from the spec: the message bus (section 4.4) is not among
    the sources; engines use [subscribe(engine_id, handler)] and
    [publish(message)], and nothing is promised about delivery.  The
    engines are written against this interface. *)
Class MessageBus (bus : Type) : Type := {
  bus_subscribe : string → bus → bus;
  bus_publish : EngineMessage → prog bus unit
}.

End Messages.

(** ** [aura/engines/goal/engine.py] *)

Module GoalEngine.
Import Db Messages.

(** Modelled from the spec: [aura/models/goal.py] is not among the
    sources.  The fields are those of section 3; times are microseconds
    since the epoch; [priority] and [progress] are constrained to
    [[0,1]] and, by the configuration in [models/base.py], checked again
    on assignment. *)
Record Goal : Type := {
  goal_id : string;
  name : string;
  description : string;
  goal_type : string;
  priority : Qc;
  origin : string;
  emotional_alignment : gmap string Qc;
  status : string;
  progress : Qc;
  created : Z;
  updated : Z;
  completed : option Z;
  metadata : gmap string string
}.

(** Modelled from the spec: what the absent [Goal] model has to supply,
    the status given to a new goal (left open by the spec, section 9)
    and the construction of a goal from a database row. *)
Class GoalModel : Type := {
  default_status : string;
  Goal_of_row : record → exc Goal
}.

Record GoalContext : Type := {
  ctx_active_goals : list Goal;
  current_focus : option Goal;
  pending_proposals : list record
}.

(** [goal.model_dump()] *)
Definition model_dump (g : Goal) : record :=
  {[ "goal_id" := VStr (goal_id g);
     "name" := VStr (name g);
     "description" := VStr (description g);
     "goal_type" := VStr (goal_type g);
     "priority" := VFloat (priority g);
     "origin" := VStr (origin g);
     "emotional_alignment" := VFloats (emotional_alignment g);
     "status" := VStr (status g);
     "progress" := VFloat (progress g);
     "created" := VInt (created g);
     "updated" := VInt (updated g);
     "completed" := from_option VInt VNone (completed g);
     "metadata" := VStrs (metadata g) ]}.

Definition set_status (v : string) (g : Goal) : Goal :=
  {| goal_id := goal_id g; name := name g; description := description g;
     goal_type := goal_type g; priority := priority g; origin := origin g;
     emotional_alignment := emotional_alignment g; status := v;
     progress := progress g; created := created g; updated := updated g;
     completed := completed g; metadata := metadata g |}.

Definition set_progress (v : Qc) (g : Goal) : Goal :=
  {| goal_id := goal_id g; name := name g; description := description g;
     goal_type := goal_type g; priority := priority g; origin := origin g;
     emotional_alignment := emotional_alignment g; status := status g;
     progress := v; created := created g; updated := updated g;
     completed := completed g; metadata := metadata g |}.

Definition set_updated (v : Z) (g : Goal) : Goal :=
  {| goal_id := goal_id g; name := name g; description := description g;
     goal_type := goal_type g; priority := priority g; origin := origin g;
     emotional_alignment := emotional_alignment g; status := status g;
     progress := progress g; created := created g; updated := v;
     completed := completed g; metadata := metadata g |}.

Definition set_completed (v : option Z) (g : Goal) : Goal :=
  {| goal_id := goal_id g; name := name g; description := description g;
     goal_type := goal_type g; priority := priority g; origin := origin g;
     emotional_alignment := emotional_alignment g; status := status g;
     progress := progress g; created := created g; updated := updated g;
     completed := v; metadata := metadata g |}.

Definition set_metadata (v : gmap string string) (g : Goal) : Goal :=
  {| goal_id := goal_id g; name := name g; description := description g;
     goal_type := goal_type g; priority := priority g; origin := origin g;
     emotional_alignment := emotional_alignment g; status := status g;
     progress := progress g; created := created g; updated := updated g;
     completed := completed g; metadata := v |}.

(** [(later - earlier).total_seconds()] *)
Definition total_seconds (later earlier : Z) : Qc :=
  Qc_of_Z (later - earlier) / Qc_of_Z 1000000.

Record Template : Type := {
  t_name : string;
  t_description : string;
  t_type : string;
  t_priority : Qc
}.

Definition goal_templates : odict Template :=
  [ ("boredom",
     {| t_name := "Explore interesting topic";
        t_description := "Research a topic I haven't explored recently";
        t_type := "curiosity_driven";
        t_priority := float 6 10 |});
    ("idle_exploration",
     {| t_name := "Review recent learnings";
        t_description := "Analyze patterns from recent experiences";
        t_type := "learning_gap";
        t_priority := float 5 10 |});
    ("curiosity",
     {| t_name := "Deep dive investigation";
        t_description := "Investigate an intriguing pattern";
        t_type := "curiosity_driven";
        t_priority := float 7 10 |}) ].

Definition LOAD_ACTIVE_GOALS : string :=
  "SELECT * FROM goal WHERE status IN ['active', 'paused'] "
  +:+ "ORDER BY priority DESC LIMIT 10".

Record GoalEngine (conn bus : Type) : Type := {
  db : DatabaseClient conn;
  _message_bus : option bus;
  active_goals : list Goal;
  current_boredom_level : Qc;
  last_user_interaction : Z;
  boredom_threshold : Qc;
  idle_time_threshold : Qc
}.
Arguments db {conn bus} _.
Arguments _message_bus {conn bus} _.
Arguments active_goals {conn bus} _.
Arguments current_boredom_level {conn bus} _.
Arguments last_user_interaction {conn bus} _.
Arguments boredom_threshold {conn bus} _.
Arguments idle_time_threshold {conn bus} _.

Section Engine.
Context {conn bus : Type} `{!Surreal conn, !MessageBus bus, !GoalModel}.

Local Abbreviation engine := (GoalEngine conn bus).

Definition set_db (d : DatabaseClient conn) (self : engine) : engine :=
  {| db := d; _message_bus := _message_bus self;
     active_goals := active_goals self;
     current_boredom_level := current_boredom_level self;
     last_user_interaction := last_user_interaction self;
     boredom_threshold := boredom_threshold self;
     idle_time_threshold := idle_time_threshold self |}.

Definition set_bus (b : option bus) (self : engine) : engine :=
  {| db := db self; _message_bus := b;
     active_goals := active_goals self;
     current_boredom_level := current_boredom_level self;
     last_user_interaction := last_user_interaction self;
     boredom_threshold := boredom_threshold self;
     idle_time_threshold := idle_time_threshold self |}.

Definition set_active_goals (l : list Goal) (self : engine) : engine :=
  {| db := db self; _message_bus := _message_bus self;
     active_goals := l;
     current_boredom_level := current_boredom_level self;
     last_user_interaction := last_user_interaction self;
     boredom_threshold := boredom_threshold self;
     idle_time_threshold := idle_time_threshold self |}.

Definition set_boredom (x : Qc) (self : engine) : engine :=
  {| db := db self; _message_bus := _message_bus self;
     active_goals := active_goals self;
     current_boredom_level := x;
     last_user_interaction := last_user_interaction self;
     boredom_threshold := boredom_threshold self;
     idle_time_threshold := idle_time_threshold self |}.

(** [await self.db.m(...)] *)
Definition on_db {A} (m : prog (DatabaseClient conn) A) : prog engine A :=
  zoom db set_db m.

(** [GoalEngine.__init__]; [database] is the shared client and [now]
    the clock reading. *)
Definition init (database : DatabaseClient conn) (now : Z) : engine :=
  {| db := database; _message_bus := None; active_goals := [];
     current_boredom_level := 0; last_user_interaction := now;
     boredom_threshold := float 6 10;
     idle_time_threshold := float 300 1 |}.

Definition set_message_bus (message_bus : option bus) : prog engine unit :=
  modify (λ self,
    match message_bus with
    | Some b => set_bus (Some (bus_subscribe "goal_engine" b)) self
    | None => set_bus None self
    end).

Definition _load_active_goals : prog engine unit :=
  try_except
    (result ← on_db (query LOAD_ACTIVE_GOALS None);
     match result with
     | first :: _ =>
         match Db.result first with
         | [] => mret ()
         | rows =>
             goals ← lift (traverse Goal_of_row rows);
             modify (set_active_goals goals)
         end
     | [] => mret ()
     end)
    (λ _, mret ()).

Definition initialize : prog engine unit := _load_active_goals.

(** [max(active, key=lambda g: g.priority)]: the first goal of largest
    priority. *)
Fixpoint max_priority (best : Goal) (l : list Goal) : Goal :=
  match l with
  | [] => best
  | g :: l' =>
      max_priority
        (if bool_decide (priority best < priority g) then g else best) l'
  end.

Definition is_active (g : Goal) : bool := String.eqb (status g) "active".

Definition get_goal_context : prog engine GoalContext :=
  self ← gets (λ self, self);
  let current_focus :=
    match List.filter is_active (active_goals self) with
    | [] => None
    | g :: l => Some (max_priority g l)
    end in
  mret {| ctx_active_goals := take 5 (active_goals self);
          current_focus := current_focus;
          pending_proposals := [] |}.

(** The goal built by [formulate_goal]: [fresh] is
    [uuid4().hex[:12]] and [now] the clock reading of the timestamp
    defaults. *)
Definition new_goal (trigger : string) (template : Template)
    (context : record) (now : Z) (fresh : string) : exc Goal :=
  emotions ←
    match context !! "emotions" with
    | None => Ok ∅
    | Some (VFloats m) => Ok m
    | Some _ => Raise ValidationError
    end;
  if in01 (t_priority template) then
    Ok {| goal_id := "goal:" +:+ fresh;
          name := t_name template;
          description := t_description template;
          goal_type := t_type template;
          priority := t_priority template;
          origin := "autonomous_" +:+ trigger;
          emotional_alignment := emotions;
          status := default_status;
          progress := 0;
          created := now; updated := now; completed := None;
          metadata := ∅ |}
  else Raise ValidationError.

Definition publish (message : EngineMessage) : prog engine unit :=
  λ self,
  match _message_bus self with
  | Some b =>
      let '(b', r) := bus_publish message b in (set_bus (Some b') self, r)
  | None => (self, Ok ())
  end.

Definition formulate_goal (trigger : string) (context : record)
    (now : Z) (fresh : string) : prog engine (option Goal) :=
  match get goal_templates trigger with
  | None => mret None
  | Some template =>
      goal ← lift (new_goal trigger template context now fresh);
      try_except
        (on_db (create "goal" (model_dump goal));;
         modify (λ self,
           set_active_goals (active_goals self ++ [goal]) self);;
         publish (create_state_update now "goal_engine"
                    {[ "goal_id" := VStr (goal_id goal);
                       "name" := VStr (name goal);
                       "type" := VStr (goal_type goal) ]}
                    ["orchestrator"; "learning_engine"] NORMAL);;
         mret (Some goal))
        (λ _, mret None)
  end.

(** The position of the first goal with the given identifier. *)
Definition find_goal (l : list Goal) (target : string)
  : option (nat * Goal) :=
  list_find (λ g, goal_id g = target) l.

Definition update_goal_progress (target : string) (new_progress : Qc)
    (notes : string) (now : Z) : prog engine unit :=
  self ← gets (λ self, self);
  match find_goal (active_goals self) target with
  | None => mret ()
  | Some (i, goal) =>
      if in01 new_progress then
        let goal := set_updated now (set_progress new_progress goal) in
        let goal :=
          if bool_decide (1 ≤ new_progress)
          then set_completed (Some now) (set_status "completed" goal)
          else goal in
        modify (λ self,
          set_active_goals (<[i := goal]> (active_goals self)) self);;
        try_except (on_db (update target (model_dump goal));; mret ())
                   (λ _, mret ())
      else raise ValidationError
  end.

Definition cancel_goal (target : string) (reason : string) (now : Z)
  : prog engine unit :=
  self ← gets (λ self, self);
  match find_goal (active_goals self) target with
  | None => mret ()
  | Some (i, goal) =>
      let goal := set_updated now (set_status "cancelled" goal) in
      let goal :=
        set_metadata (<["cancellation_reason" := reason]> (metadata goal))
                     goal in
      modify (λ self,
        set_active_goals (<[i := goal]> (active_goals self)) self);;
      try_except (on_db (update target (model_dump goal));; mret ())
                 (λ _, mret ())
  end.

Definition check_boredom : prog engine Qc := gets current_boredom_level.

(** The goals that block a new goal for [trigger]: same origin, created
    less than 3600 seconds before [now]. *)
Definition recent_goals (trigger : string) (now : Z) (l : list Goal)
  : list Goal :=
  List.filter (λ g,
    String.eqb (origin g) ("autonomous_" +:+ trigger)
    && bool_decide (total_seconds now (created g) < float 3600 1)) l.

Definition _consider_new_goal (trigger : string) (now : Z)
    (fresh : string) : prog engine unit :=
  self ← gets (λ self, self);
  let active_count := length (List.filter is_active (active_goals self)) in
  if (3 <=? active_count)%nat then mret ()
  else
    match recent_goals trigger now (active_goals self) with
    | _ :: _ => mret ()
    | [] =>
        let context : record :=
          {[ "boredom_level" := VFloat (current_boredom_level self);
             "idle_time" :=
               VFloat (total_seconds now (last_user_interaction self)) ]} in
        formulate_goal trigger context now fresh;; mret ()
    end.

(** [tick]; the final [asyncio.sleep(30.0)] only passes time. *)
Definition tick (now : Z) (fresh : string) : prog engine unit :=
  self ← gets (λ self, self);
  let idle_seconds := total_seconds now (last_user_interaction self) in
  if bool_decide (boredom_threshold self < current_boredom_level self)
  then _consider_new_goal "boredom" now fresh
  else if bool_decide (idle_time_threshold self < idle_seconds)
  then _consider_new_goal "idle_exploration" now fresh
  else mret ().

Definition shutdown : prog engine unit := mret ().

Definition _handle_message (message : EngineMessage) (now : Z)
    (fresh : string) : prog engine unit :=
  if String.eqb (source message) "emotion_engine" then
    vector ← lift
      match data message !! "vector" with
      | None => Ok ∅
      | Some (VFloats m) => Ok m
      | Some _ => Raise (AttributeError "object has no attribute 'get'")
      end;
    modify (set_boredom (default 0 (vector !! "boredom")));;
    let curiosity := default 0 (vector !! "curiosity") in
    if bool_decide (float 7 10 < curiosity)
    then _consider_new_goal "curiosity" now fresh
    else mret ()
  else mret ().

(** The operations of the engine, with the clock reading and the
    random identifier each of them may use. *)
Inductive operation : Type :=
| Initialize
| SetMessageBus (message_bus : option bus)
| Tick (now : Z) (fresh : string)
| Shutdown
| GetGoalContext
| FormulateGoal (trigger : string) (context : record) (now : Z)
                (fresh : string)
| UpdateGoalProgress (target : string) (new_progress : Qc) (notes : string)
                     (now : Z)
| CancelGoal (target : string) (reason : string) (now : Z)
| CheckBoredom
| ConsiderNewGoal (trigger : string) (now : Z) (fresh : string)
| HandleMessage (message : EngineMessage) (now : Z) (fresh : string).

(** The engine after an operation, whether it returned or raised. *)
Definition after (o : operation) (self : engine) : engine :=
  match o with
  | Initialize => (initialize self).1
  | SetMessageBus b => (set_message_bus b self).1
  | Tick now fresh => (tick now fresh self).1
  | Shutdown => (shutdown self).1
  | GetGoalContext => (get_goal_context self).1
  | FormulateGoal trigger context now fresh =>
      (formulate_goal trigger context now fresh self).1
  | UpdateGoalProgress target p notes now =>
      (update_goal_progress target p notes now self).1
  | CancelGoal target reason now => (cancel_goal target reason now self).1
  | CheckBoredom => (check_boredom self).1
  | ConsiderNewGoal trigger now fresh =>
      (_consider_new_goal trigger now fresh self).1
  | HandleMessage message now fresh =>
      (_handle_message message now fresh self).1
  end.
(** The identifiers of the goals held in memory, in list order. *)
Definition ids (self : engine) : list string := goal_id <$> active_goals self.

(** [self'] holds every goal of [self], at the same position. *)
Definition keeps (self self' : engine) : Prop :=
  ∃ extra, ids self' = (ids self ++ extra)%list.

(** A method that never drops a goal. *)
Definition Keeps {A} (m : prog engine A) : Prop :=
  ∀ self, keeps self (m self).1.
End Engine.

End GoalEngine.

From Stdlib Require Import Lqa.

(** ** More builtins *)

Module Builtins.

(** [abs(x)] *)
Definition abs (x : Qc) : Qc := if bool_decide (x < 0) then - x else x.

(** [sum(l)] on floats: the running total starts at zero. *)
Definition sum (l : list Qc) : Qc := fold_left Qcplus l 0.

(** [len(l)] as a float operand. *)
Definition len {A} (l : list A) : Qc := Qc_of_Z (Z.of_nat (length l)).

(** [x / y] on floats. *)
Definition truediv (x y : Qc) : exc Qc :=
  if bool_decide (y = 0) then Raise ZeroDivisionError else Ok (x / y).

(** A [for] loop that updates an accumulator and may raise. *)
Fixpoint for_each {A S} (body : S → A → exc S) (l : list A) (acc : S)
  : exc S :=
  match l with
  | [] => Ok acc
  | x :: l' => acc' ← body acc x; for_each body l' acc'
  end.

End Builtins.

(** ** [aura/engines/emotion/physics.py]: volatility and stability *)

Module Metrics.

(** One iteration of the loop of [calculate_volatility]. *)
Definition change_one (curr_dict prev_dict : odict Qc) (total_change : Qc)
    (emotion : string) : exc Qc :=
  c ← getitem curr_dict emotion;
  p ← getitem prev_dict emotion;
  let change := Builtins.abs (c - p) in
  Ok (total_change + change).

Definition calculate_volatility (self : Physics.EmotionPhysics)
    (current previous : EmotionVector) : exc Qc :=
  let curr_dict := model_dump current in
  let prev_dict := model_dump previous in
  total_change ←
    Builtins.for_each (change_one curr_dict prev_dict) (keys curr_dict) 0;
  volatility ← Builtins.truediv total_change (Builtins.len curr_dict);
  Ok (Py.min 1 volatility).

Definition calculate_stability (self : Physics.EmotionPhysics)
    (volatility_history : list Qc) : exc Qc :=
  match volatility_history with
  | [] => Ok 1
  | _ =>
      avg_volatility ←
        Builtins.truediv (Builtins.sum volatility_history)
                         (Builtins.len volatility_history);
      let stability := 1 - avg_volatility in
      Ok (Py.max 0 (Py.min 1 stability))
  end.

(** The absolute changes field by field, in field order. *)
Definition field_changes (current previous : EmotionVector) : list Qc :=
  zip_with (λ c p, Builtins.abs (c - p))
           (values (model_dump current)) (values (model_dump previous)).

End Metrics.

(** ** [aura/models/learning.py] and [LearningEngine._calculate_mastery_from_rules] *)

Module Mastery.

(** The [Rule] model.  Times are microseconds since the epoch. *)
Record Rule : Type := {
  rule_id : string;
  created : Z;
  updated : Z;
  condition : string;
  action : string;
  rationale : string;
  domain : string;
  task_type : string;
  confidence : Qc;
  confidence_history : list Db.record;
  application_count : Z;
  success_count : Z;
  fail_count : Z;
  avg_resolution_time : Qc;
  last_used : option Z;
  source_experiences : list string;
  extraction_method : string;
  validated_against : list string;
  emotional_signature : gmap string Qc;
  extends : list string;
  contradicts : list string;
  similar_to : list string;
  prerequisite_for : list string;
  user_specific : bool;
  deprecated : bool;
  deprecation_threshold : Qc;
  embedding : option (list Qc)
}.

(** The constraints the model puts on the statistics of a rule:
    [confidence] in [[0,1]] and counters that are not negative. *)
Definition valid_statistics (rule : Rule) : Prop :=
  0 ≤ confidence rule ≤ 1
  ∧ (0 ≤ application_count rule)%Z
  ∧ (0 ≤ success_count rule)%Z
  ∧ (0 ≤ fail_count rule)%Z.

(** One iteration of the loop: the accumulator is
    [(total_weight, weighted_sum)]. *)
Definition mastery_step (acc : Qc * Qc) (rule : Rule) : exc (Qc * Qc) :=
  let '(total_weight, weighted_sum) := acc in
  if bool_decide (0 < application_count rule)%Z then
    success_rate ←
      Builtins.truediv (Qc_of_Z (success_count rule))
                       (Qc_of_Z (application_count rule));
    let weight := confidence rule * success_rate in
    Ok (total_weight + 1, weighted_sum + weight)
  else Ok acc.

Definition _calculate_mastery_from_rules (rules : list Rule) : exc Qc :=
  match rules with
  | [] => Ok 0
  | _ =>
      acc ← Builtins.for_each mastery_step rules (0, 0);
      let '(total_weight, weighted_sum) := acc in
      if bool_decide (0 < total_weight)
      then Builtins.truediv weighted_sum total_weight
      else Ok 0
  end.

(** The [Strategy] model. *)
Record Strategy : Type := {
  strategy_id : string;
  strategy_task_type : string;
  approach : string;
  success_rate : Qc;
  avg_confidence : Qc;
  usage_count : Z;
  emotional_prerequisites : gmap string Qc;
  when_to_use : string;
  examples : list string;
  last_updated : Z
}.

(** The [LearningContext] model. *)
Record LearningContext : Type := {
  rules : list Rule;
  strategy : option Strategy;
  confidence_level : Qc;
  mastery_level : Qc;
  emotional_alignment : gmap string Qc
}.

(** [LearningContext(rules=..., confidence_level=..., mastery_level=...)]:
    both levels are validated against [ge=0.0, le=1.0]; the other
    fields take their defaults. *)
Definition LearningContext_init (rules : list Rule)
    (confidence_level mastery_level : Qc) : exc LearningContext :=
  if in01 confidence_level && in01 mastery_level
  then Ok {| rules := rules; strategy := None;
             confidence_level := confidence_level;
             mastery_level := mastery_level;
             emotional_alignment := ∅ |}
  else Raise ValidationError.

Section GetLearningContext.
Context {conn : Type}.

(** [self.retrieve_rules(context=..., domain=..., user_id=...)], with
    its other parameters at their defaults.  It reaches the embedding
    service and the database; the levels below are computed from the
    rules it returns. *)
Variable retrieve_rules :
  string → option string → option string →
  prog (Learning.LearningEngine conn) (list Rule).

Definition get_learning_context (context : string)
    (domain user_id : option string)
  : prog (Learning.LearningEngine conn) LearningContext :=
  rules ← retrieve_rules context domain user_id;
  match rules with
  | [] => lift (LearningContext_init rules 0 0)
  | _ =>
      avg_confidence ← lift
        (Builtins.truediv (Builtins.sum (confidence <$> rules))
                          (Builtins.len rules));
      mastery_level ← lift (_calculate_mastery_from_rules rules);
      lift (LearningContext_init rules avg_confidence mastery_level)
  end.
End GetLearningContext.

End Mastery.

(** ** [LearningEngine.update_rule_confidence]: the state after the lookup *)

Module Feedback.

(** The engine once [self.db.select] has returned: only the connection
    object of the database client has moved. *)
Definition after_select {conn : Type} (self : Learning.LearningEngine conn)
    (k1 : conn) : Learning.LearningEngine conn :=
  {| Learning.db := Db.set_client k1 (Learning.db self);
     Learning.experiences_logged := Learning.experiences_logged self;
     Learning.rules_created := Learning.rules_created self |}.

End Feedback.

(** ** Concrete inputs used in the examples *)

Module Samples.

Definition ten_words : string :=
  "please tell me what the weather is like today outside".

Definition thirty_five_words : string :=
  "one two three four five six seven eight nine ten "
  +:+ "one two three four five six seven eight nine ten "
  +:+ "one two three four five six seven eight nine ten "
  +:+ "one two three four five".

(** A physics configuration with [decay_rate_primary = 0.2]. *)
Definition sample_config : EmotionPhysicsConfig :=
  {| decay_rate_primary := float 2 10;
     decay_rate_aesthetic := float 1 10;
     decay_rate_social := float 15 100;
     decay_rate_cognitive := float 1 10;
     inertia_default := float 9 10;
     baseline := zero |}.

(** The vector with [joy = 0.5] and every other field at zero. *)
Definition half_joy : EmotionVector :=
  {| love := 0; joy := float 5 10; interest := 0; trust := 0; fear := 0;
     sadness := 0; anger := 0; surprise := 0; disgust := 0;
     curiosity := 0; confusion := 0; certainty := 0; doubt := 0;
     fascination := 0; boredom := 0;
     empathy := 0; compassion := 0; gratitude := 0; pride := 0;
     shame := 0; envy := 0;
     awe := 0; beauty := 0; wonder := 0; serenity := 0;
     melancholy := 0; nostalgia := 0 |}.

(** A learning engine whose database client was never connected. *)
Definition offline_engine : Learning.LearningEngine Db.Mem.mem :=
  {| Learning.db := Db.new;
     Learning.experiences_logged := 0;
     Learning.rules_created := 0 |}.

(** A stored rule with the given counters. *)
Definition rule_row (a s f : Z) : Db.record :=
  {[ "application_count" := Db.VInt a;
     "success_count" := Db.VInt s;
     "fail_count" := Db.VInt f;
     "avg_resolution_time" := Db.VFloat 0;
     "confidence" := Db.VFloat (float 5 10);
     "deprecated" := Db.VBool false ]}.

(** A learning engine connected to a database that holds one rule. *)
Definition engine_with_rule (a s f : Z) : Learning.LearningEngine Db.Mem.mem :=
  {| Learning.db :=
       {| Db._client :=
            Some {| Db.Mem.opened := true;
                    Db.Mem.store := {[ "rule:r1" := rule_row a s f ]};
                    Db.Mem.log := [] |};
          Db._connected := true |};
     Learning.experiences_logged := 0;
     Learning.rules_created := 1 |}.

(** The row of that rule in the database of an engine. *)
Definition stored_rule (engine : Learning.LearningEngine Db.Mem.mem)
  : Db.record :=
  default ∅ (c ← Db._client (Learning.db engine);
             Db.Mem.store c !! "rule:r1").

(** The rule of [engine_with_rule a s f] after one feedback. *)
Definition rule_after (success : bool) (a s f : Z) : Db.record :=
  stored_rule
    (Learning.update_rule_confidence "rule:r1" success None
       "2026-01-01T00:00:00" (engine_with_rule a s f)).1.

Definition feedback (success : bool) : Learning.RuleFeedbackRequest :=
  {| Learning.rule_id := "rule:r1";
     Learning.success := success;
     Learning.resolution_time := None |}.

(** A message bus that accepts every message. *)
Definition null_bus : Messages.MessageBus unit :=
  {| Messages.bus_subscribe := λ _ b, b;
     Messages.bus_publish := λ _ b, (b, Ok ()) |}.

(** A goal model whose new goals are ["active"]; rows are not read back
    in the examples. *)
Definition goal_model : GoalEngine.GoalModel :=
  {| GoalEngine.default_status := "active";
     GoalEngine.Goal_of_row := λ _, Raise ValidationError |}.

(** Clock readings, in microseconds: [minutes n] after the origin. *)
Definition minutes (n : Z) : Z := n * 60 * 1000000.

Definition sample_goal (id origin status : string) (created : Z)
  : GoalEngine.Goal :=
  {| GoalEngine.goal_id := id; GoalEngine.name := "Explore interesting topic";
     GoalEngine.description := "Research a topic I haven't explored recently";
     GoalEngine.goal_type := "curiosity_driven";
     GoalEngine.priority := float 6 10; GoalEngine.origin := origin;
     GoalEngine.emotional_alignment := ∅; GoalEngine.status := status;
     GoalEngine.progress := 0; GoalEngine.created := created;
     GoalEngine.updated := created; GoalEngine.completed := None;
     GoalEngine.metadata := ∅ |}.

(** A connected database client over an empty store. *)
Definition online_db : Db.DatabaseClient Db.Mem.mem :=
  {| Db._client :=
       Some {| Db.Mem.opened := true; Db.Mem.store := ∅; Db.Mem.log := [] |};
     Db._connected := true |}.

(** A goal engine holding the given goals. *)
Definition goal_engine (database : Db.DatabaseClient Db.Mem.mem)
    (goals : list GoalEngine.Goal) : GoalEngine.GoalEngine Db.Mem.mem unit :=
  {| GoalEngine.db := database; GoalEngine._message_bus := Some ();
     GoalEngine.active_goals := goals;
     GoalEngine.current_boredom_level := float 8 10;
     GoalEngine.last_user_interaction := 0;
     GoalEngine.boredom_threshold := float 6 10;
     GoalEngine.idle_time_threshold := float 300 1 |}.

Definition three_active : list GoalEngine.Goal :=
  [ sample_goal "goal:a" "user" "active" 0;
    sample_goal "goal:b" "user" "active" 0;
    sample_goal "goal:c" "user" "active" 0 ].

(** One finished goal that boredom formed at the origin of time. *)
Definition old_boredom_goal : list GoalEngine.Goal :=
  [ sample_goal "goal:a" "autonomous_boredom" "completed" 0 ].

End Samples.

(** ** Further sample inputs *)

Module MoreSamples.

(** A rule with the given confidence, applications and successes. *)
Definition sample_rule (c : Qc) (a s : Z) : Mastery.Rule :=
  {| Mastery.rule_id := "rule:r1"; Mastery.created := 0; Mastery.updated := 0;
     Mastery.condition := "error mentions a missing import";
     Mastery.action := "check the package name first";
     Mastery.rationale := ""; Mastery.domain := "python";
     Mastery.task_type := "code_debugging";
     Mastery.confidence := c; Mastery.confidence_history := [];
     Mastery.application_count := a; Mastery.success_count := s;
     Mastery.fail_count := a - s; Mastery.avg_resolution_time := 0;
     Mastery.last_used := None; Mastery.source_experiences := [];
     Mastery.extraction_method := "manual"; Mastery.validated_against := [];
     Mastery.emotional_signature := ∅; Mastery.extends := [];
     Mastery.contradicts := []; Mastery.similar_to := [];
     Mastery.prerequisite_for := []; Mastery.user_specific := false;
     Mastery.deprecated := false;
     Mastery.deprecation_threshold := float 4 10;
     Mastery.embedding := None |}.

(** The connection of [engine_with_rule a s f], before and after the
    lookup of the rule. *)
Definition rule_connection (a s f : Z) (calls : list Db.call) : Db.Mem.mem :=
  {| Db.Mem.opened := true;
     Db.Mem.store := {[ "rule:r1" := Samples.rule_row a s f ]};
     Db.Mem.log := calls |}.

(** A connection that answers every [query] with the rows it holds and
    every other call with an empty result. *)
Record archive : Type := { held : list Db.record }.

Definition archive_driver : Db.Surreal archive :=
  {| Db.surreal_new := λ _, {| held := [] |};
     Db.surreal_connect := λ m, (m, Ok ());
     Db.surreal_signin := λ _ _ m, (m, Ok ());
     Db.surreal_use := λ _ _ m, (m, Ok ());
     Db.surreal_close := λ m, (m, Ok ());
     Db.surreal_call := λ c m,
       (m, Ok [ {| Db.result := match c with
                                | Db.Query _ _ => held m
                                | _ => []
                                end |} ]) |}.

(** A server that accepts the connection and refuses the credentials. *)
Definition locked_driver : Db.Surreal archive :=
  {| Db.surreal_new := λ _, {| held := [] |};
     Db.surreal_connect := λ m, (m, Ok ());
     Db.surreal_signin := λ _ _ m,
       (m, Raise (ConnectionError "authentication failed"));
     Db.surreal_use := λ _ _ m, (m, Ok ());
     Db.surreal_close := λ m, (m, Ok ());
     Db.surreal_call := λ c m, (m, Ok [ {| Db.result := [] |} ]) |}.

(** Reading the fields of a row. *)
Definition str_field (row : Db.record) (k : string) : exc string :=
  match row !! k with Some (Db.VStr s) => Ok s | _ => Raise ValidationError end.

Definition float_field (row : Db.record) (k : string) : exc Qc :=
  match row !! k with
  | Some (Db.VFloat x) => if in01 x then Ok x else Raise ValidationError
  | _ => Raise ValidationError
  end.

Definition int_field (row : Db.record) (k : string) : exc Z :=
  match row !! k with Some (Db.VInt n) => Ok n | _ => Raise ValidationError end.

(** A goal model that builds a goal from a row with the thirteen fields
    of [model_dump], so that a stored goal is read back as it was. *)
Definition reading_model : GoalEngine.GoalModel :=
  {| GoalEngine.default_status := "active";
     GoalEngine.Goal_of_row := λ row,
       i ← str_field row "goal_id";
       n ← str_field row "name";
       d ← str_field row "description";
       ty ← str_field row "goal_type";
       p ← float_field row "priority";
       o ← str_field row "origin";
       ea ← match row !! "emotional_alignment" with
            | Some (Db.VFloats m) => Ok m
            | _ => Raise ValidationError
            end;
       st ← str_field row "status";
       pr ← float_field row "progress";
       cr ← int_field row "created";
       up ← int_field row "updated";
       co ← match row !! "completed" with
            | Some (Db.VInt t) => Ok (Some t)
            | Some Db.VNone => Ok None
            | _ => Raise ValidationError
            end;
       md ← match row !! "metadata" with
            | Some (Db.VStrs m) => Ok m
            | _ => Raise ValidationError
            end;
       Ok {| GoalEngine.goal_id := i; GoalEngine.name := n;
             GoalEngine.description := d; GoalEngine.goal_type := ty;
             GoalEngine.priority := p; GoalEngine.origin := o;
             GoalEngine.emotional_alignment := ea; GoalEngine.status := st;
             GoalEngine.progress := pr; GoalEngine.created := cr;
             GoalEngine.updated := up; GoalEngine.completed := co;
             GoalEngine.metadata := md |} |}.

(** An engine that holds the goal ["goal:a"] in memory while its
    database holds the active goal ["goal:z"]. *)
Definition reloading_engine : GoalEngine.GoalEngine archive unit :=
  {| GoalEngine.db :=
       {| Db._client :=
            Some {| held := [ GoalEngine.model_dump
                                (Samples.sample_goal "goal:z" "user"
                                   "active" 0) ] |};
          Db._connected := true |};
     GoalEngine._message_bus := Some ();
     GoalEngine.active_goals :=
       [ Samples.sample_goal "goal:a" "user" "active" 0 ];
     GoalEngine.current_boredom_level := 0;
     GoalEngine.last_user_interaction := 0;
     GoalEngine.boredom_threshold := float 6 10;
     GoalEngine.idle_time_threshold := float 300 1 |}.

End MoreSamples.
(** * Properties *)

(** ** Dictionaries and traversals *)

Section OdictFacts.
Context {V : Type}.
Implicit Types (d : odict V) (k : string) (v : V).

Lemma get_Some_keys d k v : get d k = Some v → k ∈ keys d.
Proof.
  induction d as [|[k' v'] d IH]; simpl; [done|].
  destruct (String.eqb_spec k' k) as [->|Hne]; intros H.
  - apply list_elem_of_here.
  - apply list_elem_of_further, IH, H.
Qed.

Lemma get_Some_elem d k v : get d k = Some v → (k, v) ∈ d.
Proof.
  induction d as [|[k' v'] d IH]; simpl; [done|].
  destruct (String.eqb_spec k' k) as [->|Hne]; intros H.
  - injection H as ->. apply list_elem_of_here.
  - apply list_elem_of_further, IH, H.
Qed.

Lemma keys_get d k : k ∈ keys d → ∃ v, get d k = Some v ∧ (k, v) ∈ d.
Proof.
  induction d as [|[k' v'] d IH]; simpl; intros H.
  - by apply elem_of_nil in H.
  - destruct (String.eqb_spec k' k) as [->|Hne].
    + eexists; split; [done|apply list_elem_of_here].
    + apply elem_of_cons in H as [->|H]; [done|].
      destruct (IH H) as (v & Hv & Hin).
      exists v; split; [done|by apply list_elem_of_further].
Qed.

Lemma keys_setitem d k v : k ∈ keys d → keys (setitem d k v) = keys d.
Proof.
  induction d as [|[k' v'] d IH]; simpl; intros H.
  - by apply elem_of_nil in H.
  - destruct (String.eqb_spec k' k) as [->|Hne]; [done|].
    apply elem_of_cons in H as [->|H]; [done|].
    simpl. f_equal. by apply IH.
Qed.

Lemma setitem_Forall (P : string * V → Prop) d k v :
  Forall P d → k ∈ keys d → P (k, v) → Forall P (setitem d k v).
Proof.
  induction d as [|[k' v'] d IH]; simpl; intros Hd Hk Hv.
  - by apply elem_of_nil in Hk.
  - apply Forall_cons in Hd as [Hx Hd].
    destruct (String.eqb_spec k' k) as [->|Hne].
    + by apply Forall_cons.
    + apply elem_of_cons in Hk as [->|Hk]; [done|].
      apply Forall_cons. split; [done|by apply IH].
Qed.
End OdictFacts.

Lemma traverse_Forall2 {A B} (f : A → exc B) (R : A → B → Prop) (l : list A) :
  (∀ x, x ∈ l → ∃ y, f x = Ok y ∧ R x y) →
  ∃ ys, traverse f l = Ok ys ∧ Forall2 R l ys.
Proof.
  induction l as [|x l IH]; intros H; simpl.
  - exists []. by split.
  - destruct (H x) as (y & Hy & HR); [apply list_elem_of_here|].
    destruct IH as (ys & Hys & HF).
    { intros x' Hx'. apply H. by apply list_elem_of_further. }
    exists (y :: ys). rewrite Hy; simpl. rewrite Hys; simpl.
    split; [done|by constructor].
Qed.

(** A traversal that keeps the key of every item keeps the keys. *)
Lemma Forall2_same_keys {V W} (R : string * V → string * W → Prop)
    (d : odict V) (d' : odict W) :
  (∀ x y, R x y → y.1 = x.1) → Forall2 R d d' → keys d' = keys d.
Proof.
  intros HR. induction 1 as [|x y d d' Hxy _ IH]; simpl; [done|].
  by rewrite (HR _ _ Hxy), IH.
Qed.

Lemma Forall2_get {V W} (g : string → V → W) (d : odict V) (d' : odict W) k v :
  Forall2 (λ x y, y = (x.1, g x.1 x.2)) d d' →
  get d k = Some v → get d' k = Some (g k v).
Proof.
  induction 1 as [|[k1 v1] y d d' -> _ IH]; simpl; [done|].
  destruct (String.eqb_spec k1 k) as [->|Hne]; [by intros [= ->]|done].
Qed.

(** ** Clamping *)

Lemma clamp_unit (x : Qc) : 0 ≤ Py.max 0 (Py.min 1 x) ≤ 1.
Proof.
  unfold Py.max, Py.min.
  destruct (bool_decide_reflect (x < 1)) as [H1|H1];
    [destruct (bool_decide_reflect (0 < x)) as [H0|H0]
    |destruct (bool_decide_reflect (0 < 1)) as [H0|H0]].
  - split; by apply Qclt_le_weak.
  - split; [apply Qcle_refl|done].
  - split; [done|apply Qcle_refl].
  - by destruct H0.
Qed.

Lemma in01_spec (x : Qc) : in01 x = true ↔ 0 ≤ x ≤ 1.
Proof.
  unfold in01. rewrite andb_true_iff, !bool_decide_eq_true. done.
Qed.

(** ** The emotion vector *)

Lemma keys_model_dump (v : EmotionVector) : keys (model_dump v) = FIELDS.
Proof. reflexivity. Qed.

Lemma field_checked (d : odict Qc) (k : string) :
  match get d k with Some x => in01 x | None => false end = true →
  0 ≤ get_or d k 0 ≤ 1.
Proof.
  unfold get_or. destruct (get d k) as [x|]; [|done].
  simpl. by rewrite in01_spec.
Qed.

(** A constructed vector has passed validation. *)
Lemma EmotionVector_init_in_unit (d : odict Qc) (v : EmotionVector) :
  EmotionVector_init d = Ok v → in_unit v.
Proof.
  unfold EmotionVector_init.
  destruct (forallb _ FIELDS) eqn:Hall; [|done].
  intros [= <-]. rewrite forallb_forall in Hall.
  unfold in_unit, model_dump; simpl.
  repeat (apply Forall_cons; split;
          [apply field_checked, Hall; unfold FIELDS; simpl; tauto|]).
  apply Forall_nil_2.
Qed.

(** Construction succeeds on a dictionary that has the 27 fields, all
    within bounds. *)
Lemma EmotionVector_init_ok (d : odict Qc) :
  keys d = FIELDS →
  Forall (λ kv : string * Qc, 0 ≤ kv.2 ≤ 1) d →
  ∃ v, EmotionVector_init d = Ok v.
Proof.
  intros Hk Hd. unfold EmotionVector_init.
  destruct (forallb _ FIELDS) eqn:Hall; [by eexists|].
  exfalso. apply not_true_iff_false in Hall. apply Hall.
  apply forallb_forall. intros k Hin.
  destruct (keys_get d k) as (x & -> & Hx).
  { rewrite Hk. by apply list_elem_of_In. }
  apply in01_spec. rewrite Forall_forall in Hd. apply (Hd _ Hx).
Qed.

(** ** Physics: the three passes of [tick] *)

Section PhysicsFacts.
Import Physics.
Variable cfg : EmotionPhysicsConfig.
Variables (dt : Qc) (base : EmotionVector).

(** The rate [tick] uses for an emotion: the entry of [decay_rates] for
    its category, [primary] when the name has no category. *)
Lemma decay_rate_found (e : string) :
  ∃ r, getitem (decay_rates (init cfg))
               (get_or EMOTION_CATEGORIES e "primary") = Ok r.
Proof.
  unfold get_or, EMOTION_CATEGORIES. cbn [get].
  repeat (destruct (String.eqb _ e); [eexists; reflexivity|]).
  eexists; reflexivity.
Qed.

Lemma decay_one_decayed (x : string * Qc) :
  ∃ y, decay_one (init cfg) dt base x = Ok y ∧ decayed (init cfg) dt base x y.
Proof.
  destruct x as [e v]. destruct (decay_rate_found e) as [r Hr].
  unfold decay_one. rewrite Hr. simpl.
  eexists; split; [reflexivity|]. exists r. by split.
Qed.

Lemma decay_pass_ok (emotions : odict Qc) :
  ∃ ne, decay_pass (init cfg) emotions dt base = Ok ne
        ∧ Forall2 (decayed (init cfg) dt base) emotions ne.
Proof.
  apply traverse_Forall2. intros x _. apply decay_one_decayed.
Qed.

Lemma decayed_keys (d ne : odict Qc) :
  Forall2 (decayed (init cfg) dt base) d ne → keys ne = keys d.
Proof.
  apply Forall2_same_keys. by intros x y (r & _ & ->).
Qed.

Lemma decayed_get (d ne : odict Qc) (e : string) (v : Qc) :
  Forall2 (decayed (init cfg) dt base) d ne → get d e = Some v →
  ∃ r, getitem (decay_rates (init cfg))
               (get_or EMOTION_CATEGORIES e "primary") = Ok r
       ∧ get ne e = Some (v + (getattr base e 0 - v) * r * dt).
Proof.
  induction 1 as [|[k1 v1] y d d' (r & Hr & ->) _ IH]; simpl; [done|].
  destruct (String.eqb_spec k1 e) as [->|Hne]; [|done].
  intros [= ->]. by exists r.
Qed.

Lemma keys_amplify (value : Qc) (ne : odict Qc) (rel : string * Qc) :
  keys (amplify value dt ne rel) = keys ne.
Proof.
  destruct rel as [target strength]. unfold amplify.
  destruct (get ne target) eqn:Hg; [|done].
  apply keys_setitem. eapply get_Some_keys, Hg.
Qed.

Lemma keys_suppress (value : Qc) (ne : odict Qc) (rel : string * Qc) :
  keys (suppress value dt ne rel) = keys ne.
Proof.
  destruct rel as [target strength]. unfold suppress.
  destruct (get ne target) eqn:Hg; [|done].
  apply keys_setitem. eapply get_Some_keys, Hg.
Qed.

Lemma keys_fold_left {A} (f : odict Qc → A → odict Qc) (l : list A) :
  (∀ d a, keys (f d a) = keys d) →
  ∀ d, keys (fold_left f l d) = keys d.
Proof.
  intros Hf. induction l as [|a l IH]; intros d; simpl; [done|].
  by rewrite IH, Hf.
Qed.

Lemma keys_relate (ne : odict Qc) (e : string) :
  keys (relate dt ne e) = keys ne.
Proof.
  unfold relate. destruct (get ne e); [|done].
  case_bool_decide; [done|].
  rewrite (keys_fold_left _ _ (keys_suppress _)).
  apply (keys_fold_left _ _ (keys_amplify _)).
Qed.

(** The relationship pass rewrites values in place: no key is added,
    dropped or moved. *)
Lemma keys_relationship_pass (ne : odict Qc) :
  keys (relationship_pass dt ne) = keys ne.
Proof. apply keys_fold_left, keys_relate. Qed.

Lemma inertia_pass_ok (inertia : Qc) (emotions ne : odict Qc) :
  keys ne = keys emotions →
  ∃ final, inertia_pass inertia emotions ne = Ok final
           ∧ Forall2 smoothed emotions final.
Proof.
  intros Hk. apply traverse_Forall2. intros [e old] Hin.
  destruct (keys_get ne e) as (new & Hnew & _).
  { rewrite Hk. apply list_elem_of_fmap. by exists (e, old). }
  unfold inertia_one, getitem. rewrite Hnew. simpl.
  eexists; split; [reflexivity|]. split; [done|apply clamp_unit].
Qed.

Lemma smoothed_bounds (d final : odict Qc) :
  Forall2 smoothed d final →
  Forall (λ kv : string * Qc, 0 ≤ kv.2 ≤ 1) final.
Proof. induction 1 as [|x y d d' [_ Hy] _ IH]; by constructor. Qed.

End PhysicsFacts.

Import Physics.

Lemma tick_final_ok (cfg : EmotionPhysicsConfig) (current : EmotionVector)
    (dt : Qc) (b : option EmotionVector) :
  ∃ final, tick_final (init cfg) current dt b = Ok final
           ∧ keys final = FIELDS
           ∧ Forall (λ kv : string * Qc, 0 ≤ kv.2 ≤ 1) final.
Proof.
  unfold tick_final.
  destruct (decay_pass_ok cfg dt (default (baseline (config (init cfg))) b)
              (model_dump current)) as (ne & -> & Hne).
  simpl.
  destruct (inertia_pass_ok (inertia_default cfg) (model_dump current)
              (relationship_pass dt ne)) as (final & -> & Hfinal).
  { rewrite keys_relationship_pass. eapply decayed_keys, Hne. }
  exists final. split; [done|]. split.
  - rewrite <- (keys_model_dump current).
    eapply Forall2_same_keys, Hfinal. by intros x y [-> _].
  - eapply smoothed_bounds, Hfinal.
Qed.

Lemma influence_one_keeps (intensity : Qc) (d : odict Qc) (item : string * Qc) :
  Forall (λ kv : string * Qc, 0 ≤ kv.2 ≤ 1) d →
  keys (influence_one intensity d item) = keys d
  ∧ Forall (λ kv : string * Qc, 0 ≤ kv.2 ≤ 1) (influence_one intensity d item).
Proof.
  intros Hd. destruct item as [e delta]. unfold influence_one.
  destruct (get d e) as [cur|] eqn:Hg; [|done].
  pose proof (get_Some_keys _ _ _ Hg) as Hk. split.
  - by apply keys_setitem.
  - apply setitem_Forall; [done..|apply clamp_unit].
Qed.

Lemma influence_fold_keeps (intensity : Qc) (influence d : odict Qc) :
  Forall (λ kv : string * Qc, 0 ≤ kv.2 ≤ 1) d →
  keys (fold_left (influence_one intensity) influence d) = keys d
  ∧ Forall (λ kv : string * Qc, 0 ≤ kv.2 ≤ 1)
           (fold_left (influence_one intensity) influence d).
Proof.
  revert d. induction influence as [|item l IH]; intros d Hd; simpl; [done|].
  destruct (influence_one_keeps intensity d item Hd) as [Hk Hb].
  destruct (IH _ Hb) as [Hk' Hb']. split; [by rewrite Hk', Hk|done].
Qed.

(** C1.  [tick] and [apply_influence] return (they raise nothing) and
    every one of the 27 fields of the vector they return lies in [[0,1]],
    whatever the configuration, the influence map, the intensity, the time
    step and the baseline; an influence of +5.0 on [joy] at intensity 1.0
    applied to the all-zero vector gives [joy = 1.0] and leaves the other
    fields at zero. *)
Theorem C1_vector_bounds (cfg : EmotionPhysicsConfig)
    (current base : EmotionVector) (influence : odict Qc)
    (intensity dt : Qc) :
  in_unit current → in_unit base → 0 ≤ intensity ≤ float 2 1 → 0 ≤ dt →
  (∃ v, tick (init cfg) current dt (Some base) = Ok v ∧ in_unit v)
  ∧ (∃ v, tick (init cfg) current dt None = Ok v ∧ in_unit v)
  ∧ (∃ v, apply_influence (init cfg) current influence intensity = Ok v
          ∧ in_unit v)
  ∧ apply_influence (init cfg) zero [("joy", float 5 1)] 1
    = Ok {| love := 0; joy := 1; interest := 0; trust := 0; fear := 0;
            sadness := 0; anger := 0; surprise := 0; disgust := 0;
            curiosity := 0; confusion := 0; certainty := 0; doubt := 0;
            fascination := 0; boredom := 0;
            empathy := 0; compassion := 0; gratitude := 0; pride := 0;
            shame := 0; envy := 0;
            awe := 0; beauty := 0; wonder := 0; serenity := 0;
            melancholy := 0; nostalgia := 0 |}.
Proof.
  intros Hcur _ _ _.
  assert (Htick : ∀ b, ∃ v, tick (init cfg) current dt b = Ok v ∧ in_unit v).
  { intros b. unfold tick.
    destruct (tick_final_ok cfg current dt b) as (final & -> & Hk & Hb).
    simpl. destruct (EmotionVector_init_ok final Hk Hb) as [v Hv].
    exists v. split; [done|]. eapply EmotionVector_init_in_unit, Hv. }
  split; [apply Htick|]. split; [apply Htick|]. split.
  - unfold apply_influence.
    destruct (influence_fold_keeps intensity influence (model_dump current))
      as [Hk Hb]; [exact Hcur|].
    destruct (EmotionVector_init_ok _ Hk Hb) as [v Hv].
    exists v. split; [done|]. eapply EmotionVector_init_in_unit, Hv.
  - reflexivity.
Qed.

(** C5.  The decay pass of [tick] returns, for every emotion [e] of the
    vector with category [c], the intermediate value
    [current[e] + (baseline[e] - current[e]) * decay_rate[c] * dt], and
    [tick] feeds exactly that dictionary to the relationship pass and then
    to the inertia pass; with [decay_rate_primary = 0.2], [dt = 1.0],
    baseline [joy = 0.0] and current [joy = 0.5] the decayed [joy] is
    [0.4]. *)
Theorem C5_decay_pass (cfg : EmotionPhysicsConfig)
    (current base : EmotionVector) (dt : Qc) :
  (∀ (e c : string) (value b : Qc),
      get (model_dump current) e = Some value →
      get (model_dump base) e = Some b →
      get EMOTION_CATEGORIES e = Some c →
      ∃ rate new_emotions,
        getitem (decay_rates (init cfg)) c = Ok rate
        ∧ decay_pass (init cfg) (model_dump current) dt base = Ok new_emotions
        ∧ get new_emotions e = Some (value + (b - value) * rate * dt)
        ∧ tick_final (init cfg) current dt (Some base)
          = inertia_pass (inertia_default cfg) (model_dump current)
                         (relationship_pass dt new_emotions))
  ∧ (decay_rate_primary cfg = float 2 10 → dt = 1 →
     joy base = 0 → joy current = float 5 10 →
     ∃ new_emotions,
       decay_pass (init cfg) (model_dump current) dt base = Ok new_emotions
       ∧ get new_emotions "joy" = Some (float 4 10)).
Proof.
  destruct (decay_pass_ok cfg dt base (model_dump current)) as (ne & Hne & HF).
  split.
  - intros e c value b Hv Hb Hc.
    destruct (decayed_get cfg dt base _ _ e value HF Hv) as (r & Hr & Hget).
    exists r, ne. unfold get_or in Hr. rewrite Hc in Hr. simpl in Hr.
    unfold getattr, get_or in Hget. rewrite Hb in Hget. simpl in Hget.
    repeat split; [done..|].
    unfold tick_final. cbv zeta. cbn [from_option]. unfold id.
    by rewrite Hne.
  - intros Hrate -> Hb Hj. exists ne. split; [done|].
    destruct (decayed_get cfg _ base _ _ "joy" (joy current) HF eq_refl)
      as (r & Hr & ->).
    injection Hr as <-. f_equal.
    unfold getattr, get_or. simpl. rewrite Hrate, Hb, Hj.
    apply Qc_is_canon. reflexivity.
Qed.

(** ** Translator *)

Import Translator.

Example translate_joy_high :
  translate {| love := 0; joy := float 9 10; interest := 0; trust := 0;
               fear := 0; sadness := 0; anger := 0; surprise := 0;
               disgust := 0; curiosity := 0; confusion := 0; certainty := 0;
               doubt := 0; fascination := 0; boredom := 0; empathy := 0;
               compassion := 0; gratitude := 0; pride := 0; shame := 0;
               envy := 0; awe := 0; beauty := 0; wonder := 0; serenity := 0;
               melancholy := 0; nostalgia := 0 |} None
  = Ok "Radiant elation fills you with luminous energy.".
Proof. reflexivity. Qed.

Example translate_combined :
  translate {| love := float 5 10; joy := float 9 10; interest := 0;
               trust := 0; fear := 0; sadness := 0; anger := 0;
               surprise := float 4 10; disgust := 0; curiosity := 0;
               confusion := 0; certainty := 0; doubt := 0; fascination := 0;
               boredom := 0; empathy := 0; compassion := 0; gratitude := 0;
               pride := 0; shame := 0; envy := 0; awe := 0; beauty := 0;
               wonder := 0; serenity := 0; melancholy := 0; nostalgia := 0 |}
            (Some {[ "confidence_level" := float 9 10;
                     "mastery_level" := float 7 10 ]})
  = Ok ("Radiant elation fills you with luminous energy, affectionate in "
        +:+ "nature, with a hint of mild surprise. You recognize these "
        +:+ "patterns—knowledge earned through experience.").
Proof. reflexivity. Qed.

Lemma insert_desc_Forall (P : string * Qc → Prop) x l :
  P x → Forall P l → Forall P (insert_desc x l).
Proof.
  intros Hx. induction 1 as [|y l Hy Hl IH]; simpl.
  - by repeat constructor.
  - case_bool_decide; repeat constructor; done.
Qed.

Lemma sort_desc_Forall (P : string * Qc → Prop) l :
  Forall P l → Forall P (sort_desc l).
Proof.
  induction 1 as [|x l Hx Hl IH]; simpl; [constructor|].
  by apply insert_desc_Forall.
Qed.

(** Whatever holds of every field holds of the top [n] entries. *)
Lemma get_top_n_Forall (P : string * Qc → Prop) v n :
  Forall P (model_dump v) → Forall P (get_top_n v n).
Proof. intros H. apply Forall_take, sort_desc_Forall, H. Qed.

Lemma significant_none (l : list (string * Qc)) :
  Forall (λ kv : string * Qc, ¬ float 1 10 ≤ kv.2) l → significant l = [].
Proof.
  unfold significant. induction 1 as [|x l Hx Hl IH]; [done|].
  by rewrite filter_cons_False.
Qed.

(** C8.  When no emotion reaches 0.1 the translation (without learning
    context) is the fixed neutral sentence and the state hash is
    ["neutral"]; and both operations are functions of the field values
    and the learning context alone: two vectors with the same 27 values
    give the same sentence and the same hash. *)
Theorem C8_neutral_and_deterministic (v : EmotionVector) :
  (Forall (λ kv : string * Qc, ¬ float 1 10 ≤ kv.2) (model_dump v) →
   translate v None
   = Ok "A calm, neutral state—emotions at rest, awaiting what comes next."
   ∧ get_state_hash v = "neutral")
  ∧ (∀ (v' : EmotionVector) (ctx : option (gmap string Qc)),
       model_dump v' = model_dump v →
       translate v' ctx = translate v ctx
       ∧ get_state_hash v' = get_state_hash v).
Proof.
  split.
  - intros Hrest.
    pose proof (significant_none _ (get_top_n_Forall _ v 3 Hrest)) as Hs.
    unfold translate, get_state_hash. by rewrite Hs.
  - intros v' ctx Hv.
    unfold translate, get_state_hash, get_top_n. by rewrite Hv.
Qed.

(** Every emotion that has a lexicon entry has a word, different from the
    fallback, for each word type and each intensity. *)
Lemma lexicon_entries_complete (e wt i : string) :
  e ∈ keys LEXICON → wt ∈ ["noun"; "verb"; "adj"] →
  i ∈ ["low"; "medium"; "high"] →
  ∃ w, _get_word e wt i = Ok w ∧ w ≠ fallback e i.
Proof.
  intros He Hwt Hi.
  assert (Forall (λ e, Forall (λ wt, Forall (λ i,
            match _get_word e wt i with
            | Ok w => negb (String.eqb w (fallback e i))
            | Raise _ => false
            end = true) ["low"; "medium"; "high"]) ["noun"; "verb"; "adj"])
            (keys LEXICON)) as Hall.
  { repeat (apply Forall_cons; split); try apply Forall_nil_2; reflexivity. }
  rewrite Forall_forall in Hall. specialize (Hall e He).
  rewrite Forall_forall in Hall. specialize (Hall wt Hwt).
  rewrite Forall_forall in Hall. specialize (Hall i Hi).
  destruct (_get_word e wt i) as [w|]; [|done].
  exists w. split; [done|]. intros ->.
  by rewrite String.eqb_refl in Hall.
Qed.

(** C3.  The lexicon has entries for 24 of the 27 emotions of the vector:
    [disgust], [envy] and [beauty] are absent, and for them [_get_word]
    returns the fallback string, e.g. ["high disgust"]. *)
Theorem C3_lexicon_gaps :
  filter (λ e, contains LEXICON e = false) FIELDS
  = ["disgust"; "envy"; "beauty"]
  ∧ length (keys LEXICON) = 24%nat
  ∧ _get_word "disgust" "noun" "high" = Ok "high disgust"
  ∧ _get_word "envy" "verb" "medium" = Ok "medium envy"
  ∧ _get_word "beauty" "adj" "low" = Ok "low beauty".
Proof. repeat split; reflexivity. Qed.

(** ** Layer selection *)

Import Layers Samples.

Example split_example :
  split "  hi   there " = ["hi"; "there"]
  ∧ length (split ten_words) = 10%nat
  ∧ length (split thirty_five_words) = 35%nat.
Proof. repeat split; reflexivity. Qed.

(** C7.  [analyze_complexity] is 0.2, 0.4, 0.6 or 0.8 by the word count
    (below 5, below 15, below 30, otherwise), and [select_layer] returns
    ["L1"] exactly when the complexity is below 0.3 and no emotional depth
    is needed, ["L3+L2"] when the complexity exceeds 0.7 or emotional depth
    is needed, and ["L3"] otherwise; a 2-word query without emotional depth
    gives ["L1"], a 35-word query gives ["L3+L2"] with either flag, a
    10-word query without emotional depth gives ["L3"]. *)
Theorem C7_select_layer (query : string) (emotional_depth_needed : bool) :
  let n := length (split query) in
  let complexity := analyze_complexity query in
  ((n < 5)%nat → complexity = float 2 10)
  ∧ ((5 ≤ n < 15)%nat → complexity = float 4 10)
  ∧ ((15 ≤ n < 30)%nat → complexity = float 6 10)
  ∧ ((30 ≤ n)%nat → complexity = float 8 10)
  ∧ (select_layer query emotional_depth_needed = "L1"
     ↔ complexity < float 3 10 ∧ emotional_depth_needed = false)
  ∧ (float 7 10 < complexity ∨ emotional_depth_needed = true →
     select_layer query emotional_depth_needed = "L3+L2")
  ∧ (¬ (complexity < float 3 10 ∧ emotional_depth_needed = false) →
     ¬ (float 7 10 < complexity ∨ emotional_depth_needed = true) →
     select_layer query emotional_depth_needed = "L3")
  ∧ select_layer "hi there" false = "L1"
  ∧ select_layer thirty_five_words false = "L3+L2"
  ∧ select_layer thirty_five_words true = "L3+L2"
  ∧ select_layer ten_words false = "L3".
Proof.
  intros n complexity.
  assert (Hc : (n < 5)%nat ∧ complexity = float 2 10
               ∨ (5 ≤ n < 15)%nat ∧ complexity = float 4 10
               ∨ (15 ≤ n < 30)%nat ∧ complexity = float 6 10
               ∨ (30 ≤ n)%nat ∧ complexity = float 8 10).
  { subst complexity. unfold analyze_complexity. fold n.
    destruct (Nat.ltb_spec n 5); [by left|].
    destruct (Nat.ltb_spec n 15); [right; left; split; [lia|done]|].
    destruct (Nat.ltb_spec n 30); [right; right; left; split; [lia|done]|].
    right; right; right; by split. }
  split_and!;
    [intros; destruct Hc as [[? ?]|[[? ?]|[[? ?]|[? ?]]]]; (done || lia) ..
    | | | | | | | ].
  - unfold select_layer. fold complexity.
    destruct emotional_depth_needed, Hc as [[_ ->]|[[_ ->]|[[_ ->]|[_ ->]]]];
      vm_compute; (split; [intros; try discriminate | intros [Hlt Hf]; try discriminate]);
      try (split; [done|done]); try done;
      exfalso; revert Hlt; vm_compute; congruence.
  - unfold select_layer. fold complexity.
    intros Hor.
    destruct emotional_depth_needed, Hc as [[_ Hv]|[[_ Hv]|[[_ Hv]|[_ Hv]]]];
      rewrite Hv in *; try reflexivity;
      destruct Hor as [Hlt|?]; try discriminate;
      exfalso; revert Hlt; vm_compute; congruence.
  - unfold select_layer. fold complexity.
    intros Hn1 Hn2.
    destruct emotional_depth_needed, Hc as [[_ Hv]|[[_ Hv]|[[_ Hv]|[_ Hv]]]];
      rewrite Hv in *; try reflexivity; exfalso;
      first [ apply Hn2; right; reflexivity
            | apply Hn2; left; compute_done
            | apply Hn1; split; [compute_done|reflexivity] ].
  - reflexivity.
  - reflexivity.
  - reflexivity.
  - reflexivity.
Qed.

(** ** The database client *)

Section ClientFacts.
Context {conn : Type} `{!Db.Surreal conn}.

(** A client that was never given a connection object refuses every
    data operation and stays as it is. *)
Lemma data_operation_without_client (c : Db.call) (self : Db.DatabaseClient conn) :
  Db._client self = None →
  Db.data_operation c self
  = (self, Raise (RuntimeError "Database not connected")).
Proof.
  intros Hc. destruct c; simpl;
    unfold Db.query, Db.select, Db.create, Db.update, Db.merge, Db.delete;
    by rewrite Hc.
Qed.

(** The guard looks at [_client] only: with a connection object in
    place every data operation is the driver call on that object. *)
Lemma data_operation_with_client (c : Db.call) (self : Db.DatabaseClient conn)
    (k : conn) :
  Db._client self = Some k →
  Db.data_operation c self = Db.on_client (Db.surreal_call c) self.
Proof.
  intros Hc. destruct c; simpl;
    unfold Db.query, Db.select, Db.create, Db.update, Db.merge, Db.delete;
    by rewrite Hc.
Qed.

(** [close] resets [_connected] and keeps the connection object. *)
Lemma close_keeps_client (self : Db.DatabaseClient conn) (k k' : conn) :
  Db._client self = Some k → Db._connected self = true →
  Db.surreal_close k = (k', Ok ()) →
  Db.close self = ({| Db._client := Some k'; Db._connected := false |}, Ok ()).
Proof.
  intros Hc Hn Hk. unfold Db.close, Db.on_client. rewrite Hc, Hn.
  unfold mbind, prog_bind. rewrite Hc, Hk. reflexivity.
Qed.
End ClientFacts.

(** C4.  On a client that never got a connection object every data
    operation raises "Database not connected" and leaves the client
    untouched.  On a client that holds a connection object and is not
    connected (after [close], say) every data operation is forwarded to
    that object: after a successful [connect] and a [close] on the
    reference driver, [query] reaches the closed connection, which logs the
    call and answers with its own error. *)
Theorem C4_closed_client_forwards :
  (∀ (conn : Type) (drv : Db.Surreal conn) (c : Db.call),
      Db.data_operation c (Db.new (conn := conn))
      = (Db.new, Raise (RuntimeError "Database not connected")))
  ∧ (∀ (conn : Type) (drv : Db.Surreal conn) (c : Db.call) (k : conn),
       let self := {| Db._client := Some k; Db._connected := false |} in
       Db.is_connected self = false
       ∧ Db.data_operation c self = Db.on_client (Db.surreal_call c) self)
  ∧ (let connected := (Db.connect (Db.new (conn := Db.Mem.mem))).1 in
     let closed := (Db.close connected).1 in
     Db.is_connected connected = true
     ∧ Db.is_connected closed = false
     ∧ Db.query "SELECT * FROM goal" None closed
       = ({| Db._client :=
               Some {| Db.Mem.opened := false; Db.Mem.store := ∅;
                       Db.Mem.log := [Db.Query "SELECT * FROM goal" None] |};
             Db._connected := false |},
          Raise (ConnectionError "connection closed"))).
Proof.
  split; [|split].
  - intros. by apply data_operation_without_client.
  - intros conn drv c k self. split; [done|].
    by apply (data_operation_with_client c self k).
  - repeat split; reflexivity.
Qed.

(** ** Rule feedback *)

Import Learning.

Section LearningFacts.
Context {conn : Type} `{!Db.Surreal conn}.

(** Whatever happens in its body, [update_rule_confidence] returns
    normally. *)
Lemma update_rule_confidence_returns (self : LearningEngine conn)
    (rule_id : string) (success : bool) (rt : option Qc) (now : string) :
  ∃ self', update_rule_confidence rule_id success rt now self = (self', Ok ()).
Proof.
  unfold update_rule_confidence, try_except.
  destruct (update_rule_confidence_body _ _ _ _ _) as [self' [[]|e]];
    by eexists.
Qed.

Lemma nonzero_count (n : Z) : (0 < n)%Z → bool_decide (Qc_of_Z n = 0) = false.
Proof.
  intros Hn. apply bool_decide_eq_false. rewrite <- Z2Qc_inj_0.
  intros Heq%Z2Qc_inj. lia.
Qed.

Lemma count_lt (n m : Z) :
  bool_decide (Qc_of_Z n < Qc_of_Z m) = bool_decide (n < m)%Z.
Proof. apply bool_decide_ext. symmetry. apply Z2Qc_inj_lt. Qed.
End LearningFacts.

(** C2.  On an existing rule (the lookup returns its row, with integer
    counters [a], [s], [f], [a] not negative, and mean [old_avg]),
    [update_rule_confidence] merges into the rule the dictionary of the
    specification: [application_count = a + 1], exactly one of
    [success_count], [fail_count] incremented by the flag, and
    [confidence = (success_count + 1) / (application_count + 2)] on the
    incremented counters; then it merges [deprecated = True] exactly when
    that confidence is below 0.4 and the incremented [application_count]
    exceeds 10.  With [a = 10], [s = 1] and a failure the confidence is
    2/13 and the rule is deprecated; with [a = 0], [s = 0] and a success
    the confidence is 2/3 and it is not. *)
Theorem C2_update_rule_confidence (conn : Type) (drv : Db.Surreal conn)
    (self : LearningEngine conn) (rule_id : string) (success : bool)
    (resolution_time : option Qc) (now : string)
    (k k1 : conn) (rule_data : Db.record) (rows : list Db.record)
    (rest : Db.response) (a s f : Z) (old_avg : Qc) :
  Db._client (db self) = Some k →
  Db.surreal_call (Db.Select rule_id) k
  = (k1, Ok ({| Db.result := rule_data :: rows |} :: rest)) →
  rule_data !! "application_count" = Some (Db.VInt a) →
  rule_data !! "success_count" = Some (Db.VInt s) →
  rule_data !! "fail_count" = Some (Db.VInt f) →
  rule_data !! "avg_resolution_time" = Some (Db.VFloat old_avg) →
  (0 ≤ a)%Z →
  update_rule_confidence rule_id success resolution_time now self
  = try_except
      (on_db (Db.merge rule_id
                (spec_updates a s f old_avg success resolution_time now));;
       if spec_deprecated a s success
       then on_db (Db.merge rule_id {[ "deprecated" := Db.VBool true ]});;
            mret ()
       else mret ())
      (λ _, mret ())
      {| db := Db.set_client k1 (db self);
         experiences_logged := experiences_logged self;
         rules_created := rules_created self |}
  ∧ ((spec_success_count s success - s) + (spec_fail_count f success - f) = 1)%Z
  ∧ spec_confidence 10 1 false = float 2 13
  ∧ spec_deprecated 10 1 false = true
  ∧ spec_confidence 0 0 true = float 2 3
  ∧ spec_deprecated 0 0 true = false.
Proof.
  intros Hk Hsel Ha Hs Hf Havg Hpos.
  split; [|split; [destruct success; unfold spec_success_count, spec_fail_count; lia|]].
  2: { repeat split; try reflexivity; apply Qc_is_canon; reflexivity. }
  unfold update_rule_confidence, update_rule_confidence_body.
  unfold try_except at 1 2.
  unfold mbind at 1, prog_bind at 1.
  unfold on_db at 1, zoom at 1, Db.select, Db.on_client.
  rewrite Hk, Hsel. cbn [Db.result].
  unfold get_default. rewrite Ha, Hs, Hf, Havg. cbn [default from_option id].
  match goal with
  | |- (let (_, _) := ?P ?st in _) = (let (_, _) := ?Q ?st in _) =>
      replace (P st) with (Q st); [reflexivity|]
  end.
  unfold spec_updates, spec_deprecated, spec_confidence, spec_success_count,
    spec_fail_count, spec_application_count.
  unfold lift, add, sub, mul, arith, truediv, lt.
  unfold mbind, prog_bind, exc_bind. cbn [as_int as_float].
  rewrite !nonzero_count by (destruct success; lia).
  cbn [as_float]. rewrite count_lt.
  destruct success, resolution_time; rewrite ?Z.add_0_r; reflexivity.
Qed.

(** C9.  A failure inside [update_rule_confidence] does not reach the
    route: for every engine, request and database behaviour
    [POST /rules/feedback] answers with the success body.  With a database
    client that was never connected the body of the engine operation
    raises "Database not connected", the operation itself returns
    normally, and the response is 200 with [success = True]. *)
Theorem C9_feedback_failure_is_swallowed :
  (∀ (conn : Type) (drv : Db.Surreal conn) (engine : LearningEngine conn)
     (request : RuleFeedbackRequest) (now : string),
      ∃ engine',
        submit_rule_feedback request now (Some engine)
        = (Some engine',
           Ok {[ "success" := Db.VBool true;
                 "message" := Db.VStr "Rule confidence updated" ]}))
  ∧ (update_rule_confidence_body "rule:r1" true None "2026-01-01T00:00:00"
       offline_engine).2
    = Raise (RuntimeError "Database not connected")
  ∧ update_rule_confidence "rule:r1" true None "2026-01-01T00:00:00"
      offline_engine
    = (offline_engine, Ok ())
  ∧ http_response
      (submit_rule_feedback (feedback true) "2026-01-01T00:00:00"
         (Some offline_engine)).2
    = (200%Z, {[ "success" := Db.VBool true;
                 "message" := Db.VStr "Rule confidence updated" ]}).
Proof.
  split; [|repeat split; reflexivity].
  intros conn drv engine request now.
  destruct (update_rule_confidence_returns engine (rule_id request)
              (success request) (resolution_time request) now) as [engine' He].
  exists engine'.
  unfold submit_rule_feedback, get_learning_engine, try_except, zoom.
  unfold mbind, prog_bind. by rewrite He.
Qed.

Example feedback_on_stored_rule :
  rule_after false 10 1 9 !! "application_count" = Some (Db.VInt 11)
  ∧ rule_after false 10 1 9 !! "success_count" = Some (Db.VInt 1)
  ∧ rule_after false 10 1 9 !! "fail_count" = Some (Db.VInt 10)
  ∧ rule_after false 10 1 9 !! "confidence" = Some (Db.VFloat (float 2 13))
  ∧ rule_after false 10 1 9 !! "deprecated" = Some (Db.VBool true)
  ∧ rule_after true 0 0 0 !! "confidence" = Some (Db.VFloat (float 2 3))
  ∧ rule_after true 0 0 0 !! "deprecated" = Some (Db.VBool false).
Proof.
  repeat split; reflexivity.
Qed.

(** ** The goal engine *)

Section GoalFacts.
Import GoalEngine.
Context {conn bus : Type}
  `{!Db.Surreal conn, !Messages.MessageBus bus, !GoalModel}.

Local Abbreviation engine := (GoalEngine conn bus).

Lemma keeps_refl (self : engine) : keeps self self.
Proof. exists []. by rewrite app_nil_r. Qed.

Lemma keeps_trans (s1 s2 s3 : engine) : keeps s1 s2 → keeps s2 s3 → keeps s1 s3.
Proof.
  intros [e1 He1] [e2 He2]. exists (e1 ++ e2)%list.
  by rewrite He2, He1, app_assoc.
Qed.

Lemma keeps_same_goals (s s' : engine) :
  active_goals s' = active_goals s → keeps s s'.
Proof. intros Heq. exists []. unfold ids. by rewrite Heq, app_nil_r. Qed.

Lemma Keeps_ret {A} (a : A) : Keeps (mret a : prog engine A).
Proof. intros s. apply keeps_refl. Qed.

Lemma Keeps_raise {A} (e : exception) : Keeps (raise e : prog engine A).
Proof. intros s. apply keeps_refl. Qed.

Lemma Keeps_lift {A} (r : exc A) : Keeps (lift r : prog engine A).
Proof. intros s. apply keeps_refl. Qed.

Lemma Keeps_bind {A B} (m : prog engine A) (f : A → prog engine B) :
  Keeps m → (∀ a, Keeps (f a)) → Keeps (m ≫= f).
Proof.
  intros Hm Hf s. unfold mbind, prog_bind.
  specialize (Hm s). destruct (m s) as [s' [a|e]]; simpl in *; [|done].
  eapply keeps_trans; [exact Hm|apply Hf].
Qed.

Lemma Keeps_try {A} (m : prog engine A) (h : exception → prog engine A) :
  Keeps m → (∀ e, Keeps (h e)) → Keeps (try_except m h).
Proof.
  intros Hm Hh s. unfold try_except.
  specialize (Hm s). destruct (m s) as [s' [a|e]]; simpl in *; [done|].
  eapply keeps_trans; [exact Hm|apply Hh].
Qed.

(** Whatever the database client does, the goals in memory stay. *)
Lemma Keeps_on_db {A} (m : prog (Db.DatabaseClient conn) A) :
  Keeps (on_db m : prog engine A).
Proof.
  intros s. unfold on_db, zoom. destruct (m (db s)) as [d r]; simpl.
  by apply keeps_same_goals.
Qed.

Lemma Keeps_publish (message : Messages.EngineMessage) :
  Keeps (publish message : prog engine unit).
Proof.
  intros s. unfold publish. destruct (_message_bus s) as [b|]; simpl.
  - destruct (Messages.bus_publish message b) as [b' r]; simpl.
    by apply keeps_same_goals.
  - apply keeps_refl.
Qed.

Lemma Keeps_modify (f : engine → engine) :
  (∀ s, keeps s (f s)) → Keeps (modify f).
Proof. intros Hf s. apply Hf. Qed.

Lemma Keeps_get {A B} (p : engine → A) (f : A → prog engine B) :
  (∀ self, keeps self (f (p self) self).1) → Keeps (gets p ≫= f).
Proof. intros Hf s. apply Hf. Qed.

Lemma Keeps_formulate_goal (trigger : string) (context : Db.record) (now : Z)
    (fresh : string) :
  Keeps (formulate_goal trigger context now fresh : prog engine (option Goal)).
Proof.
  unfold formulate_goal. destruct (get goal_templates trigger); [|apply Keeps_ret].
  apply Keeps_bind; [apply Keeps_lift|intros goal].
  apply Keeps_try; [|intros; apply Keeps_ret].
  repeat (apply Keeps_bind; [|intros]);
    [apply Keeps_on_db| |apply Keeps_publish|apply Keeps_ret].
  apply Keeps_modify. intros s. exists [goal_id goal].
  unfold ids; simpl. by rewrite fmap_app.
Qed.

Lemma Keeps_consider_new_goal (trigger : string) (now : Z) (fresh : string) :
  Keeps (_consider_new_goal trigger now fresh : prog engine unit).
Proof.
  unfold _consider_new_goal. apply Keeps_get. intros self.
  destruct (3 <=? _)%nat; [apply keeps_refl|].
  destruct (recent_goals _ _ _); [|apply keeps_refl].
  apply (Keeps_bind _ _ (Keeps_formulate_goal _ _ _ _)).
  intros; apply Keeps_ret.
Qed.

Lemma Keeps_tick (now : Z) (fresh : string) :
  Keeps (tick now fresh : prog engine unit).
Proof.
  unfold tick. apply Keeps_get. intros self.
  repeat case_bool_decide;
    first [apply Keeps_consider_new_goal|apply keeps_refl].
Qed.

Lemma Keeps_handle_message (message : Messages.EngineMessage) (now : Z)
    (fresh : string) :
  Keeps (_handle_message message now fresh : prog engine unit).
Proof.
  unfold _handle_message. destruct (String.eqb _ _); [|apply Keeps_ret].
  apply Keeps_bind; [apply Keeps_lift|intros vector].
  apply Keeps_bind.
  - apply Keeps_modify. intros s. by apply keeps_same_goals.
  - intros _. case_bool_decide;
      [apply Keeps_consider_new_goal|apply Keeps_ret].
Qed.
Lemma bind_gets {S A B} (p : S → A) (k : A → prog S B) (s : S) :
  (gets p ≫= k) s = k (p s) s.
Proof. reflexivity. Qed.

Lemma bind_lift {S A B} (a : A) (k : A → prog S B) (s : S) :
  (lift (Ok a) ≫= k) s = k a s.
Proof. reflexivity. Qed.

Lemma bind_run {S A B} (m : prog S A) (k : A → prog S B) (s : S) :
  (m ≫= k) s
  = match m s with
    | (s', Ok a) => k a s'
    | (s', Raise e) => (s', Raise e)
    end.
Proof. reflexivity. Qed.

Lemma bind_modify {S B} (f : S → S) (k : unit → prog S B) (s : S) :
  (modify f ≫= k) s = k () (f s).
Proof. reflexivity. Qed.

Lemma goals_after_db_update {A} (m : prog (Db.DatabaseClient conn) A)
    (self : engine) :
  active_goals (try_except (on_db m;; mret ()) (λ _, mret ()) self).1
  = active_goals self.
Proof.
  unfold try_except, mbind, prog_bind, on_db, zoom.
  by destruct (m (db self)) as [d [a|e]].
Qed.

Lemma find_goal_Some (l : list Goal) (target : string) (i : nat) (g : Goal) :
  find_goal l target = Some (i, g) → l !! i = Some g ∧ goal_id g = target.
Proof. unfold find_goal. intros (Hl & Hg & _)%list_find_Some. done. Qed.

(** Rewriting a goal in place keeps the identifiers. *)
Lemma ids_insert (l : list Goal) (i : nat) (g g' : Goal) :
  l !! i = Some g → goal_id g' = goal_id g →
  goal_id <$> <[i := g']> l = goal_id <$> l.
Proof.
  intros Hl Hid. rewrite list_fmap_insert, Hid.
  apply list_insert_id. by rewrite list_lookup_fmap, Hl.
Qed.

Lemma update_goal_progress_goals (target : string) (p : Qc) (notes : string)
    (now : Z) (self : engine) :
  match find_goal (active_goals self) target with
  | Some (i, g) =>
      if in01 p then
        active_goals (update_goal_progress target p notes now self).1
        = <[i := let g1 := set_updated now (set_progress p g) in
                 if bool_decide (1 ≤ p)
                 then set_completed (Some now) (set_status "completed" g1)
                 else g1]> (active_goals self)
      else update_goal_progress target p notes now self
           = (self, Raise ValidationError)
  | None => update_goal_progress target p notes now self = (self, Ok ())
  end.
Proof.
  destruct (find_goal _ _) as [[i g]|] eqn:Hfind; [destruct (in01 p) eqn:Hp|];
    unfold update_goal_progress; rewrite bind_gets, Hfind, ?Hp; [|done..].
  by rewrite bind_modify, goals_after_db_update.
Qed.

Lemma cancel_goal_goals (target reason : string) (now : Z) (self : engine) :
  match find_goal (active_goals self) target with
  | Some (i, g) =>
      active_goals (cancel_goal target reason now self).1
      = <[i := set_metadata (<["cancellation_reason" := reason]> (metadata g))
                 (set_updated now (set_status "cancelled" g))]>
          (active_goals self)
  | None => cancel_goal target reason now self = (self, Ok ())
  end.
Proof.
  destruct (find_goal _ _) as [[i g]|] eqn:Hfind;
    unfold cancel_goal; rewrite bind_gets, Hfind; [|done].
  by rewrite bind_modify, goals_after_db_update.
Qed.

Lemma ids_update_goal_progress (target : string) (p : Qc) (notes : string)
    (now : Z) (self : engine) :
  ids (update_goal_progress target p notes now self).1 = ids self.
Proof.
  pose proof (update_goal_progress_goals target p notes now self) as H2.
  destruct (find_goal _ _) as [[i g]|] eqn:Hfind; [|by rewrite H2].
  destruct (in01 p); [|by rewrite H2].
  apply find_goal_Some in Hfind as [Hl _].
  unfold ids. rewrite H2. eapply ids_insert; [exact Hl|].
  by case_bool_decide.
Qed.

Lemma ids_cancel_goal (target reason : string) (now : Z) (self : engine) :
  ids (cancel_goal target reason now self).1 = ids self.
Proof.
  pose proof (cancel_goal_goals target reason now self) as H2.
  destruct (find_goal _ _) as [[i g]|] eqn:Hfind; [|by rewrite H2].
  apply find_goal_Some in Hfind as [Hl _].
  unfold ids. rewrite H2. by eapply ids_insert.
Qed.

Lemma max_priority_elem (best : Goal) (l : list Goal) :
  max_priority best l ∈ best :: l.
Proof.
  revert best. induction l as [|g l IH]; intros best; simpl.
  - apply list_elem_of_here.
  - specialize (IH (if bool_decide (priority best < priority g)
                    then g else best)).
    apply elem_of_cons in IH as [->|IH].
    + case_bool_decide; set_solver.
    + set_solver.
Qed.

Lemma get_goal_context_focus (self : engine) :
  ∃ ctx, get_goal_context self = (self, Ok ctx)
         ∧ ctx_active_goals ctx = take 5 (active_goals self)
         ∧ ∀ g, current_focus ctx = Some g →
                g ∈ active_goals self ∧ status g = "active".
Proof.
  unfold get_goal_context. rewrite bind_gets. cbv zeta.
  eexists. split; [reflexivity|]. split; [reflexivity|]. simpl.
  intros g Hg.
  destruct (List.filter is_active (active_goals self)) as [|g0 l] eqn:Hf;
    [done|].
  injection Hg as <-.
  pose proof (max_priority_elem g0 l) as Hin. rewrite <- Hf in Hin.
  apply list_elem_of_In, filter_In in Hin as [Hin Hact].
  split; [by apply list_elem_of_In|].
  by apply String.eqb_eq.
Qed.

(** [initialize] replaces the list by what the database returns; on the
    empty list of a new engine nothing is lost. *)
Lemma keeps_initialize (self : engine) :
  active_goals self = [] → keeps self (initialize self).1.
Proof.
  intros Hnil. unfold keeps, ids. rewrite Hnil. simpl. by eexists.
Qed.

Lemma keeps_after (o : operation) (self : engine) :
  (o = Initialize → active_goals self = []) → keeps self (after o self).
Proof.
  intros Hinit. destruct o; simpl.
  - by apply keeps_initialize, Hinit.
  - destruct message_bus; by apply keeps_same_goals.
  - apply Keeps_tick.
  - apply keeps_refl.
  - apply keeps_refl.
  - apply Keeps_formulate_goal.
  - exists []. by rewrite ids_update_goal_progress, app_nil_r.
  - exists []. by rewrite ids_cancel_goal, app_nil_r.
  - apply keeps_refl.
  - apply Keeps_consider_new_goal.
  - apply Keeps_handle_message.
Qed.
End GoalFacts.

Import GoalEngine.


Section ThrottleFacts.
Context {conn bus : Type}
  `{!Db.Surreal conn, !Messages.MessageBus bus, !GoalModel}.

Local Abbreviation engine := (GoalEngine conn bus).

Lemma filter_nonempty {A} (f : A → bool) (l : list A) (x : A) :
  x ∈ l → f x = true → List.filter f l ≠ [].
Proof.
  intros Hin Hf Hnil.
  assert (In x (List.filter f l)) as Hx.
  { apply filter_In. split; [by apply list_elem_of_In|done]. }
  by rewrite Hnil in Hx.
Qed.

Lemma filter_empty {A} (f : A → bool) (l : list A) :
  (∀ x, x ∈ l → f x = false) → List.filter f l = [].
Proof.
  induction l as [|y l IH]; intros Hall; simpl; [done|].
  rewrite (Hall y) by apply list_elem_of_here.
  apply IH. intros x Hx. apply Hall. by apply list_elem_of_further.
Qed.

(** What [formulate_goal] leaves behind, by the outcome of persisting the
    goal: the goal is appended once [db.create] has returned (whatever the
    message bus does afterwards) and not at all when it raised. *)
Lemma formulate_goal_outcome (self : engine) (trigger : string)
    (template : Template) (context : Db.record) (now : Z) (fresh : string)
    (goal : Goal) :
  get goal_templates trigger = Some template →
  new_goal trigger template context now fresh = Ok goal →
  let persisted := Db.create "goal" (model_dump goal) (db self) in
  match persisted.2 with
  | Ok _ =>
      active_goals (formulate_goal trigger context now fresh self).1
      = (active_goals self ++ [goal])%list
  | Raise _ =>
      formulate_goal trigger context now fresh self
      = (set_db persisted.1 self, Ok None)
  end.
Proof.
  intros Ht Hg persisted. unfold formulate_goal. rewrite Ht, Hg.
  rewrite bind_lift. unfold try_except. rewrite bind_run.
  unfold on_db, zoom. fold persisted.
  destruct persisted as [d [r|e]]; simpl; [|done].
  rewrite bind_modify, bind_run. unfold publish; simpl.
  destruct (_message_bus self) as [b|]; simpl; [|done].
  by destruct (Messages.bus_publish _ b) as [b' [[]|e]].
Qed.
End ThrottleFacts.

(** C6 (amended).  For a trigger among [boredom], [idle_exploration] and
    [curiosity], [_consider_new_goal] changes nothing when 3 or more goals
    of the list are active, or when a goal of the list with origin
    ["autonomous_{trigger}"] was created less than 3600 seconds ago.
    With fewer than 3 active goals and no such goal it formulates a goal
    with that origin and, once [db.create] has returned, appends it to the
    list; when [db.create] raises, the error is swallowed and the list
    stays as it was. *)
Theorem C6_goal_throttling (conn bus : Type) (drv : Db.Surreal conn)
    (mb : Messages.MessageBus bus) (gm : GoalModel)
    (self : GoalEngine conn bus) (trigger : string) (now : Z)
    (fresh : string) :
  trigger ∈ ["boredom"; "idle_exploration"; "curiosity"] →
  let active_count := length (List.filter is_active (active_goals self)) in
  let blocked :=
    ∃ g, g ∈ active_goals self
         ∧ origin g = "autonomous_" +:+ trigger
         ∧ total_seconds now (created g) < float 3600 1 in
  ((3 ≤ active_count)%nat ∨ blocked →
   _consider_new_goal trigger now fresh self = (self, Ok ()))
  ∧ ((active_count < 3)%nat → ¬ blocked →
     ∃ goal,
       goal_id goal = "goal:" +:+ fresh
       ∧ origin goal = "autonomous_" +:+ trigger
       ∧ created goal = now
       ∧ let persisted := Db.create "goal" (model_dump goal) (db self) in
         match persisted.2 with
         | Ok _ =>
             active_goals (_consider_new_goal trigger now fresh self).1
             = (active_goals self ++ [goal])%list
         | Raise _ =>
             _consider_new_goal trigger now fresh self
             = (set_db persisted.1 self, Ok ())
         end).
Proof.
  intros Htrigger active_count blocked. split.
  - intros Hskip. unfold _consider_new_goal. rewrite bind_gets.
    fold active_count.
    destruct (Nat.leb_spec 3 active_count) as [_|Hlt]; [done|].
    destruct Hskip as [Hge|(g & Hin & Horigin & Hage)]; [lia|].
    destruct (recent_goals trigger now (active_goals self)) eqn:Hrecent;
      [|done].
    exfalso. eapply (filter_nonempty _ _ g Hin); [|exact Hrecent].
    rewrite andb_true_iff, String.eqb_eq, bool_decide_eq_true. done.
  - intros Hlt Hfree.
    assert (∃ template, get goal_templates trigger = Some template
                        ∧ in01 (t_priority template) = true)
      as (template & Ht & Hp).
    { repeat (apply elem_of_cons in Htrigger as [->|Htrigger];
              [eexists; split; reflexivity|]).
      by apply elem_of_nil in Htrigger. }
    set (context := ({[ "boredom_level" := Db.VFloat (current_boredom_level self);
                        "idle_time" :=
                          Db.VFloat (total_seconds now
                                       (last_user_interaction self)) ]}
                     : Db.record)).
    assert (∃ goal, new_goal trigger template context now fresh = Ok goal
                    ∧ goal_id goal = "goal:" +:+ fresh
                    ∧ origin goal = "autonomous_" +:+ trigger
                    ∧ created goal = now) as (goal & Hgoal & Hid & Ho & Hc).
    { unfold new_goal.
      replace (context !! "emotions") with (@None Db.value) by reflexivity.
      simpl. rewrite Hp. by eexists. }
    exists goal. split; [done|]. split; [done|]. split; [done|].
    pose proof (formulate_goal_outcome self trigger template context now
                  fresh goal Ht Hgoal) as Hout.
    cbv zeta in *.
    assert (_consider_new_goal trigger now fresh self
            = (formulate_goal trigger context now fresh;; mret ()) self)
      as ->.
    { unfold _consider_new_goal. rewrite bind_gets. fold active_count.
      destruct (Nat.leb_spec 3 active_count) as [Hge|_]; [lia|].
      unfold recent_goals. rewrite filter_empty; [done|].
      intros g Hin. apply not_true_iff_false. intros Hrecent. apply Hfree.
      exists g. split; [done|].
      by rewrite andb_true_iff, String.eqb_eq, bool_decide_eq_true in Hrecent. }
    rewrite bind_run.
    destruct (Db.create "goal" (model_dump goal) (db self)) as [d [r|e]];
      simpl in *.
    + by destruct (formulate_goal _ _ _ _ _) as [s' [a|e]].
    + by rewrite Hout.
Qed.


(** * Further properties *)

(** ** Rational arithmetic *)

Ltac qc_unfold :=
  unfold Qclt, Qcle, Qcminus, Qcplus, Qcopp, Qcmult, Q2Qc in *;
  simpl this in *; rewrite ?Qred_correct in *.

Lemma Qc_abs_nonneg (x : Qc) : 0 ≤ Builtins.abs x.
Proof.
  unfold Builtins.abs. case_bool_decide as Hx.
  - qc_unfold. lra.
  - by apply Qcnot_lt_le.
Qed.

Lemma Qc_abs_sub_comm (x y : Qc) : Builtins.abs (x - y) = Builtins.abs (y - x).
Proof.
  unfold Builtins.abs.
  destruct (Qclt_le_dec (x - y) 0) as [Hxy|Hxy];
    destruct (Qclt_le_dec (y - x) 0) as [Hyx|Hyx].
  - exfalso. qc_unfold. lra.
  - rewrite bool_decide_eq_true_2, bool_decide_eq_false_2
      by (done || by apply Qcle_not_lt). ring.
  - rewrite bool_decide_eq_false_2, bool_decide_eq_true_2
      by (done || by apply Qcle_not_lt). ring.
  - rewrite !bool_decide_eq_false_2 by (by apply Qcle_not_lt).
    apply Qcle_antisym; qc_unfold; lra.
Qed.

Lemma Qc_abs_sub_unit (x y : Qc) :
  0 ≤ x ≤ 1 → 0 ≤ y ≤ 1 → Builtins.abs (x - y) ≤ 1.
Proof.
  intros [Hx0 Hx1] [Hy0 Hy1]. unfold Builtins.abs.
  case_bool_decide; qc_unfold; lra.
Qed.

Lemma Qc_abs_sub_diag (x : Qc) : Builtins.abs (x - x) = 0.
Proof.
  unfold Builtins.abs. case_bool_decide; ring.
Qed.

Lemma Qc_sum_acc (l : list Qc) (a : Qc) :
  fold_left Qcplus l a = a + Builtins.sum l.
Proof.
  unfold Builtins.sum. revert a. induction l as [|x l IH]; intros a; simpl.
  - ring.
  - rewrite (IH (a + x)), (IH (0 + x)). ring.
Qed.

Lemma Qc_sum_cons (x : Qc) (l : list Qc) :
  Builtins.sum (x :: l) = x + Builtins.sum l.
Proof. unfold Builtins.sum at 1. simpl. rewrite Qc_sum_acc. ring. Qed.

Lemma Qc_len_cons {A} (x : A) (l : list A) :
  Builtins.len (x :: l) = Builtins.len l + 1.
Proof.
  unfold Builtins.len. simpl length.
  by rewrite Nat2Z.inj_succ, <- Z.add_1_r, Z2Qc_inj_add, Z2Qc_inj_1.
Qed.

Lemma Qc_len_nonneg {A} (l : list A) : 0 ≤ Builtins.len l.
Proof.
  pose proof (proj1 (Z2Qc_inj_le 0 (Z.of_nat (length l)))
                (Nat2Z.is_nonneg _)) as Hle.
  by rewrite Z2Qc_inj_0 in Hle.
Qed.

Lemma Qc_sum_bounds (l : list Qc) (hi : Qc) :
  0 ≤ hi → Forall (λ x, 0 ≤ x ≤ hi) l →
  0 ≤ Builtins.sum l ≤ hi * Builtins.len l.
Proof.
  intros Hhi. induction 1 as [|x l [Hx0 Hx1] _ [IH0 IH1]].
  - replace (Builtins.len (@nil Qc)) with 0
      by (symmetry; apply Z2Qc_inj_0).
    rewrite Qcmult_0_r. split; apply Qcle_refl.
  - rewrite Qc_sum_cons, Qc_len_cons.
    replace (hi * (Builtins.len l + 1)) with (hi * Builtins.len l + hi) by ring.
    split; qc_unfold; lra.
Qed.

(** A quotient [s / n] with [0 ≤ s ≤ n] and [0 < n] lies in the unit
    interval. *)
Lemma Qc_div_unit (s n : Qc) : 0 < n → 0 ≤ s ≤ n → 0 ≤ s / n ≤ 1.
Proof.
  intros Hn [Hs0 Hs1].
  assert (n ≠ 0) as Hne.
  { intros Heq. symmetry in Heq. exact (Qclt_not_eq _ _ Hn Heq). }
  split; apply (Qcmult_le_mono_pos_r _ _ n Hn).
  - replace (s / n * n) with s by (by field). by rewrite Qcmult_0_l.
  - replace (s / n * n) with s by (by field). by rewrite Qcmult_1_l.
Qed.

Lemma Qc_min_unit (x : Qc) : x ≤ 1 → Py.min 1 x = x.
Proof.
  intros Hx. unfold Py.min. case_bool_decide; [done|].
  apply Qcle_antisym; [by apply Qcnot_lt_le|done].
Qed.

Lemma Qc_max_unit (x : Qc) : 0 ≤ x → Py.max 0 x = x.
Proof.
  intros Hx. unfold Py.max. case_bool_decide; [done|].
  apply Qcle_antisym; [done|by apply Qcnot_lt_le].
Qed.

Lemma truediv_pos (x y : Qc) : 0 < y → Builtins.truediv x y = Ok (x / y).
Proof.
  intros Hy. unfold Builtins.truediv. rewrite bool_decide_eq_false_2; [done|].
  intros ->. by apply Qclt_not_eq in Hy.
Qed.

Lemma exc_bind_ok {A B} (a : A) (f : A → exc B) : (Ok a ≫= f) = f a.
Proof. reflexivity. Qed.

Lemma Qc_27_pos : 0 < Qc_of_Z 27.
Proof. compute_done. Qed.

(** ** Volatility and stability *)

Section MetricsFacts.
Import Metrics.
Variable self : Physics.EmotionPhysics.

Lemma total_change_fields (current previous : EmotionVector) :
  Builtins.for_each
    (change_one (Emotion.model_dump current) (Emotion.model_dump previous))
    (keys (Emotion.model_dump current)) 0
  = Ok (Builtins.sum (field_changes current previous)).
Proof. destruct current, previous. reflexivity. Qed.

Lemma len_model_dump (v : EmotionVector) :
  Builtins.len (Emotion.model_dump v) = Qc_of_Z 27.
Proof. reflexivity. Qed.

Lemma field_changes_bounds (current previous : EmotionVector) :
  in_unit current → in_unit previous →
  Forall (λ x, 0 ≤ x ≤ 1) (field_changes current previous).
Proof.
  unfold in_unit, field_changes. destruct current, previous. simpl.
  intros Hc Hp.
  repeat (apply Forall_cons in Hc as [? Hc];
          apply Forall_cons in Hp as [? Hp];
          apply Forall_cons; split;
          [split; [apply Qc_abs_nonneg|by apply Qc_abs_sub_unit]|]).
  apply Forall_nil_2.
Qed.

Lemma field_changes_nonneg (current previous : EmotionVector) :
  Forall (λ x, 0 ≤ x) (field_changes current previous).
Proof.
  unfold field_changes. destruct current, previous. simpl.
  repeat (apply Forall_cons; split; [apply Qc_abs_nonneg|]).
  apply Forall_nil_2.
Qed.

Lemma Qc_sum_nonneg (l : list Qc) : Forall (λ x, 0 ≤ x) l → 0 ≤ Builtins.sum l.
Proof.
  induction 1 as [|x l Hx _ IH]; [apply Qcle_refl|].
  rewrite Qc_sum_cons. qc_unfold. lra.
Qed.

(** X1.  [calculate_volatility] returns for any two vectors, its value
    lies in [[0,1]], and it is 0 for a vector compared with itself. *)
Theorem volatility_bounds (current previous : EmotionVector) :
  (∃ v, calculate_volatility self current previous = Ok v ∧ 0 ≤ v ≤ 1)
  ∧ calculate_volatility self current current = Ok 0.
Proof.
  unfold calculate_volatility. cbv zeta. rewrite !total_change_fields.
  rewrite !exc_bind_ok, !len_model_dump.
  rewrite !(truediv_pos _ _ Qc_27_pos), !exc_bind_ok. split.
  - eexists. split; [reflexivity|].
    pose proof (Qc_sum_nonneg _ (field_changes_nonneg current previous)) as Hs.
    assert (0 ≤ Builtins.sum (field_changes current previous) / Qc_of_Z 27)
      as Hq.
    { unfold Qcdiv.
      replace 0 with (0 * / Qc_of_Z 27) by ring.
      apply Qcmult_le_compat_r; [done|compute_done]. }
    unfold Py.min. case_bool_decide as Hlt.
    + split; [done|by apply Qclt_le_weak].
    + split; [compute_done|apply Qcle_refl].
  - f_equal.
    replace (Builtins.sum (field_changes current current)) with (0 : Qc).
    + apply Qc_is_canon. reflexivity.
    + unfold field_changes. destruct current. simpl.
      rewrite !Qc_abs_sub_diag. apply Qc_is_canon. reflexivity.
Qed.

(** X2.  Volatility is symmetric in its two vectors. *)
Theorem volatility_symmetric (current previous : EmotionVector) :
  calculate_volatility self current previous
  = calculate_volatility self previous current.
Proof.
  unfold calculate_volatility. cbv zeta. rewrite !total_change_fields.
  rewrite !exc_bind_ok, !len_model_dump.
  rewrite !(truediv_pos _ _ Qc_27_pos), !exc_bind_ok. do 4 f_equal.
  unfold field_changes. destruct current, previous. simpl.
  repeat (apply (f_equal2 cons); [apply Qc_abs_sub_comm|]). reflexivity.
Qed.

(** X3.  Between two vectors with all fields in [[0,1]] the volatility is
    exactly the mean absolute change over the 27 fields: the cap at 1.0
    never applies. *)
Theorem volatility_mean_change (current previous : EmotionVector) :
  in_unit current → in_unit previous →
  calculate_volatility self current previous
  = Ok (Builtins.sum (field_changes current previous) / Qc_of_Z 27).
Proof.
  intros Hc Hp.
  unfold calculate_volatility. cbv zeta. rewrite !total_change_fields.
  rewrite !exc_bind_ok, !len_model_dump.
  rewrite !(truediv_pos _ _ Qc_27_pos), !exc_bind_ok. f_equal.
  apply Qc_min_unit.
  pose proof (Qc_sum_bounds _ 1 ltac:(compute_done)
                (field_changes_bounds _ _ Hc Hp)) as Hs.
  rewrite Qcmult_1_l in Hs.
  replace (Builtins.len (field_changes current previous)) with (Qc_of_Z 27)
    in Hs by (destruct current, previous; reflexivity).
  apply Qc_div_unit; [exact Qc_27_pos|exact Hs].
Qed.

(** X4.  [calculate_stability] never raises.  On a non-empty history of
    volatilities in [[0,1]] it is exactly one minus their mean, which lies
    in [[0,1]]; on the empty history it is 1. *)
Theorem stability_of_history (history : list Qc) :
  (∃ s, calculate_stability self history = Ok s ∧ 0 ≤ s ≤ 1)
  ∧ calculate_stability self [] = Ok 1
  ∧ (history ≠ [] → Forall (λ x, 0 ≤ x ≤ 1) history →
     calculate_stability self history
     = Ok (1 - Builtins.sum history / Builtins.len history)).
Proof.
  assert (history ≠ [] → 0 < Builtins.len history) as Hlen.
  { destruct history as [|x l]; [done|]. intros _.
    rewrite Qc_len_cons. pose proof (Qc_len_nonneg l). qc_unfold. lra. }
  split; [|split; [done|]].
  - destruct history as [|x l]; [exists 1; split; [done|split; compute_done]|].
    unfold calculate_stability. rewrite truediv_pos by (by apply Hlen).
    rewrite exc_bind_ok. eexists. split; [reflexivity|apply clamp_unit].
  - intros Hne Hall. specialize (Hlen Hne).
    destruct history as [|x l]; [done|].
    unfold calculate_stability. rewrite truediv_pos by done.
    rewrite exc_bind_ok. f_equal.
    pose proof (Qc_sum_bounds _ 1 ltac:(compute_done) Hall) as Hs.
    rewrite Qcmult_1_l in Hs.
    pose proof (Qc_div_unit _ _ Hlen Hs) as [Hq0 Hq1].
    rewrite Qc_min_unit, Qc_max_unit; [done|..]; qc_unfold; lra.
Qed.
End MetricsFacts.

(** ** Dictionaries, continued *)

Section OdictMore.
Context {V : Type}.
Implicit Types (d : odict V) (k : string) (v : V).

Lemma get_setitem_eq d k v : k ∈ keys d → get (setitem d k v) k = Some v.
Proof.
  induction d as [|[k' v'] d IH]; simpl; intros Hk.
  - by apply elem_of_nil in Hk.
  - destruct (String.eqb_spec k' k) as [->|Hne]; simpl.
    + by rewrite String.eqb_refl.
    + apply elem_of_cons in Hk as [->|Hk]; [done|].
      destruct (String.eqb_spec k' k); [done|]. by apply IH.
Qed.

Lemma get_setitem_ne d k k' v : k ≠ k' → get (setitem d k v) k' = get d k'.
Proof.
  intros Hne. induction d as [|[k0 v0] d IH]; simpl.
  - destruct (String.eqb_spec k k'); done.
  - destruct (String.eqb_spec k0 k) as [->|Hk0]; simpl.
    + destruct (String.eqb_spec k k'); done.
    + by rewrite IH.
Qed.

Lemma setitem_same d k v : get d k = Some v → setitem d k v = d.
Proof.
  induction d as [|[k' v'] d IH]; simpl; [done|].
  destruct (String.eqb_spec k' k) as [->|Hne]; [by intros [= ->]|].
  intros Hg. by rewrite IH.
Qed.

Lemma get_None_keys d k : k ∉ keys d → get d k = None.
Proof.
  intros Hk. destruct (get d k) as [v|] eqn:Hg; [|done].
  by apply get_Some_keys in Hg.
Qed.

(** With distinct keys an item is found under its key. *)
Lemma get_elem_NoDup d k v : NoDup (keys d) → (k, v) ∈ d → get d k = Some v.
Proof.
  induction d as [|[k' v'] d IH]; simpl; intros Hnd Hin.
  - by apply elem_of_nil in Hin.
  - apply NoDup_cons in Hnd as [Hk' Hnd].
    apply elem_of_cons in Hin as [[= -> ->]|Hin].
    + by rewrite String.eqb_refl.
    + destruct (String.eqb_spec k' k) as [->|Hne]; [|by apply IH].
      destruct Hk'. apply list_elem_of_fmap. by exists (k, v).
Qed.
End OdictMore.

Lemma traverse_id {A} (f : A → exc A) (l : list A) :
  (∀ x, x ∈ l → f x = Ok x) → traverse f l = Ok l.
Proof.
  induction l as [|x l IH]; intros Hf; simpl; [done|].
  rewrite Hf by apply list_elem_of_here. simpl.
  rewrite IH; [done|]. intros y Hy. apply Hf. by apply list_elem_of_further.
Qed.

(** ** The emotion vector, continued *)

Lemma NoDup_FIELDS : NoDup FIELDS.
Proof. apply (bool_decide_unpack _). by vm_compute. Qed.

(** Dumping a valid vector and constructing it again gives it back. *)
Lemma EmotionVector_init_model_dump (v : EmotionVector) :
  in_unit v → EmotionVector_init (Emotion.model_dump v) = Ok v.
Proof.
  intros Hv. unfold EmotionVector_init.
  destruct (forallb _ FIELDS) eqn:Hall; [by destruct v|].
  exfalso. apply not_true_iff_false in Hall. apply Hall.
  apply forallb_forall. intros k Hin.
  destruct (keys_get (Emotion.model_dump v) k) as (x & -> & Hx).
  { by apply list_elem_of_In. }
  apply in01_spec. unfold in_unit in Hv. rewrite Forall_forall in Hv.
  apply (Hv _ Hx).
Qed.

(** The fields of a constructed vector are the entries of the dictionary
    it was constructed from. *)
Lemma EmotionVector_init_get (d : odict Qc) (v : EmotionVector) (e : string) :
  EmotionVector_init d = Ok v → e ∈ FIELDS →
  get (Emotion.model_dump v) e = get d e.
Proof.
  unfold EmotionVector_init.
  destruct (forallb _ FIELDS) eqn:Hall; [|done].
  intros [= <-] He. rewrite forallb_forall in Hall.
  specialize (Hall e (proj1 (list_elem_of_In _ _) He)).
  destruct (get d e) as [x|] eqn:Hg; [|done].
  unfold FIELDS in He.
  repeat (apply elem_of_cons in He as [->|He];
          [simpl; unfold get_or; by rewrite Hg|]).
  by apply elem_of_nil in He.
Qed.

(** ** Influence and physics, continued *)

Section InfluenceFacts.
Import Physics.

Lemma influence_fold_other (intensity : Qc) (l d : odict Qc) (e : string) :
  e ∉ keys l → get (fold_left (influence_one intensity) l d) e = get d e.
Proof.
  revert d. induction l as [|[k delta] l IH]; intros d Hk; simpl; [done|].
  apply not_elem_of_cons in Hk as [Hne Hk]. rewrite (IH _ Hk).
  destruct (get d k); [|done]. by apply get_setitem_ne.
Qed.

Lemma influence_fold_named (intensity : Qc) (l d : odict Qc) (e : string)
    (delta old : Qc) :
  NoDup (keys l) → (e, delta) ∈ l → get d e = Some old →
  get (fold_left (influence_one intensity) l d) e
  = Some (Py.max 0 (Py.min 1 (old + delta * intensity))).
Proof.
  revert d. induction l as [|[k delta0] l IH]; intros d Hnd Hin Hold; simpl.
  - by apply elem_of_nil in Hin.
  - apply NoDup_cons in Hnd as [Hk Hnd].
    apply elem_of_cons in Hin as [[= <- <-]|Hin].
    + rewrite influence_fold_other by done. rewrite Hold.
      apply get_setitem_eq. by eapply get_Some_keys.
    + assert (k ≠ e) as Hne.
      { intros ->. apply Hk, list_elem_of_fmap. by exists (e, delta). }
      apply IH; [done..|].
      destruct (get d k); [|done]. by rewrite get_setitem_ne.
Qed.

(** X5.  [apply_influence] leaves every field that the influence map does
    not name exactly as it was; names that are no field of the vector are
    ignored. *)
Theorem influence_untouched (self : EmotionPhysics) (current v' : EmotionVector)
    (influence : odict Qc) (intensity : Qc) (e : string) :
  apply_influence self current influence intensity = Ok v' →
  e ∉ keys influence →
  get (Emotion.model_dump v') e = get (Emotion.model_dump current) e.
Proof.
  unfold apply_influence. intros Hinit He.
  destruct (decide (e ∈ FIELDS)) as [Hf|Hf].
  - rewrite (EmotionVector_init_get _ _ _ Hinit Hf).
    by apply influence_fold_other.
  - by rewrite !get_None_keys.
Qed.

(** X6.  For an influence map (its keys are distinct) a named field goes
    from [old] to [max(0, min(1, old + delta * intensity))]. *)
Theorem influence_named (self : EmotionPhysics) (current v' : EmotionVector)
    (influence : odict Qc) (intensity : Qc) (e : string) (delta old : Qc) :
  apply_influence self current influence intensity = Ok v' →
  NoDup (keys influence) → (e, delta) ∈ influence →
  get (Emotion.model_dump current) e = Some old →
  get (Emotion.model_dump v') e
  = Some (Py.max 0 (Py.min 1 (old + delta * intensity))).
Proof.
  unfold apply_influence. intros Hinit Hnd Hin Hold.
  assert (e ∈ FIELDS) as Hf.
  { rewrite <- (keys_model_dump current). by eapply get_Some_keys. }
  rewrite (EmotionVector_init_get _ _ _ Hinit Hf).
  by apply influence_fold_named.
Qed.

Lemma fold_left_fixed {A S} (f : S → A → S) (l : list A) (s : S) :
  (∀ a, f s a = s) → fold_left f l s = s.
Proof.
  intros Hf. induction l as [|a l IH]; simpl; [done|]. by rewrite Hf.
Qed.

Lemma relationship_pass_zero_step (d : odict Qc) :
  Forall (λ kv : string * Qc, 0 ≤ kv.2 ≤ 1) d → relationship_pass 0 d = d.
Proof.
  intros Hd. unfold relationship_pass. apply fold_left_fixed. intros e.
  unfold relate. destruct (get d e) as [value|]; [|done].
  case_bool_decide; [done|].
  assert (∀ rels, fold_left (amplify value 0) rels d = d) as Hamp.
  { intros rels. apply fold_left_fixed. intros [target strength].
    unfold amplify. destruct (get d target) as [cur|] eqn:Hg; [|done].
    apply setitem_same. rewrite Hg. f_equal.
    replace (cur + value * strength * 0 * float 5 10) with cur by ring.
    symmetry. apply Qc_min_unit. rewrite Forall_forall in Hd.
    apply (Hd _ (get_Some_elem _ _ _ Hg)). }
  rewrite Hamp. apply fold_left_fixed. intros [target strength].
  unfold suppress. destruct (get d target) as [cur|] eqn:Hg; [|done].
  apply setitem_same. rewrite Hg. f_equal.
  replace (cur - value * strength * 0 * float 5 10) with cur by ring.
  symmetry. apply Qc_max_unit. rewrite Forall_forall in Hd.
  apply (Hd _ (get_Some_elem _ _ _ Hg)).
Qed.

Lemma relationship_pass_faint (dt : Qc) (d : odict Qc) :
  Forall (λ kv : string * Qc, kv.2 < float 1 10) d →
  relationship_pass dt d = d.
Proof.
  intros Hd. unfold relationship_pass. apply fold_left_fixed. intros e.
  unfold relate. destruct (get d e) as [value|] eqn:Hg; [|done].
  rewrite Forall_forall in Hd.
  by rewrite bool_decide_eq_true_2 by apply (Hd _ (get_Some_elem _ _ _ Hg)).
Qed.

(** When the first two passes leave the dumped vector as it is, so does
    [tick]. *)
Lemma tick_unchanged (cfg : EmotionPhysicsConfig) (current : EmotionVector)
    (dt : Qc) (b : option EmotionVector) :
  in_unit current →
  decay_pass (init cfg) (Emotion.model_dump current) dt
             (default (baseline cfg) b) = Ok (Emotion.model_dump current) →
  relationship_pass dt (Emotion.model_dump current)
  = Emotion.model_dump current →
  tick (init cfg) current dt b = Ok current.
Proof.
  intros Hv Hdecay Hrel. unfold tick, tick_final. cbv zeta.
  change (config (init cfg)) with cfg. rewrite Hdecay.
  cbn [mbind exc_bind]. rewrite Hrel.
  unfold inertia_pass. rewrite traverse_id.
  - cbn [mbind exc_bind]. by apply EmotionVector_init_model_dump.
  - intros [e old] Hin. unfold inertia_one, getitem.
    rewrite (get_elem_NoDup (Emotion.model_dump current) _ _ NoDup_FIELDS Hin).
    cbn [mbind exc_bind].
    do 2 f_equal.
    replace (old + (old - old) * (1 - inertia_default cfg)) with old by ring.
    unfold in_unit in Hv. rewrite Forall_forall in Hv.
    destruct (Hv _ Hin) as [H0 H1]. simpl in H0, H1.
    by rewrite Qc_min_unit, Qc_max_unit.
Qed.

(** X7.  A time step of zero changes nothing: [tick] with [dt = 0] returns
    the vector it was given, for every configuration and baseline. *)
Theorem tick_zero_step (cfg : EmotionPhysicsConfig) (current : EmotionVector)
    (b : option EmotionVector) :
  in_unit current → tick (init cfg) current 0 b = Ok current.
Proof.
  intros Hv. apply tick_unchanged; [done| |by apply relationship_pass_zero_step].
  unfold decay_pass. apply traverse_id. intros x _.
  destruct (decay_one_decayed cfg 0 (default (baseline cfg) b) x)
    as (y & -> & r & _ & ->).
  destruct x as [e v]. simpl. do 2 f_equal. ring.
Qed.

(** X8.  A vector at rest stays at rest: when the state equals the
    baseline and every emotion is below 0.1, [tick] returns it unchanged
    for every time step. *)
Theorem tick_at_rest (cfg : EmotionPhysicsConfig) (current : EmotionVector)
    (dt : Qc) (b : option EmotionVector) :
  in_unit current →
  Forall (λ kv : string * Qc, kv.2 < float 1 10) (Emotion.model_dump current) →
  default (baseline cfg) b = current →
  tick (init cfg) current dt b = Ok current.
Proof.
  intros Hv Hfaint Hb.
  apply tick_unchanged; [done| |by apply relationship_pass_faint].
  rewrite Hb. unfold decay_pass. apply traverse_id. intros x Hin.
  destruct (decay_one_decayed cfg dt current x) as (y & -> & r & _ & ->).
  destruct x as [e v]. simpl. do 2 f_equal.
  unfold getattr, get_or.
  rewrite (get_elem_NoDup (Emotion.model_dump current) _ _ NoDup_FIELDS Hin).
  simpl. ring.
Qed.
End InfluenceFacts.

(** ** Translator, continued *)

Section TranslatorFacts.
Import Translator.

Lemma intensity_level_cases (x : Qc) :
  _get_intensity_level x ∈ ["low"; "medium"; "high"].
Proof. unfold _get_intensity_level. repeat case_bool_decide; set_solver. Qed.

(** Every table of the lexicon has the three intensities under each word
    type it has, so a lookup cannot fail on the intensity. *)
Lemma get_word_returns (e wt i : string) :
  i ∈ ["low"; "medium"; "high"] → ∃ w, _get_word e wt i = Ok w.
Proof.
  intros Hi. unfold _get_word.
  destruct (get LEXICON e) as [d|] eqn:He; [|by eexists].
  destruct (get d wt) as [b|] eqn:Hwt; [|by eexists].
  assert (forallb (λ ed : string * odict (odict string),
            forallb (λ wb : string * odict string,
              forallb (contains wb.2) ["low"; "medium"; "high"]) ed.2)
            LEXICON = true) as Hall by reflexivity.
  rewrite forallb_forall in Hall.
  specialize (Hall _ (proj1 (list_elem_of_In _ _) (get_Some_elem _ _ _ He))).
  rewrite forallb_forall in Hall.
  specialize (Hall _ (proj1 (list_elem_of_In _ _) (get_Some_elem _ _ _ Hwt))).
  rewrite forallb_forall in Hall.
  specialize (Hall _ (proj1 (list_elem_of_In _ _) Hi)).
  unfold contains in Hall. unfold getitem. simpl in Hall.
  destruct (get b i); [by eexists|done].
Qed.

Lemma describe_single_returns (e : string) (x : Qc) :
  ∃ s, _describe_single_emotion e (_get_intensity_level x) = Ok s.
Proof.
  unfold _describe_single_emotion.
  destruct (get_word_returns e "noun" _ (intensity_level_cases x)) as [n ->].
  destruct (get_word_returns e "verb" _ (intensity_level_cases x)) as [v ->].
  by eexists.
Qed.

Lemma describe_combined_returns (e1 e2 : string) (x1 x2 : Qc) :
  ∃ s, _describe_combined_emotions e1 (_get_intensity_level x1)
         e2 (_get_intensity_level x2) = Ok s.
Proof.
  unfold _describe_combined_emotions.
  destruct (get_word_returns e1 "noun" _ (intensity_level_cases x1)) as [n ->].
  destruct (get_word_returns e1 "verb" _ (intensity_level_cases x1)) as [v ->].
  destruct (get_word_returns e2 "adj" _ (intensity_level_cases x2)) as [a ->].
  by eexists.
Qed.

(** X9.  [translate] returns a sentence for every vector and every
    learning context: no lexicon lookup can raise, whichever emotions are
    on top. *)
Theorem translate_returns (vector : EmotionVector)
    (learning_context : option (gmap string Qc)) :
  ∃ sentence, translate vector learning_context = Ok sentence.
Proof.
  unfold translate. cbv zeta.
  destruct (significant (get_top_n vector 3))
    as [|[e1 x1] [|[e2 x2] rest]]; [by eexists|..].
  - destruct (describe_single_returns e1 x1) as [s ->]. by eexists.
  - case_bool_decide.
    + destruct (describe_single_returns e1 x1) as [s ->]. by eexists.
    + destruct (describe_combined_returns e1 e2 x1 x2) as [s ->].
      cbn [mbind exc_bind].
      destruct rest as [|[e3 x3] rest]; [by eexists|].
      case_bool_decide; [|by eexists].
      destruct (get_word_returns e3 "noun" "low") as [w ->]; [set_solver|].
      by eexists.
Qed.
End TranslatorFacts.

(** ** The database client, continued *)

Section ClientMore.
Context {conn : Type} `{!Db.Surreal conn}.
Implicit Types self : Db.DatabaseClient conn.

Lemma on_client_state {A} (m : prog conn A) self :
  Db._client self ≠ None →
  Db._connected (Db.on_client m self).1 = Db._connected self
  ∧ Db._client (Db.on_client m self).1 ≠ None.
Proof.
  intros Hc. unfold Db.on_client. destruct (Db._client self) as [k|]; [|done].
  by destruct (m k).
Qed.

(** The two ways [connect] ends on a client that is not connected: in
    both the client holds the connection object it created, and
    [_connected] tells whether the handshake went through. *)
Lemma connect_cases self :
  Db._connected self = false →
  Db._client (Db.connect self).1 ≠ None
  ∧ Db._connected (Db.connect self).1
    = match (Db.connect self).2 with Ok _ => true | Raise _ => false end.
Proof.
  intros Hn. unfold Db.connect. rewrite Hn.
  unfold try_except. rewrite bind_modify.
  set (s0 := Db.set_client _ self).
  assert (Db._client s0 ≠ None) as H0 by done.
  rewrite bind_run.
  destruct (on_client_state Db.surreal_connect s0 H0) as [_ H1].
  destruct (Db.on_client Db.surreal_connect s0) as [s1 [[]|e]]; simpl in *;
    [|done].
  rewrite bind_run.
  destruct (on_client_state (Db.surreal_signin (Db.surreal_user Db.settings)
              (Db.surreal_pass Db.settings)) s1 H1) as [_ H2].
  destruct (Db.on_client (Db.surreal_signin _ _) s1) as [s2 [[]|e]];
    simpl in *; [|done].
  rewrite bind_run.
  destruct (on_client_state (Db.surreal_use (Db.surreal_ns Db.settings)
              (Db.surreal_db Db.settings)) s2 H2) as [_ H3].
  by destruct (Db.on_client (Db.surreal_use _ _) s2) as [s3 [[]|e]].
Qed.

(** An error of [on_client] on a client that holds a connection object
    is the error of the driver's call on that object. *)
Lemma on_client_error {A} (m : prog conn A) self (e : exception) :
  Db._client self ≠ None →
  (Db.on_client m self).2 = Raise e →
  ∃ k k', m k = (k', Raise e).
Proof.
  intros Hc. unfold Db.on_client.
  destruct (Db._client self) as [k|]; [|done].
  destruct (m k) as [k' r] eqn:Hm. simpl. intros ->. by exists k, k'.
Qed.

(** An error of [connect] is the error that the driver raised in
    [connect], [signin] or [use]. *)
Lemma connect_error self (e : exception) :
  Db._connected self = false →
  (Db.connect self).2 = Raise e →
  ∃ k k',
    Db.surreal_connect k = (k', Raise e)
    ∨ Db.surreal_signin (Db.surreal_user Db.settings)
        (Db.surreal_pass Db.settings) k = (k', Raise e)
    ∨ Db.surreal_use (Db.surreal_ns Db.settings)
        (Db.surreal_db Db.settings) k = (k', Raise e).
Proof.
  intros Hn. unfold Db.connect. rewrite Hn.
  unfold try_except. rewrite bind_modify.
  set (s0 := Db.set_client _ self).
  assert (Db._client s0 ≠ None) as H0 by done.
  rewrite bind_run.
  destruct (on_client_state Db.surreal_connect s0 H0) as [_ H1].
  pose proof (on_client_error Db.surreal_connect s0) as E1.
  destruct (Db.on_client Db.surreal_connect s0) as [s1 [[]|e1]]; simpl in *.
  2: { intros [= ->]. destruct (E1 e H0 eq_refl) as (k & k' & Hk).
       exists k, k'. by left. }
  rewrite bind_run.
  destruct (on_client_state (Db.surreal_signin (Db.surreal_user Db.settings)
              (Db.surreal_pass Db.settings)) s1 H1) as [_ H2].
  pose proof (on_client_error (Db.surreal_signin (Db.surreal_user Db.settings)
                (Db.surreal_pass Db.settings)) s1) as E2.
  destruct (Db.on_client (Db.surreal_signin _ _) s1) as [s2 [[]|e2]];
    simpl in *.
  2: { intros [= ->]. destruct (E2 e H1 eq_refl) as (k & k' & Hk).
       exists k, k'. right. by left. }
  rewrite bind_run.
  pose proof (on_client_error (Db.surreal_use (Db.surreal_ns Db.settings)
                (Db.surreal_db Db.settings)) s2) as E3.
  destruct (Db.on_client (Db.surreal_use _ _) s2) as [s3 [[]|e3]];
    simpl in *; [done|].
  intros [= ->]. destruct (E3 e H2 eq_refl) as (k & k' & Hk).
  exists k, k'. right. by right.
Qed.

(** X10.  [connect] on a client that is not connected either returns,
    and then the client is connected, or raises, and then the error is
    the one the driver raised in [connect], [signin] or [use], the client
    is not connected, and it keeps the connection object it created, so
    data operations are forwarded to that object rather than refused. *)
Theorem connect_outcome self (c : Db.call) :
  Db._connected self = false →
  match (Db.connect self).2 with
  | Ok _ => Db.is_connected (Db.connect self).1 = true
  | Raise e =>
      (∃ k k',
         Db.surreal_connect k = (k', Raise e)
         ∨ Db.surreal_signin (Db.surreal_user Db.settings)
             (Db.surreal_pass Db.settings) k = (k', Raise e)
         ∨ Db.surreal_use (Db.surreal_ns Db.settings)
             (Db.surreal_db Db.settings) k = (k', Raise e))
      ∧ Db.is_connected (Db.connect self).1 = false
      ∧ Db.data_operation c (Db.connect self).1
        = Db.on_client (Db.surreal_call c) (Db.connect self).1
  end.
Proof.
  intros Hn. destruct (connect_cases self Hn) as [Hclient Hflag].
  pose proof (connect_error self) as Herr.
  destruct (Db._client (Db.connect self).1) as [k|] eqn:Hk; [|done].
  unfold Db.is_connected. rewrite Hk, Hflag.
  destruct (Db.connect self).2 as [[]|e]; [done|].
  split; [by apply Herr|].
  split; [done|]. by apply (data_operation_with_client c _ k).
Qed.

(** X11.  [connect] is idempotent: after a [connect] that returned, a
    second [connect] returns at once and leaves the client as it is. *)
Theorem connect_idempotent self :
  (Db.connect self).2 = Ok () →
  Db.connect (Db.connect self).1 = ((Db.connect self).1, Ok ()).
Proof.
  intros Hok. destruct (Db._connected self) eqn:Hn.
  { unfold Db.connect. rewrite Hn. simpl. by rewrite Hn. }
  destruct (connect_cases self Hn) as [_ Hflag].
  rewrite Hok in Hflag.
  unfold Db.connect at 1. by rewrite Hflag.
Qed.

(** X12.  [close] is idempotent, and after a [close] that returned the
    client is not connected. *)
Theorem close_idempotent self :
  (Db.close self).2 = Ok () →
  Db.close (Db.close self).1 = ((Db.close self).1, Ok ())
  ∧ Db.is_connected (Db.close self).1 = false.
Proof.
  destruct (Db._client self) as [k|] eqn:Hk;
    [destruct (Db._connected self) eqn:Hn|].
  - destruct (Db.surreal_close k) as [k' [[]|e]] eqn:Hclose.
    + rewrite (close_keeps_client self k k' Hk Hn Hclose). by intros _.
    + unfold Db.close at 1. rewrite Hk, Hn, bind_run.
      unfold Db.on_client. by rewrite Hk, Hclose.
  - assert (Db.close self = (self, Ok ())) as ->.
    { unfold Db.close. by rewrite Hk, Hn. }
    intros _. simpl. split.
    + unfold Db.close. by rewrite Hk, Hn.
    + unfold Db.is_connected. by rewrite Hn.
  - assert (Db.close self = (self, Ok ())) as ->.
    { unfold Db.close. by rewrite Hk. }
    intros _. simpl. split.
    + unfold Db.close. by rewrite Hk.
    + unfold Db.is_connected. rewrite Hk. apply andb_false_r.
Qed.

(** X13.  No data operation connects or disconnects the client:
    [is_connected] is the same before and after, whether the operation
    returned or raised. *)
Theorem data_operation_keeps_connection (c : Db.call) self :
  Db.is_connected (Db.data_operation c self).1 = Db.is_connected self.
Proof.
  destruct (Db._client self) as [k|] eqn:Hk.
  - rewrite (data_operation_with_client c self k Hk).
    unfold Db.on_client, Db.is_connected. rewrite Hk.
    by destruct (Db.surreal_call c k).
  - by rewrite (data_operation_without_client c self Hk).
Qed.
End ClientMore.

(** ** The goal engine, continued *)

Section GoalMore.
Import GoalEngine.
Context {conn bus : Type}
  `{!Db.Surreal conn, !Messages.MessageBus bus, !GoalModel}.

Local Abbreviation engine := (GoalEngine conn bus).

Lemma max_priority_top (best : Goal) (l : list Goal) (g : Goal) :
  g ∈ best :: l → priority g ≤ priority (max_priority best l).
Proof.
  revert best g. induction l as [|x l IH]; intros best g Hg; simpl.
  - apply list_elem_of_singleton in Hg as ->. apply Qcle_refl.
  - set (best' := if bool_decide (priority best < priority x)
                  then x else best).
    assert (priority best ≤ priority best' ∧ priority x ≤ priority best')
      as [Hb Hx].
    { subst best'. case_bool_decide as Hlt.
      - split; [by apply Qclt_le_weak|apply Qcle_refl].
      - split; [apply Qcle_refl|by apply Qcnot_lt_le]. }
    apply elem_of_cons in Hg as [->|Hg].
    + eapply Qcle_trans; [exact Hb|]. apply IH, list_elem_of_here.
    + apply elem_of_cons in Hg as [->|Hg].
      * eapply Qcle_trans; [exact Hx|]. apply IH, list_elem_of_here.
      * apply IH. by apply list_elem_of_further.
Qed.

(** X14.  The focus of [get_goal_context] has the highest priority among
    the active goals, and there is no focus exactly when no goal of the
    list is active. *)
Theorem focus_has_top_priority (self : engine) :
  ∃ ctx,
    get_goal_context self = (self, Ok ctx)
    ∧ (current_focus ctx = None
       ↔ ∀ g, g ∈ active_goals self → status g ≠ "active")
    ∧ ∀ focus g,
        current_focus ctx = Some focus →
        g ∈ active_goals self → status g = "active" →
        priority g ≤ priority focus.
Proof.
  unfold get_goal_context. rewrite bind_gets. cbv zeta.
  eexists. split; [reflexivity|]. simpl.
  destruct (List.filter is_active (active_goals self)) as [|g0 l] eqn:Hf.
  - split; [|done]. split; [|done]. intros _ g Hin Hact.
    assert (In g (List.filter is_active (active_goals self))) as Hg.
    { apply filter_In. split; [by apply list_elem_of_In|].
      by apply String.eqb_eq. }
    by rewrite Hf in Hg.
  - split.
    + split; [done|]. intros Hnone. exfalso.
      assert (In g0 (List.filter is_active (active_goals self))) as Hg
        by (rewrite Hf; by left).
      apply filter_In in Hg as [Hin Hact].
      apply (Hnone g0); [by apply list_elem_of_In|by apply String.eqb_eq].
    + intros focus g [= <-] Hin Hact. apply max_priority_top.
      apply list_elem_of_In. rewrite <- Hf. apply filter_In.
      split; [by apply list_elem_of_In|by apply String.eqb_eq].
Qed.

(** What [formulate_goal] can do to the list: nothing, or append the goal
    it built; a goal it returns is the goal it appended. *)
Lemma formulate_goal_cases (trigger : string) (context : Db.record) (now : Z)
    (fresh : string) (self : engine) :
  let r := formulate_goal trigger context now fresh self in
  (active_goals r.1 = active_goals self ∧ ∀ g, r.2 ≠ Ok (Some g))
  ∨ ∃ goal,
      active_goals r.1 = (active_goals self ++ [goal])%list
      ∧ goal_id goal = "goal:" +:+ fresh
      ∧ origin goal = "autonomous_" +:+ trigger
      ∧ status goal = default_status
      ∧ ∀ g, r.2 = Ok (Some g) → g = goal.
Proof.
  unfold formulate_goal.
  destruct (get goal_templates trigger) as [template|]; [|by left].
  destruct (new_goal trigger template context now fresh) as [goal|e] eqn:Hg;
    [|by left].
  assert (goal_id goal = "goal:" +:+ fresh
          ∧ origin goal = "autonomous_" +:+ trigger
          ∧ status goal = default_status) as (Hid & Ho & Hst).
  { unfold new_goal in Hg.
    destruct (context !! "emotions") as [[]|]; simpl in Hg; try done;
      destruct (in01 _); by inversion Hg. }
  rewrite bind_lift. unfold try_except. rewrite bind_run.
  unfold on_db, zoom.
  destruct (Db.create "goal" (model_dump goal) (db self)) as [d [r|e]]; simpl;
    [|by left].
  right. exists goal. rewrite bind_modify, bind_run. unfold publish; simpl.
  destruct (_message_bus self) as [b|]; simpl.
  - destruct (Messages.bus_publish _ b) as [b' [[]|e]]; simpl;
      repeat split; try done; by intros g [= <-].
  - repeat split; try done. by intros g [= <-].
Qed.

Lemma consider_new_goal_cases (trigger : string) (now : Z) (fresh : string)
    (self : engine) :
  let s' := (_consider_new_goal trigger now fresh self).1 in
  active_goals s' = active_goals self
  ∨ ((length (List.filter is_active (active_goals self)) < 3)%nat
     ∧ ∃ goal, active_goals s' = (active_goals self ++ [goal])%list
               ∧ origin goal = "autonomous_" +:+ trigger
               ∧ status goal = default_status).
Proof.
  unfold _consider_new_goal. rewrite bind_gets.
  destruct (Nat.leb_spec 3 (length (List.filter is_active (active_goals self))))
    as [_|Hlt]; [by left|].
  destruct (recent_goals _ _ _); [|by left].
  rewrite bind_run.
  match goal with
  | |- context [formulate_goal ?t ?c ?n ?f self] =>
      pose proof (formulate_goal_cases t c n f self) as Hc; cbv zeta in Hc;
      destruct (formulate_goal t c n f self) as [s1 [a|e]]
  end; simpl in *.
  - destruct Hc as [[-> _]|(goal & Hgoal & _ & Ho & Hst & _)]; [by left|].
    right. split; [done|]. by exists goal.
  - destruct Hc as [[-> _]|(goal & Hgoal & _ & Ho & Hst & _)]; [by left|].
    right. split; [done|]. by exists goal.
Qed.
Lemma tick_cases (now : Z) (fresh : string) (self : engine) :
  let s' := (tick now fresh self).1 in
  active_goals s' = active_goals self
  ∨ ((length (List.filter is_active (active_goals self)) < 3)%nat
     ∧ ∃ goal, active_goals s' = (active_goals self ++ [goal])%list
               ∧ status goal = default_status).
Proof.
  unfold tick. rewrite bind_gets. cbv zeta.
  repeat case_bool_decide; [..|by left].
  - destruct (consider_new_goal_cases "boredom" now fresh self)
      as [Heq|(Hlt & g & Hg & _ & Hst)]; [by left|right].
    split; [done|]. by exists g.
  - destruct (consider_new_goal_cases "idle_exploration" now fresh self)
      as [Heq|(Hlt & g & Hg & _ & Hst)]; [by left|right].
    split; [done|]. by exists g.
Qed.

Lemma handle_message_cases (message : Messages.EngineMessage) (now : Z)
    (fresh : string) (self : engine) :
  let s' := (_handle_message message now fresh self).1 in
  active_goals s' = active_goals self
  ∨ ((length (List.filter is_active (active_goals self)) < 3)%nat
     ∧ ∃ goal, active_goals s' = (active_goals self ++ [goal])%list
               ∧ status goal = default_status).
Proof.
  unfold _handle_message. destruct (String.eqb _ _); [|by left].
  rewrite bind_run. unfold lift.
  destruct (Messages.data message !! "vector") as [[]|]; try by left.
  rewrite bind_modify. case_bool_decide; [|by left].
  match goal with
  | |- context [_consider_new_goal ?t ?n ?f ?s] =>
      destruct (consider_new_goal_cases t n f s)
        as [Heq|(Hlt & g & Hg & _ & Hst)]
  end; [by left|right]. split; [done|]. by exists g.
Qed.

(** X15.  Apart from [initialize], [update_goal_progress] and
    [cancel_goal], every operation leaves the goals of the list exactly as
    they are and appends at most one goal. *)
Theorem at_most_one_goal_appended (o : operation) (self : engine) :
  match o with
  | Initialize | UpdateGoalProgress _ _ _ _ | CancelGoal _ _ _ => False
  | _ => True
  end →
  active_goals (after o self) = active_goals self
  ∨ ∃ goal, active_goals (after o self) = (active_goals self ++ [goal])%list.
Proof.
  destruct o; intros Ho; try done; simpl.
  - left. by destruct message_bus.
  - destruct (tick_cases now fresh self) as [?|(_ & g & ? & _)];
      [by left|right; by exists g].
  - by left.
  - by left.
  - destruct (formulate_goal_cases trigger context now fresh self)
      as [[? _]|(g & ? & _)]; [by left|right; by exists g].
  - by left.
  - destruct (consider_new_goal_cases trigger now fresh self)
      as [?|(_ & g & ? & _)]; [by left|right; by exists g].
  - destruct (handle_message_cases message now fresh self)
      as [?|(_ & g & ? & _)]; [by left|right; by exists g].
Qed.

Lemma active_count_app (l : list Goal) (g : Goal) :
  (length (List.filter is_active (l ++ [g]))
   ≤ S (length (List.filter is_active l)))%nat.
Proof.
  rewrite List.filter_app, length_app. simpl.
  destruct (is_active g); simpl; lia.
Qed.

(** X16.  Autonomous goal formation respects the cap of three active
    goals: after [tick], [_consider_new_goal] or [_handle_message] the
    number of active goals is at most 3, or what it was before when that
    was already more. *)
Theorem active_goals_capped (o : operation) (self : engine) :
  match o with
  | Tick _ _ | ConsiderNewGoal _ _ _ | HandleMessage _ _ _ => True
  | _ => False
  end →
  (length (List.filter is_active (active_goals (after o self)))
   ≤ Nat.max 3 (length (List.filter is_active (active_goals self))))%nat.
Proof.
  destruct o; intros Ho; try done; simpl.
  - destruct (tick_cases now fresh self) as [->|(Hlt & g & -> & _)]; [lia|].
    pose proof (active_count_app (active_goals self) g). lia.
  - destruct (consider_new_goal_cases trigger now fresh self)
      as [->|(Hlt & g & -> & _)]; [lia|].
    pose proof (active_count_app (active_goals self) g). lia.
  - destruct (handle_message_cases message now fresh self)
      as [->|(Hlt & g & -> & _)]; [lia|].
    pose proof (active_count_app (active_goals self) g). lia.
Qed.

(** X17.  [update_goal_progress] and [cancel_goal] on an identifier that
    no goal of the list has return without changing the engine or calling
    the database. *)
Theorem unknown_goal_is_ignored (self : engine) (target notes reason : string)
    (p : Qc) (now : Z) :
  (∀ g, g ∈ active_goals self → goal_id g ≠ target) →
  update_goal_progress target p notes now self = (self, Ok ())
  ∧ cancel_goal target reason now self = (self, Ok ()).
Proof.
  intros Hnone.
  assert (find_goal (active_goals self) target = None) as Hfind.
  { unfold find_goal. apply list_find_None, Forall_forall. intros g Hg.
    by apply Hnone. }
  pose proof (update_goal_progress_goals target p notes now self) as Hu.
  pose proof (cancel_goal_goals target reason now self) as Hc.
  by rewrite Hfind in Hu, Hc.
Qed.

(** X18.  [update_goal_progress] and [cancel_goal] rewrite only the first
    goal that has the identifier: every other position of the list, also a
    later goal with the same identifier, holds the goal it held before. *)
Theorem only_first_match_changes (self : engine) (target notes reason : string)
    (p : Qc) (now : Z) (i j : nat) (g : Goal) :
  find_goal (active_goals self) target = Some (i, g) → j ≠ i →
  active_goals (update_goal_progress target p notes now self).1 !! j
  = active_goals self !! j
  ∧ active_goals (cancel_goal target reason now self).1 !! j
    = active_goals self !! j.
Proof.
  intros Hfind Hj.
  pose proof (update_goal_progress_goals target p notes now self) as Hu.
  pose proof (cancel_goal_goals target reason now self) as Hc.
  rewrite Hfind in Hu, Hc. split.
  - destruct (in01 p); [|by rewrite Hu].
    rewrite Hu. by apply list_lookup_insert_ne.
  - rewrite Hc. by apply list_lookup_insert_ne.
Qed.

(** X19.  [formulate_goal] does nothing for a trigger without template,
    and a goal it returns is the last goal of the list, with identifier
    ["goal:" + fresh] and origin ["autonomous_" + trigger]. *)
Theorem formulated_goal_is_appended (self : engine) (trigger : string)
    (context : Db.record) (now : Z) (fresh : string) :
  (trigger ∉ ["boredom"; "idle_exploration"; "curiosity"] →
   formulate_goal trigger context now fresh self = (self, Ok None))
  ∧ ∀ goal,
      (formulate_goal trigger context now fresh self).2 = Ok (Some goal) →
      active_goals (formulate_goal trigger context now fresh self).1
      = (active_goals self ++ [goal])%list
      ∧ goal_id goal = "goal:" +:+ fresh
      ∧ origin goal = "autonomous_" +:+ trigger.
Proof.
  split.
  - intros Ht. unfold formulate_goal.
    rewrite (get_None_keys goal_templates trigger); [done|].
    exact Ht.
  - intros goal Hr.
    destruct (formulate_goal_cases trigger context now fresh self)
      as [[_ Hno]|(g & Hl & Hid & Ho & _ & Hret)]; [by destruct (Hno goal)|].
    by rewrite (Hret _ Hr).
Qed.
End GoalMore.

(** ** Mastery *)

Section MasteryFacts.
Import Mastery.

Lemma Qc_mult_unit (x y : Qc) : 0 ≤ x ≤ 1 → 0 ≤ y ≤ 1 → 0 ≤ x * y ≤ 1.
Proof.
  intros [Hx0 Hx1] [Hy0 Hy1]. split.
  - replace 0 with (0 * y) by ring. by apply Qcmult_le_compat_r.
  - apply Qcle_trans with (1 * y); [by apply Qcmult_le_compat_r|].
    by rewrite Qcmult_1_l.
Qed.

Lemma Qc_of_Z_pos (n : Z) : (0 < n)%Z → 0 < Qc_of_Z n.
Proof. intros Hn. rewrite <- Z2Qc_inj_0. by apply (proj1 (Z2Qc_inj_lt 0 n)). Qed.

Lemma mastery_step_applied (total weighted : Qc) (r : Rule) :
  (0 < application_count r)%Z →
  mastery_step (total, weighted) r
  = Ok (total + 1,
        weighted + confidence r * (Qc_of_Z (success_count r)
                                   / Qc_of_Z (application_count r))).
Proof.
  intros Hpos. unfold mastery_step. rewrite bool_decide_eq_true_2 by done.
  rewrite truediv_pos by (by apply Qc_of_Z_pos). by rewrite exc_bind_ok.
Qed.

Lemma mastery_step_skipped (total weighted : Qc) (r : Rule) :
  ¬ (0 < application_count r)%Z →
  mastery_step (total, weighted) r = Ok (total, weighted).
Proof.
  intros Hpos. unfold mastery_step. by rewrite bool_decide_eq_false_2 by done.
Qed.

(** The loop never raises, and its accumulator keeps
    [0 ≤ weighted_sum ≤ total_weight] when the success counts do not
    exceed the application counts. *)
Lemma mastery_loop (rules : list Rule) (total weighted : Qc) :
  ∃ total' weighted',
    Builtins.for_each mastery_step rules (total, weighted)
    = Ok (total', weighted')
    ∧ (Forall (λ r, (application_count r ≤ 0)%Z) rules →
       total' = total ∧ weighted' = weighted)
    ∧ (Forall (λ r, valid_statistics r
                    ∧ (success_count r ≤ application_count r)%Z) rules →
       0 ≤ weighted ≤ total → 0 ≤ weighted' ≤ total').
Proof.
  revert total weighted.
  induction rules as [|r rules IH]; intros total weighted;
    cbn [Builtins.for_each].
  - exists total, weighted. split; [done|]. split; [done|]. by intros _ ?.
  - destruct (decide (0 < application_count r)%Z) as [Hpos|Hnpos].
    + rewrite mastery_step_applied, exc_bind_ok by done.
      destruct (IH (total + 1)
                  (weighted + confidence r
                              * (Qc_of_Z (success_count r)
                                 / Qc_of_Z (application_count r))))
        as (t' & w' & -> & _ & Hvalid).
      exists t', w'. split; [done|]. split.
      * intros Hall. apply Forall_cons in Hall as [Hr _]. lia.
      * intros Hall Hacc. apply Forall_cons in Hall as [[Hr Hsa] Hall].
        apply Hvalid; [done|].
        destruct Hr as (Hc & _ & Hs & _).
        assert (0 ≤ Qc_of_Z (success_count r) / Qc_of_Z (application_count r)
                ≤ 1) as Hrate.
        { apply Qc_div_unit; [by apply Qc_of_Z_pos|]. split.
          - rewrite <- Z2Qc_inj_0. by apply (proj1 (Z2Qc_inj_le _ _)).
          - by apply (proj1 (Z2Qc_inj_le _ _)). }
        pose proof (Qc_mult_unit _ _ Hc Hrate) as [Hw0 Hw1].
        destruct Hacc as [Ha0 Ha1]. split; qc_unfold; lra.
    + rewrite mastery_step_skipped, exc_bind_ok by done.
      destruct (IH total weighted) as (t' & w' & -> & Hzero & Hvalid).
      exists t', w'. split; [done|]. split.
      * intros Hall. apply Forall_cons in Hall as [_ Hall]. by apply Hzero.
      * intros Hall. apply Forall_cons in Hall as [_ Hall]. by apply Hvalid.
Qed.

(** On rules with valid statistics and no more successes than
    applications the mastery is a number of [[0,1]]. *)
Lemma mastery_of_valid_rules (rules : list Rule) :
  Forall (λ r, valid_statistics r
               ∧ (success_count r ≤ application_count r)%Z) rules →
  ∃ m, _calculate_mastery_from_rules rules = Ok m ∧ 0 ≤ m ≤ 1.
Proof.
  intros Hall. destruct rules as [|r rules].
  { exists 0. split; [done|split; compute_done]. }
  unfold _calculate_mastery_from_rules.
  destruct (mastery_loop (r :: rules) 0 0) as (t & w & -> & _ & Hvalid).
  rewrite exc_bind_ok.
  destruct (Hvalid Hall) as [Hw0 Hw1]; [split; apply Qcle_refl|].
  case_bool_decide as Ht.
  - rewrite truediv_pos by done. eexists. split; [reflexivity|].
    by apply Qc_div_unit.
  - exists 0. split; [done|split; compute_done].
Qed.

(** X20.  [_calculate_mastery_from_rules] never raises: no rule list
    makes it divide by zero.  It is 0 when no rule has been applied, and
    it lies in [[0,1]] when every rule has valid statistics and no more
    successes than applications. *)
Theorem mastery_bounds (rules : list Rule) :
  (∃ m, _calculate_mastery_from_rules rules = Ok m)
  ∧ (Forall (λ r, (application_count r ≤ 0)%Z) rules →
     _calculate_mastery_from_rules rules = Ok 0)
  ∧ (Forall (λ r, valid_statistics r
                  ∧ (success_count r ≤ application_count r)%Z) rules →
     ∃ m, _calculate_mastery_from_rules rules = Ok m ∧ 0 ≤ m ≤ 1).
Proof.
  split; [|split; [|apply mastery_of_valid_rules]].
  - destruct rules as [|r rules]; [by eexists|].
    unfold _calculate_mastery_from_rules.
    destruct (mastery_loop (r :: rules) 0 0) as (t & w & -> & _ & _).
    rewrite exc_bind_ok.
    case_bool_decide as Ht; [|by eexists].
    rewrite truediv_pos by done. by eexists.
  - intros Hall. destruct rules as [|r rules]; [done|].
    unfold _calculate_mastery_from_rules.
    destruct (mastery_loop (r :: rules) 0 0) as (t & w & -> & Hzero & _).
    rewrite exc_bind_ok. destruct (Hzero Hall) as [-> ->].
    by rewrite bool_decide_eq_false_2 by compute_done.
Qed.

Lemma LearningContext_init_unit (l : list Rule) (c m : Qc) :
  0 ≤ c ≤ 1 → 0 ≤ m ≤ 1 →
  LearningContext_init l c m
  = Ok {| rules := l; strategy := None; confidence_level := c;
          mastery_level := m; emotional_alignment := ∅ |}.
Proof.
  intros Hc Hm. unfold LearningContext_init.
  by rewrite (proj2 (in01_spec c) Hc), (proj2 (in01_spec m) Hm).
Qed.

(** X24.  [get_learning_context] passes the validation of
    [LearningContext] whenever [retrieve_rules] returns rules with valid
    statistics and no more successes than applications: it returns those
    rules with their mean confidence and their mastery, both in
    [[0,1]], and with both levels 0 when no rule was found. *)
Theorem learning_context_levels {conn : Type}
    (retrieve_rules : string → option string → option string →
                      prog (LearningEngine conn) (list Rule))
    (context : string) (domain user_id : option string)
    (self self' : LearningEngine conn) (found : list Rule) :
  retrieve_rules context domain user_id self = (self', Ok found) →
  Forall (λ r, valid_statistics r
               ∧ (success_count r ≤ application_count r)%Z) found →
  ∃ ctx,
    get_learning_context retrieve_rules context domain user_id self
    = (self', Ok ctx)
    ∧ rules ctx = found
    ∧ 0 ≤ confidence_level ctx ≤ 1
    ∧ 0 ≤ mastery_level ctx ≤ 1
    ∧ _calculate_mastery_from_rules found = Ok (mastery_level ctx)
    ∧ match found with
      | [] => confidence_level ctx = 0 ∧ mastery_level ctx = 0
      | _ =>
          confidence_level ctx
          = Builtins.sum (confidence <$> found) / Builtins.len found
      end.
Proof.
  intros Hrun Hall. unfold get_learning_context.
  rewrite bind_run, Hrun.
  destruct found as [|r l].
  { unfold lift. rewrite LearningContext_init_unit by (split; compute_done).
    eexists. split; [reflexivity|]. cbn [rules confidence_level mastery_level].
    repeat split; compute_done. }
  set (found := r :: l) in *.
  assert (0 < Builtins.len found) as Hlen.
  { subst found. rewrite Qc_len_cons. pose proof (Qc_len_nonneg l).
    qc_unfold. lra. }
  assert (0 ≤ Builtins.sum (confidence <$> found)
          ≤ Builtins.len (confidence <$> found)) as Hsum.
  { rewrite <- (Qcmult_1_l (Builtins.len (confidence <$> found))).
    apply Qc_sum_bounds; [compute_done|].
    apply Forall_fmap. eapply Forall_impl; [exact Hall|].
    intros x [(Hc & _) _]. exact Hc. }
  replace (Builtins.len (confidence <$> found)) with (Builtins.len found)
    in Hsum by (unfold Builtins.len; by rewrite length_fmap).
  pose proof (Qc_div_unit _ _ Hlen Hsum) as Havg.
  destruct (mastery_of_valid_rules found Hall) as (m & Hm & Hm01).
  rewrite truediv_pos by done. rewrite bind_lift, Hm, bind_lift.
  unfold lift. rewrite LearningContext_init_unit by done.
  eexists. split; [reflexivity|]. cbn [rules confidence_level mastery_level].
  by repeat split; try apply Havg; try apply Hm01.
Qed.
End MasteryFacts.

(** ** Rule feedback *)

Section LearningMore.
Import Feedback.
Context {conn : Type} `{!Db.Surreal conn}.
Implicit Types self : LearningEngine conn.

(** What [update_rule_confidence] does once the lookup has returned the
    row of the rule. *)
Lemma update_rule_confidence_on_rule self (rule_id : string) (success : bool)
    (resolution_time : option Qc) (now : string)
    (k k1 : conn) (rule_data : Db.record) (rows : list Db.record)
    (rest : Db.response) (a s f : Z) (old_avg : Qc) :
  Db._client (Learning.db self) = Some k →
  Db.surreal_call (Db.Select rule_id) k
  = (k1, Ok ({| Db.result := rule_data :: rows |} :: rest)) →
  rule_data !! "application_count" = Some (Db.VInt a) →
  rule_data !! "success_count" = Some (Db.VInt s) →
  rule_data !! "fail_count" = Some (Db.VInt f) →
  rule_data !! "avg_resolution_time" = Some (Db.VFloat old_avg) →
  (0 ≤ a)%Z →
  update_rule_confidence rule_id success resolution_time now self
  = try_except
      (Learning.on_db (Db.merge rule_id
                (spec_updates a s f old_avg success resolution_time now));;
       if spec_deprecated a s success
       then Learning.on_db (Db.merge rule_id {[ "deprecated" := Db.VBool true ]});;
            mret ()
       else mret ())
      (λ _, mret ())
      (after_select self k1).
Proof.
  intros Hk Hsel Ha Hs Hf Havg Hpos.
  unfold update_rule_confidence, update_rule_confidence_body, after_select.
  unfold try_except at 1 2.
  unfold mbind at 1, prog_bind at 1.
  unfold Learning.on_db at 1, zoom at 1, Db.select, Db.on_client.
  rewrite Hk, Hsel. cbn [Db.result].
  unfold get_default. rewrite Ha, Hs, Hf, Havg. cbn [default from_option id].
  match goal with
  | |- (let (_, _) := ?P ?st in _) = (let (_, _) := ?Q ?st in _) =>
      replace (P st) with (Q st); [reflexivity|]
  end.
  unfold spec_updates, spec_deprecated, spec_confidence, spec_success_count,
    spec_fail_count, spec_application_count.
  unfold lift, add, sub, mul, arith, truediv, lt.
  unfold mbind, prog_bind, exc_bind. cbn [as_int as_float].
  rewrite !nonzero_count by (destruct success; lia).
  cbn [as_float]. rewrite count_lt.
  destruct success, resolution_time; rewrite ?Z.add_0_r; reflexivity.
Qed.

(** X21.  Feedback on a rule the database does not hold changes
    nothing: when the lookup answers with no statement result, or with a
    first result that holds no row, [update_rule_confidence] returns
    after the lookup and sends no [merge]. *)
Theorem feedback_on_missing_rule self (rule_id : string) (success : bool)
    (resolution_time : option Qc) (now : string) (k k1 : conn)
    (response : Db.response) :
  Db._client (Learning.db self) = Some k →
  Db.surreal_call (Db.Select rule_id) k = (k1, Ok response) →
  match response with
  | [] => True
  | first :: _ => Db.result first = []
  end →
  update_rule_confidence rule_id success resolution_time now self
  = (after_select self k1, Ok ()).
Proof.
  intros Hk Hsel Hempty.
  unfold update_rule_confidence, update_rule_confidence_body, after_select.
  unfold try_except.
  unfold mbind at 1, prog_bind at 1.
  unfold Learning.on_db at 1, zoom at 1, Db.select, Db.on_client.
  rewrite Hk, Hsel.
  destruct response as [|first rest]; [done|]. by rewrite Hempty.
Qed.

(** X22.  On an existing rule with [0 ≤ s ≤ a] stored successes and
    applications, the confidence that [update_rule_confidence] merges
    into the rule lies strictly between 0 and 1: feedback never makes a
    rule certain, in either direction. *)
Theorem confidence_strictly_inside self (rule_id : string) (success : bool)
    (resolution_time : option Qc) (now : string)
    (k k1 : conn) (rule_data : Db.record) (rows : list Db.record)
    (rest : Db.response) (a s f : Z) (old_avg : Qc) :
  Db._client (Learning.db self) = Some k →
  Db.surreal_call (Db.Select rule_id) k
  = (k1, Ok ({| Db.result := rule_data :: rows |} :: rest)) →
  rule_data !! "application_count" = Some (Db.VInt a) →
  rule_data !! "success_count" = Some (Db.VInt s) →
  rule_data !! "fail_count" = Some (Db.VInt f) →
  rule_data !! "avg_resolution_time" = Some (Db.VFloat old_avg) →
  (0 ≤ s ≤ a)%Z →
  let updates := spec_updates a s f old_avg success resolution_time now in
  let new_confidence :=
    Qc_of_Z ((if success then s + 1 else s) + 1) / Qc_of_Z (a + 1 + 2) in
  update_rule_confidence rule_id success resolution_time now self
  = try_except
      (Learning.on_db (Db.merge rule_id updates);;
       if spec_deprecated a s success
       then Learning.on_db
              (Db.merge rule_id {[ "deprecated" := Db.VBool true ]});;
            mret ()
       else mret ())
      (λ _, mret ())
      (after_select self k1)
  ∧ updates !! "confidence" = Some (Db.VFloat new_confidence)
  ∧ 0 < new_confidence < 1.
Proof.
  intros Hk Hsel Ha Hs Hf Havg Hsa updates new_confidence.
  subst updates new_confidence.
  split; [|split].
  - apply (update_rule_confidence_on_rule _ _ _ _ _ k k1 rule_data rows rest);
      first [done | lia].
  - unfold spec_updates. destruct resolution_time; by simplify_map_eq.
  - set (num := ((if success then s + 1 else s) + 1)%Z).
    set (den := (a + 1 + 2)%Z).
    assert (0 < num < den)%Z as [Hnum Hden]
      by (subst num den; destruct success; lia).
    assert (0 < Qc_of_Z den) as Hd by (apply Qc_of_Z_pos; lia).
    assert (Qc_of_Z den ≠ 0) as Hne.
    { intros Heq. symmetry in Heq. exact (Qclt_not_eq _ _ Hd Heq). }
    split; apply (Qcmult_lt_mono_pos_r _ _ (Qc_of_Z den) Hd).
    + replace (Qc_of_Z num / Qc_of_Z den * Qc_of_Z den) with (Qc_of_Z num)
        by (by field).
      rewrite Qcmult_0_l. by apply Qc_of_Z_pos.
    + replace (Qc_of_Z num / Qc_of_Z den * Qc_of_Z den) with (Qc_of_Z num)
        by (by field).
      rewrite Qcmult_1_l. by apply (proj1 (Z2Qc_inj_lt _ _)).
Qed.

(** X23.  On the first application of a rule (the row holds
    [application_count = 0]) with a resolution time [t],
    [update_rule_confidence] merges [t] itself as [avg_resolution_time],
    whatever mean the row held, and sends no other merge: a rule is not
    deprecated on its first application. *)
Theorem first_application_mean self (rule_id : string) (success : bool)
    (t : Qc) (now : string)
    (k k1 : conn) (rule_data : Db.record) (rows : list Db.record)
    (rest : Db.response) (s f : Z) (old_avg : Qc) :
  Db._client (Learning.db self) = Some k →
  Db.surreal_call (Db.Select rule_id) k
  = (k1, Ok ({| Db.result := rule_data :: rows |} :: rest)) →
  rule_data !! "application_count" = Some (Db.VInt 0) →
  rule_data !! "success_count" = Some (Db.VInt s) →
  rule_data !! "fail_count" = Some (Db.VInt f) →
  rule_data !! "avg_resolution_time" = Some (Db.VFloat old_avg) →
  update_rule_confidence rule_id success (Some t) now self
  = try_except
      (Learning.on_db
         (Db.merge rule_id
            (<["avg_resolution_time" := Db.VFloat t]>
               (spec_updates 0 s f old_avg success None now)));;
       mret ())
      (λ _, mret ())
      (after_select self k1).
Proof.
  intros Hk Hsel Ha Hs Hf Havg.
  rewrite (update_rule_confidence_on_rule _ _ _ _ _ k k1 rule_data rows rest
             0 s f old_avg Hk Hsel Ha Hs Hf Havg ltac:(lia)).
  assert (spec_deprecated 0 s success = false) as ->.
  { unfold spec_deprecated, spec_application_count.
    rewrite (bool_decide_eq_false_2 (10 < 0 + 1)%Z) by lia.
    apply andb_false_r. }
  assert ((old_avg * Qc_of_Z (spec_application_count 0 - 1) + t)
          / Qc_of_Z (spec_application_count 0) = t) as Hmean.
  { unfold spec_application_count.
    change (0 + 1 - 1)%Z with 0%Z. change (0 + 1)%Z with 1%Z.
    rewrite Z2Qc_inj_0, Z2Qc_inj_1. by field. }
  unfold spec_updates at 1. by rewrite Hmean.
Qed.
End LearningMore.
(** ** The theorems at concrete inputs *)

Ltac unit_fields :=
  unfold in_unit; simpl;
  repeat (apply Forall_cons; split; [split; compute_done|]);
  apply Forall_nil_2.

Lemma C1_vector_bounds_witness :
  (∃ v, Physics.tick (Physics.init sample_config) half_joy 1 (Some zero) = Ok v
        ∧ in_unit v)
  ∧ (∃ v, Physics.apply_influence (Physics.init sample_config) half_joy
            [("joy", float 5 1); ("fear", float (-3) 1); ("hope", 1)] 1 = Ok v
          ∧ in_unit v).
Proof.
  destruct (C1_vector_bounds sample_config half_joy zero
              [("joy", float 5 1); ("fear", float (-3) 1); ("hope", 1)] 1 1)
    as (Htick & _ & Hinfluence & _).
  - unit_fields.
  - unit_fields.
  - split; compute_done.
  - compute_done.
  - split; [exact Htick|exact Hinfluence].
Defined.

Lemma C5_decay_pass_witness :
  ∃ new_emotions,
    Physics.decay_pass (Physics.init sample_config)
      (Emotion.model_dump half_joy) 1 zero
    = Ok new_emotions
    ∧ get new_emotions "joy" = Some (float 4 10).
Proof.
  apply (proj2 (C5_decay_pass sample_config half_joy zero 1)); reflexivity.
Defined.

Lemma C8_neutral_and_deterministic_witness :
  translate (uniform (float 5 100)) None
  = Ok "A calm, neutral state—emotions at rest, awaiting what comes next."
  ∧ get_state_hash (uniform (float 5 100)) = "neutral".
Proof.
  apply (proj1 (C8_neutral_and_deterministic (uniform (float 5 100)))).
  simpl. repeat (apply Forall_cons; split; [compute_done|]).
  apply Forall_nil_2.
Defined.

Lemma C7_select_layer_witness :
  analyze_complexity "hi there" = float 2 10
  ∧ select_layer "hi there" false = "L1".
Proof.
  pose proof (C7_select_layer "hi there" false) as H. cbv zeta in H.
  destruct H as (Hfew & _ & _ & _ & Hl1 & _). split.
  - apply Hfew. simpl. lia.
  - apply Hl1. split; [compute_done|reflexivity].
Defined.

Lemma C2_update_rule_confidence_witness :
  rule_after false 10 1 9 !! "confidence" = Some (Db.VFloat (float 2 13))
  ∧ rule_after false 10 1 9 !! "deprecated" = Some (Db.VBool true)
  ∧ rule_after false 10 1 9 !! "application_count" = Some (Db.VInt 11).
Proof.
  unfold rule_after.
  rewrite (proj1 (C2_update_rule_confidence Db.Mem.mem Db.Mem.driver
                    (engine_with_rule 10 1 9) "rule:r1" false None
                    "2026-01-01T00:00:00"
                    {| Db.Mem.opened := true;
                       Db.Mem.store := {[ "rule:r1" := rule_row 10 1 9 ]};
                       Db.Mem.log := [] |}
                    {| Db.Mem.opened := true;
                       Db.Mem.store := {[ "rule:r1" := rule_row 10 1 9 ]};
                       Db.Mem.log := [Db.Select "rule:r1"] |}
                    (rule_row 10 1 9) [] [] 10 1 9 0
                    eq_refl eq_refl eq_refl eq_refl eq_refl eq_refl
                    ltac:(lia))).
  repeat split; reflexivity.
Defined.

#[local] Existing Instances null_bus goal_model.

(** With the database client never connected, nothing is persisted and
    nothing is appended, although no goal is active and none is recent. *)
Lemma C6_counterexample_offline :
  let self := goal_engine Db.new [] in
  length (List.filter is_active (active_goals self)) = 0%nat
  ∧ recent_goals "boredom" (minutes 61) (active_goals self) = []
  ∧ _consider_new_goal "boredom" (minutes 61) "0123456789ab" self
    = (self, Ok ()).
Proof. repeat split; reflexivity. Qed.

Lemma C6_goal_throttling_witness :
  _consider_new_goal "boredom" (minutes 61) "0123456789ab"
    (goal_engine online_db three_active)
  = (goal_engine online_db three_active, Ok ())
  ∧ _consider_new_goal "boredom" (minutes 10) "0123456789ab"
      (goal_engine online_db old_boredom_goal)
    = (goal_engine online_db old_boredom_goal, Ok ())
  ∧ ∃ goal,
      origin goal = "autonomous_boredom"
      ∧ active_goals (_consider_new_goal "boredom" (minutes 61) "0123456789ab"
                        (goal_engine online_db old_boredom_goal)).1
        = (old_boredom_goal ++ [goal])%list.
Proof.
  assert ("boredom" ∈ ["boredom"; "idle_exploration"; "curiosity"]) as Htrigger
    by apply list_elem_of_here.
  split; [|split].
  - apply (proj1 (C6_goal_throttling _ _ _ _ _ (goal_engine online_db three_active)
                   "boredom" (minutes 61) "0123456789ab" Htrigger)).
    left. simpl. lia.
  - apply (proj1 (C6_goal_throttling _ _ _ _ _
                   (goal_engine online_db old_boredom_goal)
                   "boredom" (minutes 10) "0123456789ab" Htrigger)).
    right. eexists. split; [apply list_elem_of_here|].
    split; [reflexivity|compute_done].
  - destruct (proj2 (C6_goal_throttling _ _ _ _ _
                       (goal_engine online_db old_boredom_goal)
                       "boredom" (minutes 61) "0123456789ab" Htrigger))
      as (goal & _ & Ho & _ & Happ).
    + simpl. lia.
    + intros (g & Hin & _ & Hage).
      apply list_elem_of_singleton in Hin as ->.
      revert Hage. compute_done.
    + exists goal. split; [exact Ho|exact Happ].
Defined.



(** ** The further properties at concrete inputs *)

Lemma volatility_mean_change_witness :
  Metrics.calculate_volatility (Physics.init sample_config) half_joy zero
  = Ok (Builtins.sum (Metrics.field_changes half_joy zero) / Qc_of_Z 27).
Proof.
  apply (volatility_mean_change (Physics.init sample_config) half_joy zero);
    unit_fields.
Defined.

Lemma stability_of_history_witness :
  Metrics.calculate_stability (Physics.init sample_config)
    [float 2 10; float 4 10]
  = Ok (1 - Builtins.sum [float 2 10; float 4 10]
            / Builtins.len [float 2 10; float 4 10]).
Proof.
  apply (proj2 (proj2 (stability_of_history (Physics.init sample_config)
                         [float 2 10; float 4 10]))).
  - discriminate.
  - repeat (apply Forall_cons; split; [split; compute_done|]).
    apply Forall_nil_2.
Defined.

Lemma influence_untouched_witness :
  ∃ v', Physics.apply_influence (Physics.init sample_config) half_joy
          [("joy", float 2 10); ("melody", 1)] 1 = Ok v'
        ∧ get (Emotion.model_dump v') "fear"
          = get (Emotion.model_dump half_joy) "fear".
Proof.
  destruct (Physics.apply_influence (Physics.init sample_config) half_joy
              [("joy", float 2 10); ("melody", 1)] 1) as [v'|e] eqn:Hrun.
  - exists v'. split; [reflexivity|].
    apply (influence_untouched _ _ _ _ _ _ Hrun). compute_done.
  - vm_compute in Hrun. discriminate Hrun.
Defined.

Lemma influence_named_witness :
  ∃ v', Physics.apply_influence (Physics.init sample_config) half_joy
          [("joy", float 2 10); ("fear", float 9 10)] (float 2 1) = Ok v'
        ∧ get (Emotion.model_dump v') "joy"
          = Some (Py.max 0 (Py.min 1 (float 5 10 + float 2 10 * float 2 1))).
Proof.
  destruct (Physics.apply_influence (Physics.init sample_config) half_joy
              [("joy", float 2 10); ("fear", float 9 10)] (float 2 1)) as [v'|e] eqn:Hrun.
  - exists v'. split; [reflexivity|].
    apply (influence_named _ _ _ _ _ _ _ _ Hrun).
    + compute_done.
    + apply list_elem_of_here.
    + reflexivity.
  - vm_compute in Hrun. discriminate Hrun.
Defined.

Lemma tick_zero_step_witness :
  Physics.tick (Physics.init sample_config) half_joy 0 (Some zero)
  = Ok half_joy.
Proof.
  apply (tick_zero_step sample_config half_joy (Some zero)). unit_fields.
Defined.

Lemma tick_at_rest_witness :
  Physics.tick (Physics.init sample_config) (uniform (float 5 100))
    (float 3 1) (Some (uniform (float 5 100)))
  = Ok (uniform (float 5 100)).
Proof.
  apply (tick_at_rest sample_config (uniform (float 5 100)) (float 3 1)
           (Some (uniform (float 5 100)))).
  - unit_fields.
  - simpl. repeat (apply Forall_cons; split; [compute_done|]).
    apply Forall_nil_2.
  - reflexivity.
Defined.

Lemma connect_outcome_witness :
  Db.is_connected (Db.connect (Db.new : Db.DatabaseClient Db.Mem.mem)).1
  = true
  ∧ let refused :=
      @Db.connect MoreSamples.archive MoreSamples.locked_driver Db.new in
    refused.2 = Raise (ConnectionError "authentication failed")
    ∧ (∃ k k',
         @Db.surreal_connect _ MoreSamples.locked_driver k
         = (k', Raise (ConnectionError "authentication failed"))
         ∨ @Db.surreal_signin _ MoreSamples.locked_driver
             (Db.surreal_user Db.settings) (Db.surreal_pass Db.settings) k
           = (k', Raise (ConnectionError "authentication failed"))
         ∨ @Db.surreal_use _ MoreSamples.locked_driver
             (Db.surreal_ns Db.settings) (Db.surreal_db Db.settings) k
           = (k', Raise (ConnectionError "authentication failed")))
    ∧ Db.is_connected refused.1 = false
    ∧ @Db.data_operation _ MoreSamples.locked_driver
        (Db.Select "rule:r1") refused.1
      = Db.on_client
          (@Db.surreal_call _ MoreSamples.locked_driver (Db.Select "rule:r1"))
          refused.1.
Proof.
  split.
  - exact (connect_outcome (Db.new : Db.DatabaseClient Db.Mem.mem)
             (Db.Select "rule:r1") eq_refl).
  - split; [reflexivity|].
    exact (@connect_outcome MoreSamples.archive MoreSamples.locked_driver
             Db.new (Db.Select "rule:r1") eq_refl).
Defined.

Lemma connect_idempotent_witness :
  let self := (Db.connect (Db.new : Db.DatabaseClient Db.Mem.mem)).1 in
  Db.connect self = (self, Ok ()).
Proof.
  exact (connect_idempotent (Db.new : Db.DatabaseClient Db.Mem.mem) eq_refl).
Defined.

Lemma close_idempotent_witness :
  Db.close (Db.close online_db).1 = ((Db.close online_db).1, Ok ())
  ∧ Db.is_connected (Db.close online_db).1 = false.
Proof.
  exact (close_idempotent online_db eq_refl).
Defined.

Lemma focus_has_top_priority_witness :
  let self :=
    goal_engine online_db
      [ sample_goal "goal:a" "user" "completed" 0;
        sample_goal "goal:b" "user" "active" 0 ] in
  ∃ ctx focus,
    get_goal_context self = (self, Ok ctx)
    ∧ current_focus ctx = Some focus
    ∧ priority (sample_goal "goal:b" "user" "active" 0) ≤ priority focus.
Proof.
  intros self.
  destruct (focus_has_top_priority self) as (ctx & Hrun & Hnone & Htop).
  destruct (current_focus ctx) as [focus|] eqn:Hfocus.
  - exists ctx, focus. split; [exact Hrun|]. split; [exact Hfocus|].
    apply (Htop focus _ eq_refl).
    + apply list_elem_of_further, list_elem_of_here.
    + reflexivity.
  - exfalso.
    apply (proj1 Hnone eq_refl (sample_goal "goal:b" "user" "active" 0)).
    + apply list_elem_of_further, list_elem_of_here.
    + reflexivity.
Defined.

Lemma at_most_one_goal_appended_witness :
  let self := goal_engine online_db old_boredom_goal in
  active_goals (after (Tick (minutes 90) "0123456789ab") self)
  = active_goals self
  ∨ ∃ goal,
      active_goals (after (Tick (minutes 90) "0123456789ab") self)
      = (active_goals self ++ [goal])%list.
Proof.
  intros self.
  exact (at_most_one_goal_appended (Tick (minutes 90) "0123456789ab") self I).
Defined.

Lemma active_goals_capped_witness :
  let self := goal_engine online_db three_active in
  (length (List.filter is_active
             (active_goals
                (after (ConsiderNewGoal "curiosity" (minutes 90)
                          "0123456789ab") self)))
   ≤ Nat.max 3 (length (List.filter is_active (active_goals self))))%nat.
Proof.
  intros self.
  exact (active_goals_capped
           (ConsiderNewGoal "curiosity" (minutes 90) "0123456789ab") self I).
Defined.

Lemma unknown_goal_is_ignored_witness :
  let self := goal_engine online_db three_active in
  update_goal_progress "goal:z" 1 "done" (minutes 5) self = (self, Ok ())
  ∧ cancel_goal "goal:z" "obsolete" (minutes 5) self = (self, Ok ()).
Proof.
  intros self.
  apply (unknown_goal_is_ignored self "goal:z" "done" "obsolete" 1 (minutes 5)).
  intros g Hg. apply list_elem_of_In in Hg. simpl in Hg.
  destruct Hg as [<-|[<-|[<-|[]]]]; discriminate.
Defined.

Lemma only_first_match_changes_witness :
  let self := goal_engine online_db three_active in
  active_goals (update_goal_progress "goal:b" 1 "done" (minutes 5) self).1
    !! 2%nat
  = active_goals self !! 2%nat
  ∧ active_goals (cancel_goal "goal:b" "obsolete" (minutes 5) self).1
      !! 2%nat
    = active_goals self !! 2%nat.
Proof.
  intros self.
  apply (only_first_match_changes self "goal:b" "done" "obsolete" 1
           (minutes 5) 1%nat 2%nat (sample_goal "goal:b" "user" "active" 0)).
  - reflexivity.
  - discriminate.
Defined.

Lemma formulated_goal_is_appended_witness :
  let self := goal_engine online_db three_active in
  formulate_goal "anger" ∅ (minutes 5) "0123456789ab" self = (self, Ok None)
  ∧ ∃ goal,
      (formulate_goal "curiosity" ∅ (minutes 5) "0123456789ab" self).2
      = Ok (Some goal)
      ∧ active_goals
          (formulate_goal "curiosity" ∅ (minutes 5) "0123456789ab" self).1
        = (active_goals self ++ [goal])%list
      ∧ goal_id goal = "goal:0123456789ab"
      ∧ origin goal = "autonomous_curiosity".
Proof.
  intros self. split.
  - apply (proj1 (formulated_goal_is_appended self "anger" ∅ (minutes 5)
                    "0123456789ab")).
    compute_done.
  - destruct (formulate_goal "curiosity" ∅ (minutes 5) "0123456789ab" self).2
      as [[goal|]|e] eqn:Hrun.
    + exists goal. split; [reflexivity|].
      exact (proj2 (formulated_goal_is_appended self "curiosity" ∅ (minutes 5)
                      "0123456789ab") goal Hrun).
    + vm_compute in Hrun. discriminate Hrun.
    + vm_compute in Hrun. discriminate Hrun.
Defined.

Lemma mastery_bounds_witness :
  ∃ m,
    Mastery._calculate_mastery_from_rules
      [ MoreSamples.sample_rule (float 8 10) 10 7;
        MoreSamples.sample_rule (float 5 10) 0 0 ] = Ok m
    ∧ 0 ≤ m ≤ 1.
Proof.
  apply (proj2 (proj2 (mastery_bounds
                         [ MoreSamples.sample_rule (float 8 10) 10 7;
                           MoreSamples.sample_rule (float 5 10) 0 0 ]))).
  repeat (apply Forall_cons; split;
          [split; [unfold Mastery.valid_statistics; simpl;
                   repeat split; (compute_done || lia)
                  |simpl; lia]|]).
  apply Forall_nil_2.
Defined.

Lemma feedback_on_missing_rule_witness :
  Learning.update_rule_confidence "rule:r2" true None "2026-01-01T00:00:00"
    (engine_with_rule 10 1 9)
  = (Feedback.after_select (engine_with_rule 10 1 9)
       (MoreSamples.rule_connection 10 1 9 [Db.Select "rule:r2"]),
     Ok ()).
Proof.
  apply (feedback_on_missing_rule (engine_with_rule 10 1 9) "rule:r2" true
           None "2026-01-01T00:00:00"
           (MoreSamples.rule_connection 10 1 9 [])
           (MoreSamples.rule_connection 10 1 9 [Db.Select "rule:r2"])
           [ {| Db.result := [] |} ]);
    reflexivity.
Defined.

Lemma confidence_strictly_inside_witness :
  0 < Qc_of_Z (1 + 1) / Qc_of_Z (10 + 1 + 2) < 1.
Proof.
  apply (confidence_strictly_inside (engine_with_rule 10 1 9) "rule:r1" false
           None "2026-01-01T00:00:00"
           (MoreSamples.rule_connection 10 1 9 [])
           (MoreSamples.rule_connection 10 1 9 [Db.Select "rule:r1"])
           (rule_row 10 1 9) [] [] 10 1 9 0);
    first [reflexivity | lia].
Defined.

Lemma first_application_mean_witness :
  Learning.update_rule_confidence "rule:r1" true (Some (float 3 1))
    "2026-01-01T00:00:00" (engine_with_rule 0 0 0)
  = try_except
      (Learning.on_db
         (Db.merge "rule:r1"
            (<["avg_resolution_time" := Db.VFloat (float 3 1)]>
               (Learning.spec_updates 0 0 0 0 true None
                  "2026-01-01T00:00:00")));;
       mret ())
      (λ _, mret ())
      (Feedback.after_select (engine_with_rule 0 0 0)
         (MoreSamples.rule_connection 0 0 0 [Db.Select "rule:r1"])).
Proof.
  apply (first_application_mean (engine_with_rule 0 0 0) "rule:r1" true
           (float 3 1) "2026-01-01T00:00:00"
           (MoreSamples.rule_connection 0 0 0 [])
           (MoreSamples.rule_connection 0 0 0 [Db.Select "rule:r1"])
           (rule_row 0 0 0) [] [] 0 0 0);
    reflexivity.
Defined.

Lemma learning_context_levels_witness :
  let found := [ MoreSamples.sample_rule (float 8 10) 10 7;
                 MoreSamples.sample_rule (float 5 10) 0 0 ] in
  ∃ ctx,
    Mastery.get_learning_context (λ _ _ _ self, (self, Ok found))
      "import error" (Some "python") None offline_engine
    = (offline_engine, Ok ctx)
    ∧ 0 ≤ Mastery.mastery_level ctx ≤ 1.
Proof.
  intros found.
  destruct (learning_context_levels (λ _ _ _ self, (self, Ok found))
              "import error" (Some "python") None
              offline_engine offline_engine found eq_refl)
    as (ctx & Hrun & _ & _ & Hmastery & _).
  - subst found.
    repeat (apply Forall_cons; split;
            [split; [unfold Mastery.valid_statistics; simpl;
                     repeat split; (compute_done || lia)
                    |simpl; lia]|]).
    apply Forall_nil_2.
  - exists ctx. split; [exact Hrun|exact Hmastery].
Defined.
